(** * Customer journey mapper: a shallow embedding of [customer_journey.py]

    The Python class [CustomerJourneyMapper] keeps five SQLite tables and
    answers every question with one SQL statement.  Here each table is the
    list of its rows in insertion (rowid) order, each statement is the
    list pipeline it denotes (join, [WHERE], [SELECT], [DISTINCT],
    [GROUP BY], [ORDER BY]), and each method is a function from the store
    to a result and a new store.

    - What the program takes from its environment is an argument of the
      method that uses it: the identifiers drawn with [uuid.uuid4()], the
      clock reading [datetime.utcnow().isoformat()] and the cut-off
      computed from the clock.
    - A [PRIMARY KEY] clash raises [sqlite3.IntegrityError].  Foreign keys
      are declared but not enforced (the program never switches
      [PRAGMA foreign_keys] on), so they put no condition on an insert.
    - [TEXT] columns are strings, compared byte by byte; timestamps are
      [TEXT].
    - Rows with equal [ORDER BY] keys keep the order in which the statement
      produced them, and the groups of a [GROUP BY] come in the order of
      their first row; SQL leaves both open.
    - Python's [float] and SQLite's [REAL] are IEEE binary64: they are
      Rocq's primitive [float].  SQLite has no NaN: a NaN that is bound to
      a statement or computed by one is stored and returned as [NULL].  In
      a [REAL] column or result the one NaN of [float] therefore stands for
      [NULL]; Python reads it as [None].
    - Python's [int] is unbounded and SQLite's [INTEGER] has 64 bits: an
      [int] outside that range cannot be bound to a statement, and the call
      raises [OverflowError] before the statement runs.
    - A method that takes a window in days or hours is modelled from the
      point where its cut-off is known.

    The renderers and the command line are not modelled. *)

From Stdlib Require Import List String Ascii Bool Arith ZArith QArith Qround Lia Lqa.
From Stdlib Require Import Permutation Sorted Floats DecimalString.
Import ListNotations.

Set Implicit Arguments.
Set Warnings "-inexact-float".
Close Scope Q_scope.
Local Open Scope string_scope.
Local Open Scope list_scope.

(* ================================================================== *)
(** ** Relational operators on lists of rows *)

Module Sql.

Section Rows.
Context {A : Type}.

(** [DISTINCT]: a row is kept the first time it is produced. *)
Fixpoint distinct_aux (eqb : A -> A -> bool) (seen l : list A) : list A :=
  match l with
  | [] => []
  | x :: l' =>
      if existsb (eqb x) seen then distinct_aux eqb seen l'
      else x :: distinct_aux eqb (x :: seen) l'
  end.

Definition distinct (eqb : A -> A -> bool) (l : list A) : list A :=
  distinct_aux eqb [] l.

(** [ORDER BY key]: rows with equal keys stay in the order in which the
    statement produced them (SQLite's sorter is a stable merge sort). *)
Fixpoint insert_by (key : A -> Z) (x : A) (l : list A) : list A :=
  match l with
  | [] => [x]
  | y :: l' =>
      if (key x <? key y)%Z then x :: y :: l'
      else y :: insert_by key x l'
  end.

Definition order_by (key : A -> Z) (l : list A) : list A :=
  fold_left (fun acc x => insert_by key x acc) l [].

(** The order an [ORDER BY key] result is in. *)
Definition key_le (key : A -> Z) (x y : A) : Prop := (key x <= key y)%Z.

End Rows.

(** [GROUP BY key] with [COUNT( * )]: one row per key, with the number of
    rows that carry it. *)
Definition group_count {A K : Type} (eqb : K -> K -> bool) (key : A -> K)
    (l : list A) : list (K * nat) :=
  map (fun k => (k, List.length (filter (fun x => eqb (key x) k) l)))
      (distinct eqb (map key l)).

(** [l1 JOIN l2 ON on]: the nested loop, [l1] outside. *)
Definition join {A B : Type} (on : A -> B -> bool) (l1 : list A) (l2 : list B)
    : list (A * B) :=
  flat_map (fun a => map (pair a) (filter (on a) l2)) l1.

(** [SUBSTR(s, start, len)], [start] counted from 1, on ASCII text. *)
Definition substr (s : string) (start len : nat) : string :=
  String.substring (start - 1) len s.

Definition is_space (c : ascii) : bool :=
  let n := nat_of_ascii c in
  Nat.eqb n 32 || (Nat.leb 9 n && Nat.leb n 13).

Definition digit_of (c : ascii) : option Z :=
  let n := nat_of_ascii c in
  if Nat.leb 48 n && Nat.leb n 57 then Some (Z.of_nat (n - 48)) else None.

Fixpoint skip_spaces (s : string) : string :=
  match s with
  | String c s' => if is_space c then skip_spaces s' else s
  | EmptyString => s
  end.

Fixpoint leading_digits (acc : Z) (s : string) : Z :=
  match s with
  | String c s' =>
      match digit_of c with
      | Some d => leading_digits (10 * acc + d)%Z s'
      | None => acc
      end
  | EmptyString => acc
  end.

(** [CAST(s AS INTEGER)] on text: blanks, a sign, then the longest run of
    digits; [0] when there is none. *)
Definition cast_integer (s : string) : Z :=
  match skip_spaces s with
  | String "-" s' => (- leading_digits 0 s')%Z
  | String "+" s' => leading_digits 0 s'
  | s' => leading_digits 0 s'
  end.

(** The range of an [INTEGER]: 64 bits, sign included. *)
Definition int64 (n : Z) : bool :=
  (-9223372036854775808 <=? n)%Z && (n <=? 9223372036854775807)%Z.

(** In a [REAL] column or result, NaN stands for [NULL]. *)
Definition is_null (x : float) : bool := PrimFloat.is_nan x.

Definition null : float := PrimFloat.nan.

(** The values an aggregate sees: it skips [NULL]. *)
Definition not_null (vs : list float) : list float :=
  filter (fun v => negb (is_null v)) vs.

(** [SUM] over a [REAL] column: the values that are not [NULL] added up in
    the order of the rows; [NULL] when there is none, and when the sum is
    not a number. *)
Definition sum_real (vs : list float) : float :=
  match not_null vs with
  | [] => null
  | xs => fold_left PrimFloat.add xs 0%float
  end.

End Sql.

(* ================================================================== *)
(** ** Python values *)

(** The exceptions the modelled methods can raise. *)
Inductive error : Type :=
  | IntegrityError
  | OverflowError
  | TypeError
  | ZeroDivisionError.

Inductive result (A : Type) : Type :=
  | Ok (a : A)
  | Raise (e : error).
Arguments Ok {A} a.
Arguments Raise {A} e.

Definition bind {A B : Type} (r : result A) (k : A -> result B) : result B :=
  match r with
  | Ok a => k a
  | Raise e => Raise e
  end.

Notation "x <- r ;; k" := (bind r (fun x => k))
  (at level 61, r at next level, right associativity).

(** Binding a Python [int] to a statement: [OverflowError] ("Python int too
    large to convert to SQLite INTEGER") outside 64 bits.  All parameters
    are bound before the statement runs, so this error comes before any
    the statement itself can raise. *)
Definition bind_integer (n : Z) : result Z :=
  if Sql.int64 n then Ok n else Raise OverflowError.

(** A [REAL] result as Python reads it: [None] for [NULL]. *)
Definition python_real (x : float) : option float :=
  if Sql.is_null x then None else Some x.

(** The values stored in the dictionaries the methods return. *)
Inductive pyval : Type :=
  | PStr (s : string)
  | PInt (z : Z).

Definition pydict := list (string * pyval).

Definition dict_keys (d : pydict) : list string := map fst d.

Fixpoint dict_get (d : pydict) (k : string) : option pyval :=
  match d with
  | [] => None
  | (k', v) :: d' => if String.eqb k' k then Some v else dict_get d' k
  end.

(** [x in names] for a list or a set of strings. *)
Definition str_in (x : string) (names : list string) : bool :=
  existsb (String.eqb x) names.

(* ================================================================== *)
(** ** Dataclasses and tables *)

Record FunnelStage : Type := mkFunnelStage {
  fs_id : string;
  fs_name : string;
  fs_position : Z;
  fs_description : string;
  fs_entry_event : string;
  fs_exit_event : string
}.

Record CustomerSession : Type := mkCustomerSession {
  cs_id : string;
  cs_customer_id : string;
  cs_start_time : string;
  cs_end_time : option string;
  cs_channel : string;
  cs_device : string;
  cs_converted : bool;
  cs_conversion_value : float
}.

Record Touchpoint : Type := mkTouchpoint {
  tp_id : string;
  tp_session_id : string;
  tp_customer_id : string;
  tp_channel : string;
  tp_page : string;
  tp_event_type : string;
  tp_timestamp : string;
  tp_duration_ms : Z;
  tp_metadata : string
}.

Record ConversionPath : Type := mkConversionPath {
  cp_id : string;
  cp_session_id : string;
  cp_stages_visited : list string;
  cp_path_signature : string;
  cp_converted : bool;
  cp_created_at : string
}.

Record DropoffEvent : Type := mkDropoffEvent {
  de_id : string;
  de_session_id : string;
  de_stage_id : string;
  de_stage_name : string;
  de_timestamp : string;
  de_reason : string
}.

(** The database: the five tables of [init_db]. *)
Record DB : Type := mkDB {
  funnel_stages : list FunnelStage;
  sessions : list CustomerSession;
  touchpoints : list Touchpoint;
  conversion_paths : list ConversionPath;
  dropoff_events : list DropoffEvent
}.

Definition empty_db : DB := mkDB [] [] [] [] [].

(** The key constraints of the schema: [id] is the primary key of every
    table and [funnel_stages.name] is [UNIQUE]. *)
Record db_wf (db : DB) : Prop := mk_db_wf {
  wf_stage_ids : NoDup (map fs_id (funnel_stages db));
  wf_stage_names : NoDup (map fs_name (funnel_stages db));
  wf_session_ids : NoDup (map cs_id (sessions db));
  wf_touchpoint_ids : NoDup (map tp_id (touchpoints db));
  wf_path_ids : NoDup (map cp_id (conversion_paths db));
  wf_dropoff_ids : NoDup (map de_id (dropoff_events db))
}.

(** [INSERT] of a row whose primary key is [k]. *)
Definition pk_insert {R : Type} (key : R -> string) (table : list R) (row : R)
    : result (list R) :=
  if str_in (key row) (map key table) then Raise IntegrityError
  else Ok (table ++ [row]).

(* ================================================================== *)
(** ** Stage management and session lifecycle *)

(** [define_funnel_stage]; [stage_id] is the identifier [uuid.uuid4()]
    draws.  [INSERT OR REPLACE] removes the rows that clash with the new
    one on [id] or on [name], then inserts it. *)
Definition define_funnel_stage (db : DB) (stage_id : string)
    (name : string) (position : Z) (description entry_event exit_event : string)
    : result (DB * FunnelStage) :=
  pos <- bind_integer position ;;
  let st := mkFunnelStage stage_id name pos description entry_event exit_event in
  let kept :=
    filter (fun s => negb (String.eqb (fs_id s) stage_id || String.eqb (fs_name s) name))
           (funnel_stages db) in
  Ok (mkDB (kept ++ [st]) (sessions db) (touchpoints db)
           (conversion_paths db) (dropoff_events db), st).

(** [start_session]. *)
Definition start_session (db : DB) (session_id now : string)
    (customer_id channel device : string) : result (DB * string) :=
  let row := mkCustomerSession session_id customer_id now None channel device
                               false 0%float in
  ss <- pk_insert cs_id (sessions db) row ;;
  Ok (mkDB (funnel_stages db) ss (touchpoints db)
           (conversion_paths db) (dropoff_events db), session_id).

(** [SELECT * FROM funnel_stages WHERE entry_event = ? ORDER BY position]. *)
Definition stages_entered_by (db : DB) (event_type : string) : list FunnelStage :=
  Sql.order_by fs_position
    (filter (fun fs => String.eqb (fs_entry_event fs) event_type) (funnel_stages db)).

(** [record_touchpoint].  [metadata] is the JSON text of the dictionary,
    [None] for a missing or empty one. *)
Definition record_touchpoint (db : DB) (tp_id' now : string)
    (session_id customer_id channel page event_type : string)
    (duration_ms : Z) (metadata : option string) : result (DB * pydict) :=
  let meta_str := match metadata with Some m => m | None => "{}" end in
  duration <- bind_integer duration_ms ;;
  let row := mkTouchpoint tp_id' session_id customer_id channel page event_type
                          now duration meta_str in
  tps <- pk_insert tp_id (touchpoints db) row ;;
  let db' := mkDB (funnel_stages db) (sessions db) tps
                  (conversion_paths db) (dropoff_events db) in
  let stage_info : pydict :=
    match stages_entered_by db' event_type with
    | row :: _ =>
        [ ("stage_entered", PStr (fs_name row));
          ("position", PInt (fs_position row));
          ("stage_id", PStr (fs_id row)) ]
    | [] => []
    end in
  Ok (db', ("touchpoint_id", PStr tp_id') :: stage_info).

(** A row of the join in [end_session]: [fs.id, fs.name, fs.position]. *)
Definition stage_row : Type := string * string * Z.
Definition row_id (r : stage_row) : string := fst (fst r).
Definition row_name (r : stage_row) : string := snd (fst r).
Definition row_position (r : stage_row) : Z := snd r.

Definition stage_row_eqb (r1 r2 : stage_row) : bool :=
  String.eqb (row_id r1) (row_id r2) && String.eqb (row_name r1) (row_name r2)
  && Z.eqb (row_position r1) (row_position r2).

Definition to_row (fs : FunnelStage) : stage_row :=
  (fs_id fs, fs_name fs, fs_position fs).

(** [SELECT DISTINCT fs.id, fs.name, fs.position
     FROM touchpoints tp JOIN funnel_stages fs ON tp.event_type = fs.entry_event
     WHERE tp.session_id = ? ORDER BY fs.position]. *)
Definition session_stage_rows (stages : list FunnelStage) (tps : list Touchpoint)
    (session_id : string) : list stage_row :=
  Sql.order_by row_position
    (Sql.distinct stage_row_eqb
       (map (fun p => to_row (snd p))
          (Sql.join (fun tp fs => String.eqb (tp_event_type tp) (fs_entry_event fs))
             (filter (fun tp => String.eqb (tp_session_id tp) session_id) tps)
             stages))).

Definition separator : string := " → ".

(** [" → ".join(stages_visited) if stages_visited else "direct"]. *)
Definition path_signature_of (stages_visited : list string) : string :=
  match stages_visited with
  | [] => "direct"
  | _ => String.concat separator stages_visited
  end.

(** [UPDATE sessions SET end_time=?, converted=?, conversion_value=? WHERE id=?].
    A [conversion_value] that is NaN is stored as [NULL], for which NaN
    stands. *)
Definition close_session_rows (ss : list CustomerSession) (session_id now : string)
    (converted : bool) (conversion_value : float) : list CustomerSession :=
  map (fun s =>
         if String.eqb (cs_id s) session_id
         then mkCustomerSession (cs_id s) (cs_customer_id s) (cs_start_time s)
                (Some now) (cs_channel s) (cs_device s) converted conversion_value
         else s) ss.

(** The loop over [all_stages]: the first stage, by position, whose name is
    not in [visited_names]; the [break] stops at it. *)
Definition first_missed_stage (stages : list FunnelStage)
    (stages_visited : list string) : option FunnelStage :=
  find (fun st => negb (str_in (fs_name st) stages_visited))
       (Sql.order_by fs_position stages).

(** [end_session].  [path_id] and [drop_id] are the identifiers the two
    calls of [uuid.uuid4()] draw; the second is drawn only when a missed
    stage is found.  The method commits once, at its end: when an insert
    raises, the statements it has already run stay pending on the
    connection.  The model gives the error and says nothing of them. *)
Definition end_session (db : DB) (path_id drop_id now : string)
    (session_id : string) (converted : bool) (conversion_value : float)
    : result (DB * ConversionPath) :=
  let ss := close_session_rows (sessions db) session_id now converted conversion_value in
  let stages := session_stage_rows (funnel_stages db) (touchpoints db) session_id in
  let stages_visited := map row_name stages in
  let path_signature := path_signature_of stages_visited in
  let path := mkConversionPath path_id session_id stages_visited path_signature
                               converted now in
  cps <- pk_insert cp_id (conversion_paths db) path ;;
  des <- (if negb converted then
            match first_missed_stage (funnel_stages db) stages_visited with
            | Some st =>
                pk_insert de_id (dropoff_events db)
                  (mkDropoffEvent drop_id session_id (fs_id st) (fs_name st) now
                                  "stage_not_reached")
            | None => Ok (dropoff_events db)
            end
          else Ok (dropoff_events db)) ;;
  Ok (mkDB (funnel_stages db) ss (touchpoints db) cps des, path).

(* ================================================================== *)
(** ** Python arithmetic on [int] and [float] *)

Module Py.

(** The integer nearest to [q], ties to the even one. *)
Definition round_half_even (q : Q) : Z :=
  let f := Qfloor q in
  match Qcompare (q - inject_Z f)%Q (1 # 2)%Q with
  | Lt => f
  | Gt => (f + 1)%Z
  | Eq => if Z.even f then f else (f + 1)%Z
  end.

Definition Z2SF (z : Z) : spec_float :=
  match z with
  | Z0 => S754_zero false
  | Zpos p => S754_finite false p 0
  | Zneg p => S754_finite true p 0
  end.

(** [float(n)] for an [int]: the nearest binary64 value. *)
Definition float_of_int (z : Z) : float :=
  SF2Prim (binary_normalize prec emax z 0 false).

(** [a / b] on two [int]s with [b <> 0]: the correctly rounded quotient. *)
Definition int_truediv (a b : Z) : float :=
  SF2Prim (SFdiv prec emax (Z2SF a) (Z2SF b)).

(** [round(x, 2)]: the exact value of [x] rounded to two decimals, ties to
    even, and the binary64 value nearest to that decimal. *)
Definition round2 (x : float) : float :=
  match Prim2SF x with
  | S754_finite s m e =>
      match round_half_even (inject_Z (100 * Zpos m) * Qpower 2 e)%Q with
      | Zpos n =>
          SF2Prim (SFdiv prec emax (S754_finite s n 0) (S754_finite false 100 0))
      | _ => if s then (-0)%float else 0%float
      end
  | _ => x
  end.

(** The arithmetic the program does on numbers, as an interface.  The
    program runs it on binary64; the exact rationals are the arithmetic its
    formulas are meant in. *)
Class Number (F : Type) : Type := {
  of_int : Z -> F;
  truediv : Z -> Z -> F;
  add : F -> F -> F;
  sub : F -> F -> F;
  mul : F -> F -> F;
  div : F -> F -> F;
  leb : F -> F -> bool;
  ltb : F -> F -> bool
}.

(** Python's [float]. *)
#[global] Instance binary64 : Number float := {
  of_int := float_of_int;
  truediv := int_truediv;
  add := PrimFloat.add;
  sub := PrimFloat.sub;
  mul := PrimFloat.mul;
  div := PrimFloat.div;
  leb := PrimFloat.leb;
  ltb := PrimFloat.ltb
}.

(** Exact rational arithmetic. *)
#[global] Instance exact : Number Q := {
  of_int := inject_Z;
  truediv := fun a b => (inject_Z a / inject_Z b)%Q;
  add := Qplus;
  sub := Qminus;
  mul := Qmult;
  div := Qdiv;
  leb := Qle_bool;
  ltb := fun x y => negb (Qle_bool y x)
}.

(** [min(l)] and [max(l)] on a non-empty list: the running item is replaced
    when a later one compares strictly below (above) it. *)
Definition min_of {F : Type} {N : Number F} (x : F) (l : list F) : F :=
  fold_left (fun m y => if ltb y m then y else m) l x.

Definition max_of {F : Type} {N : Number F} (x : F) (l : list F) : F :=
  fold_left (fun m y => if ltb m y then y else m) l x.

(** [str(n)] for an [int]. *)
Definition str_of_int (z : Z) : string :=
  NilZero.string_of_int (Z.to_int z).

(** [range(n)]. *)
Definition range (n : Z) : list Z :=
  map Z.of_nat (seq 0 (Z.to_nat n)).

(** An [int] that meets a [float] in [*] or [/] is turned into a [float]
    first; that raises [OverflowError] ("int too large to convert to
    float") when the nearest binary64 value is not finite, which is from
    [2^1024 - 2^970] on. *)
Definition float_bound : Z := 2 ^ 1024 - 2 ^ 970.

Definition int_fits_float (z : Z) : bool := (Z.abs z <? float_bound)%Z.

(** A loop that appends one item per element, until an element raises. *)
Fixpoint for_append {A B : Type} (body : A -> result B) (l : list A)
    : result (list B) :=
  match l with
  | [] => Ok []
  | x :: l' => y <- body x ;; ys <- for_append body l' ;; Ok (y :: ys)
  end.

(** A dictionary built by a comprehension over rows: a later row with the
    same key overwrites the value and keeps the key's place. *)
Fixpoint dict_set {K V : Type} (eqb : K -> K -> bool) (d : list (K * V))
    (k : K) (v : V) : list (K * V) :=
  match d with
  | [] => [(k, v)]
  | (k', v') :: d' =>
      if eqb k' k then (k', v) :: d' else (k', v') :: dict_set eqb d' k v
  end.

Definition dict_of_rows {K V : Type} (eqb : K -> K -> bool)
    (rows : list (K * V)) : list (K * V) :=
  fold_left (fun d r => dict_set eqb d (fst r) (snd r)) rows [].

(** [sum(d.values())]. *)
Definition sum_values {K : Type} (d : list (K * nat)) : nat :=
  list_sum (map snd d).

End Py.

(* ================================================================== *)
(** ** Funnel analysis *)

(** [SELECT COUNT(DISTINCT tp.session_id) FROM touchpoints tp
     JOIN sessions s ON tp.session_id = s.id
     WHERE tp.event_type = ? AND s.start_time >= ?]. *)
Definition reached_sessions (db : DB) (entry_event cutoff : string) : list string :=
  Sql.distinct String.eqb
    (map (fun p => tp_session_id (fst p))
       (filter (fun p => String.eqb (tp_event_type (fst p)) entry_event
                         && String.leb cutoff (cs_start_time (snd p)))
          (Sql.join (fun tp s => String.eqb (tp_session_id tp) (cs_id s))
             (touchpoints db) (sessions db)))).

Definition count_reached (db : DB) (entry_event cutoff : string) : nat :=
  List.length (reached_sessions db entry_event cutoff).

(** [SELECT COUNT(DISTINCT s.id) FROM sessions s
     JOIN touchpoints tp ON s.id = tp.session_id
     WHERE s.converted = 1 AND tp.event_type = ? AND s.start_time >= ?]. *)
Definition converted_sessions (db : DB) (entry_event cutoff : string) : list string :=
  Sql.distinct String.eqb
    (map (fun p => cs_id (fst p))
       (filter (fun p => cs_converted (fst p)
                         && String.eqb (tp_event_type (snd p)) entry_event
                         && String.leb cutoff (cs_start_time (fst p)))
          (Sql.join (fun s tp => String.eqb (cs_id s) (tp_session_id tp))
             (sessions db) (touchpoints db)))).

Definition count_converted (db : DB) (entry_event cutoff : string) : nat :=
  List.length (converted_sessions db entry_event cutoff).

(** [SELECT AVG(duration_ms) ...] over the same join, then [or 0.0]: the
    sum of the integer column, as a [REAL], divided by the number of rows;
    [0.0] when there is no row.  (How SQLite accumulates the sum shows only
    when it passes [2^53]; below, the sum is exact whatever the way.) *)
Definition avg_duration (db : DB) (entry_event cutoff : string) : float :=
  let ds :=
    map (fun p => tp_duration_ms (fst p))
      (filter (fun p => String.eqb (tp_event_type (fst p)) entry_event
                        && String.leb cutoff (cs_start_time (snd p)))
         (Sql.join (fun tp s => String.eqb (tp_session_id tp) (cs_id s))
            (touchpoints db) (sessions db))) in
  match ds with
  | [] => 0%float
  | _ => (Py.float_of_int (fold_left Z.add ds 0%Z)
          / Py.float_of_int (Z.of_nat (List.length ds)))%float
  end.

(** One dictionary of the list [analyze_funnel] returns. *)
Record FunnelMetrics : Type := mkFunnelMetrics {
  fm_stage_id : string;
  fm_stage_name : string;
  fm_position : Z;
  entry_count : nat;
  exit_count : nat;
  conversion_rate : float;
  drop_off_rate : float;
  avg_duration_ms : float
}.

(** [(exit_count / entry_count * 100) if entry_count else 0.0]. *)
Definition raw_conversion_rate {F : Type} {N : Py.Number F} (entry exit : nat)
    : F :=
  if Nat.eqb entry 0 then Py.of_int 0
  else Py.mul (Py.truediv (Z.of_nat exit) (Z.of_nat entry)) (Py.of_int 100).

(** [100.0 - conversion_rate]. *)
Definition raw_drop_off_rate {F : Type} {N : Py.Number F} (entry exit : nat)
    : F :=
  Py.sub (Py.of_int 100) (raw_conversion_rate entry exit).

(** The body of the loop [for i, stage in enumerate(stages)]. *)
Definition stage_metrics (db : DB) (cutoff : string) (stages : list FunnelStage)
    (i : nat) (stage : FunnelStage) : FunnelMetrics :=
  let entry := count_reached db (fs_entry_event stage) cutoff in
  let exit :=
    if Nat.ltb (i + 1) (List.length stages) then
      match nth_error stages (i + 1) with
      | Some next_stage => count_reached db (fs_entry_event next_stage) cutoff
      | None => 0
      end
    else count_converted db (fs_entry_event stage) cutoff in
  mkFunnelMetrics (fs_id stage) (fs_name stage) (fs_position stage) entry exit
    (Py.round2 (raw_conversion_rate entry exit))
    (Py.round2 (raw_drop_off_rate entry exit))
    (Py.round2 (avg_duration db (fs_entry_event stage) cutoff)).

(** [analyze_funnel]; [cutoff] is [(utcnow() - timedelta(days)).isoformat()].
    The count [total_sessions_query] is computed by the program and never
    used; it is left out. *)
Definition analyze_funnel (db : DB) (cutoff : string) : list FunnelMetrics :=
  let stages := Sql.order_by fs_position (funnel_stages db) in
  map (fun p => stage_metrics db cutoff stages (fst p) (snd p))
      (combine (seq 0 (List.length stages)) stages).

(* ================================================================== *)
(** ** Dropoff analysis *)

(** [CAST(SUBSTR(timestamp, 12, 2) AS INTEGER)]. *)
Definition dropoff_hour (de : DropoffEvent) : Z :=
  Sql.cast_integer (Sql.substr (de_timestamp de) 12 2).

(** [FROM dropoff_events WHERE stage_id = ?]. *)
Definition dropoffs_at (db : DB) (stage_id : string) : list DropoffEvent :=
  filter (fun de => String.eqb (de_stage_id de) stage_id) (dropoff_events db).

(** [FROM dropoff_events de JOIN sessions s ON de.session_id = s.id
     WHERE de.stage_id = ?]. *)
Definition dropoffs_with_session (db : DB) (stage_id : string)
    : list (DropoffEvent * CustomerSession) :=
  filter (fun p => String.eqb (de_stage_id (fst p)) stage_id)
    (Sql.join (fun de s => String.eqb (de_session_id de) (cs_id s))
       (dropoff_events db) (sessions db)).

Definition count_desc {K : Type} (r : K * nat) : Z := (- Z.of_nat (snd r))%Z.

Record DropoffAnalysis : Type := mkDropoffAnalysis {
  da_stage_id : string;
  reasons : list (string * nat);
  time_of_day : list (Z * nat);
  by_channel : list (string * nat);
  total_dropoffs : nat
}.

(** [analyze_dropoffs]. *)
Definition analyze_dropoffs (db : DB) (stage_id : string) : DropoffAnalysis :=
  let reasons :=
    Py.dict_of_rows String.eqb
      (Sql.order_by count_desc
         (Sql.group_count String.eqb de_reason (dropoffs_at db stage_id))) in
  let time_pattern :=
    Py.dict_of_rows Z.eqb
      (Sql.order_by fst
         (Sql.group_count Z.eqb dropoff_hour (dropoffs_at db stage_id))) in
  let channels :=
    Py.dict_of_rows String.eqb
      (Sql.order_by count_desc
         (Sql.group_count String.eqb (fun p => cs_channel (snd p))
            (dropoffs_with_session db stage_id))) in
  mkDropoffAnalysis stage_id reasons time_pattern channels (Py.sum_values reasons).

(* ================================================================== *)
(** ** Lifetime-value segments *)

(** [SELECT customer_id, SUM(conversion_value) as ltv
     FROM sessions WHERE converted = 1 GROUP BY customer_id]. *)
Definition ltv_rows (db : DB) : list (string * float) :=
  let conv := filter cs_converted (sessions db) in
  map (fun c =>
         (c, Sql.sum_real
               (map cs_conversion_value
                  (filter (fun s => String.eqb (cs_customer_id s) c) conv))))
      (Sql.distinct String.eqb (map cs_customer_id conv)).

(** [lo = min_ltv + i * width] and [hi = lo + width]. *)
Definition bucket_lo {F : Type} {N : Py.Number F} (min_ltv width : F) (i : Z)
    : F :=
  Py.add min_ltv (Py.mul (Py.of_int i) width).

Definition bucket_hi {F : Type} {N : Py.Number F} (min_ltv width : F) (i : Z)
    : F :=
  Py.add (bucket_lo min_ltv width i) width.

(** [lo <= ltv < hi], and [lo <= ltv <= hi] in the last bucket. *)
Definition in_bucket {F : Type} {N : Py.Number F} (buckets : Z)
    (min_ltv width : F) (i : Z) (ltv : F) : bool :=
  let lo := bucket_lo min_ltv width i in
  let hi := bucket_hi min_ltv width i in
  if Z.eqb i (buckets - 1)
  then Py.leb lo ltv && Py.leb ltv hi
  else Py.leb lo ltv && Py.ltb ltv hi.

Definition bucket_members {F : Type} {N : Py.Number F} (rows : list (string * F))
    (buckets : Z) (min_ltv width : F) (i : Z) : list string :=
  map fst (filter (fun r => in_bucket buckets min_ltv width i (snd r)) rows).

Record Segment : Type := mkSegment {
  bucket : Z;
  ltv_min : float;
  ltv_max : float;
  customer_count : nat;
  label : string
}.

(** [(max_ltv - min_ltv) / buckets if max_ltv > min_ltv else 1.0]. *)
Definition bucket_width {F : Type} {N : Py.Number F} (min_ltv max_ltv : F)
    (buckets : Z) : result F :=
  if Py.ltb min_ltv max_ltv then
    if Z.eqb buckets 0 then Raise ZeroDivisionError
    else Ok (Py.div (Py.sub max_ltv min_ltv) (Py.of_int buckets))
  else Ok (Py.of_int 1).

(** One turn of the loop [for i in range(buckets)]; [i * width] raises
    when [i] is too large for a [float]. *)
Definition segment (rows : list (string * float)) (buckets : Z)
    (min_ltv width : float) (i : Z) : result Segment :=
  if Py.int_fits_float i then
    Ok (mkSegment (i + 1)
          (Py.round2 (bucket_lo min_ltv width i))
          (Py.round2 (bucket_hi min_ltv width i))
          (List.length (bucket_members rows buckets min_ltv width i))
          ("Segment " ++ Py.str_of_int (i + 1)))
  else Raise OverflowError.

(** [compute_customer_ltv_segments].  A total that is [NULL] is [None] in
    [ltvs], and then [min], [max] or the comparison of the two raises
    [TypeError].  The division by [buckets] raises [OverflowError] when
    [buckets] is too large for a [float], before it looks for a zero. *)
Definition compute_customer_ltv_segments (db : DB) (buckets : Z)
    : result (list Segment) :=
  match ltv_rows db with
  | [] => Ok []
  | r :: rest =>
      let rows := r :: rest in
      if existsb (fun row => Sql.is_null (snd row)) rows then Raise TypeError
      else
        let min_ltv := Py.min_of (snd r) (map snd rest) in
        let max_ltv := Py.max_of (snd r) (map snd rest) in
        width <- (if Py.ltb min_ltv max_ltv && negb (Py.int_fits_float buckets)
                  then Raise OverflowError
                  else bucket_width min_ltv max_ltv buckets) ;;
        Py.for_append (segment rows buckets min_ltv width) (Py.range buckets)
  end.

(* ================================================================== *)
(** ** Journey heatmap *)

(** What the program reads of a parsed [datetime]: [weekday()], Monday
    being [0], and [hour].  The library keeps both in range. *)
Record pydatetime : Type := mkDatetime {
  weekday : nat;
  hour : nat;
  weekday_range : Nat.ltb weekday 7 = true;
  hour_range : Nat.ltb hour 24 = true
}.

(** [l[n] = f(l[n])]; the indices used below are in range by
    [weekday_range] and [hour_range]. *)
Fixpoint list_update {A : Type} (l : list A) (n : nat) (f : A -> A) : list A :=
  match l, n with
  | [], _ => []
  | x :: l', O => f x :: l'
  | x :: l', S n' => x :: list_update l' n' f
  end.

(** [matrix[d][h] += 1]. *)
Definition bump (matrix : list (list nat)) (d h : nat) : list (list nat) :=
  list_update matrix d (fun row => list_update row h S).

Definition zero_matrix : list (list nat) := repeat (repeat 0 24) 7.

Definition day_names : list string :=
  ["Mon"; "Tue"; "Wed"; "Thu"; "Fri"; "Sat"; "Sun"].

(** [f"{h:02d}:00"]. *)
Definition hour_label (h : nat) : string :=
  (if Nat.ltb h 10 then "0" else "") ++ Py.str_of_int (Z.of_nat h) ++ ":00".

Record Heatmap : Type := mkHeatmap {
  matrix : list (list nat);
  day_labels : list string;
  hour_labels : list string;
  total_touchpoints : nat
}.

Section JourneyHeatmap.
(** [datetime.fromisoformat]; [None] stands for the [ValueError] the
    program catches. *)
Variable fromisoformat : string -> option pydatetime.

(** [SELECT timestamp FROM touchpoints WHERE timestamp >= ?]. *)
Definition timestamps_since (db : DB) (cutoff : string) : list string :=
  map tp_timestamp
      (filter (fun tp => String.leb cutoff (tp_timestamp tp)) (touchpoints db)).

(** The body of the loop over the rows. *)
Definition count_row (m : list (list nat)) (timestamp : string)
    : list (list nat) :=
  match fromisoformat timestamp with
  | Some dt => bump m (weekday dt) (hour dt)
  | None => m
  end.

(** [get_journey_heatmap]; [cutoff] is
    [(utcnow() - timedelta(hours)).isoformat()]. *)
Definition get_journey_heatmap (db : DB) (cutoff : string) : Heatmap :=
  let rows := timestamps_since db cutoff in
  let matrix := fold_left count_row rows zero_matrix in
  mkHeatmap matrix day_names (map hour_label (seq 0 24))
            (list_sum (map (@list_sum) matrix)).
End JourneyHeatmap.

(* ================================================================== *)
(** ** Top paths and channel attribution *)

(** [LIMIT n]: a negative [n] puts no limit. *)
Definition sql_limit {A : Type} (n : Z) (l : list A) : list A :=
  if (n <? 0)%Z then l else firstn (Z.to_nat n) l.

(** One dictionary of the list [get_top_conversion_paths] returns. *)
Record PathStats : Type := mkPathStats {
  ps_path_signature : string;
  ps_occurrences : nat;
  ps_conversions : nat;
  ps_conversion_rate : float
}.

(** One dictionary of the list [get_channel_attribution] returns;
    [ch_avg_value] is [None] where the column is [NULL]. *)
Record ChannelStats : Type := mkChannelStats {
  ch_channel : string;
  ch_sessions : nat;
  ch_conversions : nat;
  ch_conversion_rate : float;
  ch_avg_value : option float
}.

Definition occurrences_desc (r : PathStats) : Z := (- Z.of_nat (ps_occurrences r))%Z.

Definition conversions_desc (r : ChannelStats) : Z :=
  (- Z.of_nat (ch_conversions r))%Z.

Section SqliteRound.
(** SQLite's [ROUND(x, 2)] on a [REAL]. *)
Variable sqlite_round2 : float -> float.

(** [ROUND(100.0 * SUM(converted) / COUNT( * ), 2)]; [converted] is stored
    as [0] or [1], so its sum is the number of converted rows. *)
Definition percent_converted (conversions rows : nat) : float :=
  sqlite_round2
    (100 * Py.float_of_int (Z.of_nat conversions)
     / Py.float_of_int (Z.of_nat rows))%float.

(** [SELECT path_signature, COUNT( * ), SUM(converted), ROUND(...)
     FROM conversion_paths GROUP BY path_signature].  SQL leaves the order
    of the groups open, and with it the order of rows that tie in the
    [ORDER BY] below; the groups are listed here by first occurrence, and
    no property stated of the listing depends on that choice. *)
Definition path_groups (db : DB) : list PathStats :=
  map (fun sig =>
         let rows := filter (fun cp => String.eqb (cp_path_signature cp) sig)
                            (conversion_paths db) in
         let conv := filter cp_converted rows in
         mkPathStats sig (List.length rows) (List.length conv)
                     (percent_converted (List.length conv) (List.length rows)))
      (Sql.distinct String.eqb (map cp_path_signature (conversion_paths db))).

(** [get_top_conversion_paths]: [... ORDER BY occurrences DESC LIMIT ?]. *)
Definition get_top_conversion_paths (db : DB) (limit : Z)
    : result (list PathStats) :=
  n <- bind_integer limit ;;
  Ok (sql_limit n (Sql.order_by occurrences_desc (path_groups db))).

(** SQLite's [AVG] over the values of a group that are not [NULL], when
    there is at least one; how it sums them is SQLite's own business. *)
Variable sqlite_avg : list float -> float.

(** [ROUND(AVG(CASE WHEN converted=1 THEN conversion_value ELSE NULL END), 2)]:
    the mean over the values of the converted rows that are not [NULL];
    [NULL] when there is none, and when the mean is; [ROUND] of [NULL] is
    [NULL]. *)
Definition avg_converted_value (conv : list CustomerSession) : option float :=
  match Sql.not_null (map cs_conversion_value conv) with
  | [] => None
  | vs =>
      match python_real (sqlite_avg vs) with
      | Some a => python_real (sqlite_round2 a)
      | None => None
      end
  end.

(** [SELECT channel, COUNT( * ), SUM(converted), ROUND(...), ROUND(AVG(...))
     FROM sessions WHERE start_time >= ? GROUP BY channel]. *)
Definition channel_groups (db : DB) (cutoff : string) : list ChannelStats :=
  let rows := filter (fun s => String.leb cutoff (cs_start_time s)) (sessions db) in
  map (fun c =>
         let grp := filter (fun s => String.eqb (cs_channel s) c) rows in
         let conv := filter cs_converted grp in
         mkChannelStats c (List.length grp) (List.length conv)
                        (percent_converted (List.length conv) (List.length grp))
                        (avg_converted_value conv))
      (Sql.distinct String.eqb (map cs_channel rows)).

(** [get_channel_attribution]: [... ORDER BY conversions DESC]; [cutoff] is
    [(utcnow() - timedelta(days)).isoformat()]. *)
Definition get_channel_attribution (db : DB) (cutoff : string)
    : list ChannelStats :=
  Sql.order_by conversions_desc (channel_groups db cutoff).
End SqliteRound.

(* ================================================================== *)
(** ** Histories *)

(** One successful call of a method that writes. *)
Inductive step : DB -> DB -> Prop :=
  | step_define (db db' : DB) (stage_id name : string) (position : Z)
      (description entry_event exit_event : string) (st : FunnelStage) :
      define_funnel_stage db stage_id name position description
                          entry_event exit_event = Ok (db', st) ->
      step db db'
  | step_start (db db' : DB) (session_id now customer_id channel device sid : string) :
      start_session db session_id now customer_id channel device = Ok (db', sid) ->
      step db db'
  | step_record (db db' : DB) (new_id now session_id customer_id channel page
      event_type : string) (duration_ms : Z) (metadata : option string)
      (res : pydict) :
      record_touchpoint db new_id now session_id customer_id channel page
                        event_type duration_ms metadata = Ok (db', res) ->
      step db db'
  | step_end (db db' : DB) (path_id drop_id now session_id : string)
      (converted : bool) (conversion_value : float) (path : ConversionPath) :
      end_session db path_id drop_id now session_id converted conversion_value
        = Ok (db', path) ->
      step db db'.

(** The stores a sequence of successful calls builds from [db]. *)
Inductive steps (db : DB) : DB -> Prop :=
  | steps_refl : steps db db
  | steps_next (db1 db2 : DB) : steps db db1 -> step db1 db2 -> steps db db2.

(** The stores the program builds from the empty database of [init_db]. *)
Definition reachable (db : DB) : Prop := steps empty_db db.

(** One successful call that does not give the identifier [sid] to a
    stage: any call but a [define_funnel_stage] that draws [sid]. *)
Inductive step_avoiding (sid : string) : DB -> DB -> Prop :=
  | avoiding_define (db db' : DB) (stage_id name : string) (position : Z)
      (description entry_event exit_event : string) (st : FunnelStage) :
      stage_id <> sid ->
      define_funnel_stage db stage_id name position description
                          entry_event exit_event = Ok (db', st) ->
      step_avoiding sid db db'
  | avoiding_start (db db' : DB)
      (session_id now customer_id channel device s : string) :
      start_session db session_id now customer_id channel device = Ok (db', s) ->
      step_avoiding sid db db'
  | avoiding_record (db db' : DB) (new_id now session_id customer_id channel page
      event_type : string) (duration_ms : Z) (metadata : option string)
      (res : pydict) :
      record_touchpoint db new_id now session_id customer_id channel page
                        event_type duration_ms metadata = Ok (db', res) ->
      step_avoiding sid db db'
  | avoiding_end (db db' : DB) (path_id drop_id now session_id : string)
      (converted : bool) (conversion_value : float) (path : ConversionPath) :
      end_session db path_id drop_id now session_id converted conversion_value
        = Ok (db', path) ->
      step_avoiding sid db db'.

(** The stores the program builds from the empty database without ever
    giving the identifier [sid] to a stage. *)
Inductive never_given (sid : string) : DB -> Prop :=
  | never_given_empty : never_given sid empty_db
  | never_given_next (db db' : DB) :
      never_given sid db -> step_avoiding sid db db' -> never_given sid db'.

(** The dropoff events a call of [end_session] inserts. *)
Definition new_dropoffs (db : DB) (drop_id now session_id : string)
    (converted : bool) (stages_visited : list string) : list DropoffEvent :=
  if converted then []
  else match first_missed_stage (funnel_stages db) stages_visited with
       | Some st =>
           [mkDropoffEvent drop_id session_id (fs_id st) (fs_name st) now
                           "stage_not_reached"]
       | None => []
       end.

(* ================================================================== *)
(** ** The specification's vocabulary

    These definitions follow the words of the specification, not the
    program; the theorems compare the program with them. *)

(** A stage is matched in a session when some touchpoint of the session
    has the stage's entry event as its event type. *)
Definition stage_matched (tps : list Touchpoint) (session_id : string)
    (fs : FunnelStage) : bool :=
  existsb (fun tp => String.eqb (tp_session_id tp) session_id
                     && String.eqb (tp_event_type tp) (fs_entry_event fs)) tps.

Definition matched_stages (stages : list FunnelStage) (tps : list Touchpoint)
    (session_id : string) : list FunnelStage :=
  filter (stage_matched tps session_id) stages.

(** A session is in the window when it started at or after the cut-off. *)
Definition in_window (cutoff : string) (s : CustomerSession) : bool :=
  String.leb cutoff (cs_start_time s).

(** A session has the event when one of its touchpoints has that type. *)
Definition session_has_event (db : DB) (event : string) (s : CustomerSession)
    : bool :=
  existsb (fun tp => String.eqb (tp_session_id tp) (cs_id s)
                     && String.eqb (tp_event_type tp) event) (touchpoints db).

(** The sessions in the window that have the event. *)
Definition sessions_with_event (db : DB) (event cutoff : string)
    : list CustomerSession :=
  filter (fun s => in_window cutoff s && session_has_event db event s)
         (sessions db).

(** The converted ones among them. *)
Definition converted_sessions_with_event (db : DB) (event cutoff : string)
    : list CustomerSession :=
  filter cs_converted (sessions_with_event db event cutoff).

(** The session that owns a dropoff event is in the sessions table. *)
Definition has_session (db : DB) (de : DropoffEvent) : bool :=
  existsb (fun s => String.eqb (de_session_id de) (cs_id s)) (sessions db).

(** The cell of a matrix for day [d] and hour [h]. *)
Definition cell (m : list (list nat)) (d h : nat) : nat := nth h (nth d m []) 0.

(** A timestamp parses. *)
Definition parses (fromisoformat : string -> option pydatetime) (ts : string)
    : bool :=
  match fromisoformat ts with
  | Some _ => true
  | None => false
  end.

(** A timestamp parses to day [d], hour [h]. *)
Definition falls_on (fromisoformat : string -> option pydatetime) (d h : nat)
    (ts : string) : bool :=
  match fromisoformat ts with
  | Some dt => Nat.eqb (weekday dt) d && Nat.eqb (hour dt) h
  | None => false
  end.

(** A touchpoint is in the window of the heatmap. *)
Definition tp_in_window (cutoff : string) (tp : Touchpoint) : bool :=
  String.leb cutoff (tp_timestamp tp).

(** Seven rows of twenty-four cells. *)
Definition week_shaped (m : list (list nat)) : Prop :=
  List.length m = 7 /\ Forall (fun row => List.length row = 24) m.

(* ================================================================== *)
(** ** Example stores *)

Module Examples.

(** One stage. *)
Definition one_stage : DB :=
  match define_funnel_stage empty_db "st-A" "A" 1 "" "a" "" with
  | Ok q => fst q
  | Raise _ => empty_db
  end.

(** Two stages that share position [1]. *)
Definition tied_stages : DB :=
  match define_funnel_stage one_stage "st-B" "B" 1 "" "b" "" with
  | Ok q => fst q
  | Raise _ => empty_db
  end.

(** One session closed after the events [first] and [second], in that
    order. *)
Definition two_event_session (db : DB) (first second : string) (converted : bool)
    : result (DB * ConversionPath) :=
  p <- start_session db "s1" "2024-01-01T10:00:00" "c1" "web" "desktop" ;;
  q <- record_touchpoint (fst p) "t1" "2024-01-01T10:00:01"
         "s1" "c1" "web" "/" first 0 None ;;
  r <- record_touchpoint (fst q) "t2" "2024-01-01T10:00:02"
         "s1" "c1" "web" "/" second 0 None ;;
  end_session (fst r) "p1" "d1" "2024-01-01T10:00:03" "s1" converted 0.

(** The store before the session above is closed, with one touchpoint. *)
Definition open_session : DB :=
  match (p <- start_session tied_stages "s1" "2024-01-01T10:00:00"
                "c1" "web" "desktop" ;;
         record_touchpoint (fst p) "t1" "2024-01-01T10:00:01"
           "s1" "c1" "web" "/" "b" 0 None) with
  | Ok q => fst q
  | Raise _ => empty_db
  end.

(** Two stages; session [s1] views and adds to the cart, session [s2]
    adds to the cart without a view. *)
Definition cart_without_view : DB :=
  match (x <- define_funnel_stage empty_db "st-1" "Browse" 1 "" "view" "cart" ;;
         y <- define_funnel_stage (fst x) "st-2" "Buy" 2 "" "cart" "pay" ;;
         a <- start_session (fst y) "s1" "2024-01-01T10:00:00" "c1" "web" "desktop" ;;
         b <- start_session (fst a) "s2" "2024-01-01T11:00:00" "c2" "web" "mobile" ;;
         c <- record_touchpoint (fst b) "t1" "2024-01-01T10:00:01"
                "s1" "c1" "web" "/" "view" 1000 None ;;
         d <- record_touchpoint (fst c) "t2" "2024-01-01T10:00:02"
                "s1" "c1" "web" "/cart" "cart" 500 None ;;
         record_touchpoint (fst d) "t3" "2024-01-01T11:00:01"
           "s2" "c2" "web" "/cart" "cart" 700 None) with
  | Ok q => fst q
  | Raise _ => empty_db
  end.

(** Two customers, one converted session each, worth 19.99 and 59.99. *)
Definition two_buyers : DB :=
  match (a <- start_session empty_db "s1" "2024-01-01T10:00:00" "c1" "web" "desktop" ;;
         b <- start_session (fst a) "s2" "2024-01-01T11:00:00" "c2" "web" "mobile" ;;
         c <- end_session (fst b) "p1" "d1" "2024-01-01T10:30:00" "s1" true 19.99 ;;
         end_session (fst c) "p2" "d2" "2024-01-01T11:30:00" "s2" true 59.99) with
  | Ok q => fst q
  | Raise _ => empty_db
  end.

(** A session identifier that was never started is closed while the two
    stages are registered. *)
Definition ghost_dropoff : DB :=
  match end_session tied_stages "p1" "d1" "2024-01-01T10:00:03" "ghost" false 0 with
  | Ok r => fst r
  | Raise _ => empty_db
  end.

(** The two stages and one open session. *)
Definition started : DB :=
  match start_session tied_stages "s1" "2024-01-01T10:00:00" "c1" "web" "desktop" with
  | Ok q => fst q
  | Raise _ => empty_db
  end.

(** The same session closed without a conversion. *)
Definition closed_session : DB * ConversionPath :=
  match end_session open_session "p1" "d1" "2024-01-01T10:00:03" "s1" false 0 with
  | Ok r => r
  | Raise _ => (empty_db, mkConversionPath "" "" [] "" false "")
  end.

(** A touchpoint recorded for a session identifier that was never started. *)
Definition ghost_touchpoint : DB :=
  match record_touchpoint started "t9" "2024-01-01T10:00:09" "ghost" "c9" "web"
                          "/" "a" 100 None with
  | Ok q => fst q
  | Raise _ => empty_db
  end.

(** A parser that knows one hour: ten o'clock on Monday 1 January 2024. *)
Definition one_hour_parser (ts : string) : option pydatetime :=
  if String.prefix "2024-01-01T10" ts
  then Some (mkDatetime 0 10 eq_refl eq_refl)
  else None.


(** A session misses stage [A]; then the stage is defined again, which
    replaces its row by one with a new identifier. *)
Definition missed_stage : DB :=
  match (a <- start_session one_stage "s1" "2024-01-01T10:00:00" "c1" "web" "desktop" ;;
         end_session (fst a) "p1" "d1" "2024-01-01T10:00:03" "s1" false 0) with
  | Ok q => fst q
  | Raise _ => empty_db
  end.

Definition replaced_stage : DB :=
  match define_funnel_stage missed_stage "st-A2" "A" 1 "" "a" "" with
  | Ok q => fst q
  | Raise _ => empty_db
  end.

(** One customer whose only session is closed as converted with a value
    that is not a number: the value is stored as [NULL]. *)
Definition nan_buyer : DB :=
  match (a <- start_session empty_db "s1" "2024-01-01T10:00:00" "c1" "web" "desktop" ;;
         end_session (fst a) "p1" "d1" "2024-01-01T10:30:00" "s1" true
                     PrimFloat.nan) with
  | Ok q => fst q
  | Raise _ => empty_db
  end.

(** The closed session closed a second time. *)
Definition closed_twice : DB * ConversionPath :=
  match end_session (fst closed_session) "p2" "d2" "2024-01-01T10:05:00" "s1"
                    false 0 with
  | Ok r => r
  | Raise _ => (empty_db, mkConversionPath "" "" [] "" false "")
  end.

End Examples.

(* ================================================================== *)
(** * Properties *)

(** ** The relational operators *)

Module SqlFacts.
Import Sql.

Section Distinct.
Context {A : Type} (eqb : A -> A -> bool).
Hypothesis eqb_spec : forall x y, eqb x y = true <-> x = y.

Lemma existsb_eqb_In (x : A) (l : list A) :
  existsb (eqb x) l = true <-> In x l.
Proof.
  rewrite existsb_exists. split.
  - intros [y [Hy He]]. apply eqb_spec in He. now subst.
  - intros H. exists x. split; [assumption | now apply eqb_spec].
Qed.

Lemma existsb_eqb_notIn (x : A) (l : list A) :
  existsb (eqb x) l = false <-> ~ In x l.
Proof.
  rewrite <- existsb_eqb_In. destruct (existsb (eqb x) l); intuition congruence.
Qed.

Lemma distinct_aux_In (l seen : list A) (x : A) :
  In x (distinct_aux eqb seen l) <-> In x l /\ ~ In x seen.
Proof.
  revert seen. induction l as [|y l IH]; intros seen; simpl.
  - tauto.
  - destruct (existsb (eqb y) seen) eqn:E.
    + apply existsb_eqb_In in E. rewrite IH. split.
      * intros [H1 H2]. auto.
      * intros [[H1|H1] H2]; [subst; contradiction | auto].
    + apply existsb_eqb_notIn in E. simpl. rewrite IH. simpl. split.
      * intros [H|[H1 H2]]; [subst; auto | split; [auto | tauto]].
      * intros [[H1|H1] H2]; [auto|].
        destruct (eqb y x) eqn:Eyx.
        -- apply eqb_spec in Eyx. auto.
        -- right. split; [assumption|]. intros [H|H]; [|contradiction].
           subst. assert (eqb x x = true) by now apply eqb_spec. congruence.
Qed.

Lemma distinct_aux_NoDup (l seen : list A) :
  NoDup (distinct_aux eqb seen l).
Proof.
  revert seen. induction l as [|y l IH]; intros seen; simpl.
  - constructor.
  - destruct (existsb (eqb y) seen); [apply IH|].
    constructor; [|apply IH].
    rewrite distinct_aux_In. simpl. tauto.
Qed.

Lemma distinct_In (l : list A) (x : A) : In x (distinct eqb l) <-> In x l.
Proof. unfold distinct. rewrite distinct_aux_In. simpl. tauto. Qed.

Lemma distinct_NoDup (l : list A) : NoDup (distinct eqb l).
Proof. apply distinct_aux_NoDup. Qed.

Lemma distinct_aux_id (l seen : list A) :
  NoDup l -> (forall x, In x l -> ~ In x seen) -> distinct_aux eqb seen l = l.
Proof.
  revert seen. induction l as [|y l IH]; intros seen Hnd Hs; simpl; [reflexivity|].
  inversion Hnd as [|? ? Hy Hl]; subst.
  assert (E : existsb (eqb y) seen = false).
  { apply existsb_eqb_notIn. apply Hs. now left. }
  rewrite E. f_equal. apply IH; [assumption|].
  intros x Hx [H|H]; [subst; contradiction|].
  apply (Hs x); [now right | assumption].
Qed.

Lemma distinct_id (l : list A) : NoDup l -> distinct eqb l = l.
Proof. intros H. apply distinct_aux_id; [assumption | intros; simpl; tauto]. Qed.
End Distinct.

Section OrderBy.
Context {A : Type} (key : A -> Z).

Lemma insert_by_perm (x : A) (l : list A) :
  Permutation (x :: l) (insert_by key x l).
Proof.
  induction l as [|y l IH]; simpl; [reflexivity|].
  destruct (key x <? key y)%Z; [reflexivity|].
  rewrite perm_swap. now constructor.
Qed.

Lemma fold_insert_perm (l acc : list A) :
  Permutation (acc ++ l) (fold_left (fun a x => insert_by key x a) l acc).
Proof.
  revert acc. induction l as [|x l IH]; intros acc; simpl.
  - now rewrite app_nil_r.
  - rewrite <- IH. rewrite <- insert_by_perm.
    symmetry. apply Permutation_middle.
Qed.

Lemma order_by_perm (l : list A) : Permutation l (order_by key l).
Proof. unfold order_by. now rewrite <- fold_insert_perm. Qed.

Lemma order_by_In (l : list A) (x : A) : In x (order_by key l) <-> In x l.
Proof.
  split; apply Permutation_in; [symmetry|]; apply order_by_perm.
Qed.

Lemma order_by_length (l : list A) : List.length (order_by key l) = List.length l.
Proof. symmetry. apply Permutation_length, order_by_perm. Qed.

Lemma insert_by_sorted (x : A) (l : list A) :
  StronglySorted (key_le key) l -> StronglySorted (key_le key) (insert_by key x l).
Proof.
  induction l as [|y l IH]; intros Hs; simpl.
  - repeat constructor.
  - inversion Hs as [|? ? Hl Hy]; subst.
    destruct (key x <? key y)%Z eqn:E.
    + apply Z.ltb_lt in E. constructor; [assumption|].
      constructor; [unfold key_le; lia|].
      rewrite Forall_forall in *. intros z Hz. specialize (Hy z Hz).
      unfold key_le in *. lia.
    + apply Z.ltb_ge in E. constructor; [now apply IH|].
      rewrite Forall_forall in *. intros z Hz.
      apply (Permutation_in _ (Permutation_sym (insert_by_perm x l))) in Hz.
      destruct Hz as [Hz|Hz]; [subst; assumption | now apply Hy].
Qed.

Lemma fold_insert_sorted (l acc : list A) :
  StronglySorted (key_le key) acc ->
  StronglySorted (key_le key) (fold_left (fun a x => insert_by key x a) l acc).
Proof.
  revert acc. induction l as [|x l IH]; intros acc Hs; simpl; [assumption|].
  apply IH. now apply insert_by_sorted.
Qed.

Lemma order_by_sorted (l : list A) : StronglySorted (key_le key) (order_by key l).
Proof. apply fold_insert_sorted. constructor. Qed.

(** Two lists sorted by a key that no two of their rows share are equal
    as soon as they hold the same rows. *)
Lemma sorted_perm_unique (l1 l2 : list A) :
  StronglySorted (key_le key) l1 -> StronglySorted (key_le key) l2 ->
  NoDup (map key l1) -> Permutation l1 l2 -> l1 = l2.
Proof.
  revert l2. induction l1 as [|x l1 IH]; intros l2 S1 S2 Hnd Hp.
  - apply Permutation_nil in Hp. now subst.
  - destruct l2 as [|y l2].
    { symmetry in Hp. apply Permutation_nil in Hp. discriminate. }
    inversion S1 as [|? ? S1' F1]; subst.
    inversion S2 as [|? ? S2' F2]; subst.
    inversion Hnd as [|? ? Hx Hnd']; subst.
    assert (Hxy : x = y).
    { assert (Hy : In y (x :: l1)).
      { apply (Permutation_in _ (Permutation_sym Hp)). now left. }
      assert (Hx' : In x (y :: l2)).
      { apply (Permutation_in _ Hp). now left. }
      destruct Hy as [Hy|Hy]; [assumption|].
      destruct Hx' as [Hx'|Hx']; [now symmetry|].
      rewrite Forall_forall in F1, F2.
      specialize (F1 y Hy). specialize (F2 x Hx'). unfold key_le in *.
      assert (Hk : key y = key x) by lia.
      exfalso. apply Hx. rewrite <- Hk. now apply in_map. }
    subst y. f_equal. apply IH; try assumption.
    now apply Permutation_cons_inv in Hp.
Qed.

(** The first row of an ordered result has the least key. *)
Lemma order_by_head_least (l : list A) (x : A) (rest : list A) :
  order_by key l = x :: rest ->
  In x l /\ forall y, In y l -> (key x <= key y)%Z.
Proof.
  intros E. split.
  - apply order_by_In. rewrite E. now left.
  - intros y Hy. apply order_by_In in Hy. rewrite E in Hy.
    pose proof (order_by_sorted l) as S. rewrite E in S.
    inversion S as [|? ? _ F]; subst.
    destruct Hy as [Hy|Hy]; [subst; lia|].
    rewrite Forall_forall in F. now apply F.
Qed.

Lemma order_by_nil_iff (l : list A) : order_by key l = [] <-> l = [].
Proof.
  split; intros H.
  - pose proof (order_by_length l) as L. rewrite H in L.
    destruct l; [reflexivity | discriminate].
  - now subst.
Qed.
End OrderBy.

End SqlFacts.

(* ------------------------------------------------------------------ *)
(** ** Lists, keys and inserts *)

Lemma str_in_In (x : string) (l : list string) : str_in x l = true <-> In x l.
Proof. apply SqlFacts.existsb_eqb_In, String.eqb_eq. Qed.

Lemma str_in_notIn (x : string) (l : list string) : str_in x l = false <-> ~ In x l.
Proof. apply SqlFacts.existsb_eqb_notIn, String.eqb_eq. Qed.

Lemma pk_insert_fresh {R : Type} (key : R -> string) (table : list R) (row : R) :
  ~ In (key row) (map key table) -> pk_insert key table row = Ok (table ++ [row]).
Proof.
  intros H. unfold pk_insert. apply str_in_notIn in H. now rewrite H.
Qed.

Lemma pk_insert_Ok {R : Type} (key : R -> string) (table table' : list R) (row : R) :
  pk_insert key table row = Ok table' ->
  table' = table ++ [row] /\ ~ In (key row) (map key table).
Proof.
  unfold pk_insert. destruct (str_in (key row) (map key table)) eqn:E; [discriminate|].
  intros H. inversion H. split; [reflexivity | now apply str_in_notIn].
Qed.

Lemma python_real_Some (x v : float) :
  python_real x = Some v -> v = x /\ Sql.is_null v = false.
Proof.
  unfold python_real. destruct (Sql.is_null x) eqn:E; [discriminate|].
  intros H. inversion H; subst. auto.
Qed.

Lemma not_null_In (vs : list float) (v : float) :
  In v (Sql.not_null vs) <-> In v vs /\ Sql.is_null v = false.
Proof. unfold Sql.not_null. now rewrite filter_In, negb_true_iff. Qed.

Lemma bind_integer_fits (n : Z) : Sql.int64 n = true -> bind_integer n = Ok n.
Proof. unfold bind_integer. now intros ->. Qed.

Lemma bind_integer_wide (n : Z) :
  Sql.int64 n = false -> bind_integer n = Raise OverflowError.
Proof. unfold bind_integer. now intros ->. Qed.

Lemma bind_integer_Ok (n m : Z) :
  bind_integer n = Ok m -> Sql.int64 n = true /\ m = n.
Proof.
  unfold bind_integer. destruct (Sql.int64 n); [|discriminate].
  intros H. inversion H. auto.
Qed.

Lemma define_funnel_stage_inv (db db' : DB) (stage_id name : string) (position : Z)
    (description entry_event exit_event : string) (st : FunnelStage) :
  define_funnel_stage db stage_id name position description entry_event exit_event
    = Ok (db', st) ->
  Sql.int64 position = true
  /\ st = mkFunnelStage stage_id name position description entry_event exit_event
  /\ db' = mkDB (filter (fun s => negb (String.eqb (fs_id s) stage_id
                                        || String.eqb (fs_name s) name))
                        (funnel_stages db) ++ [st])
                (sessions db) (touchpoints db) (conversion_paths db)
                (dropoff_events db).
Proof.
  unfold define_funnel_stage.
  destruct (bind_integer position) as [pos|] eqn:E; [|discriminate].
  apply bind_integer_Ok in E. destruct E as [E ->]. cbn [bind].
  intros H. inversion H; subst. auto.
Qed.

Lemma join_In {A B : Type} (on : A -> B -> bool) (l1 : list A) (l2 : list B)
    (a : A) (b : B) :
  In (a, b) (Sql.join on l1 l2) <-> In a l1 /\ In b l2 /\ on a b = true.
Proof.
  unfold Sql.join. rewrite in_flat_map. split.
  - intros [x [Hx Hp]]. apply in_map_iff in Hp.
    destruct Hp as [y [Hy Hf]]. inversion Hy; subst.
    apply filter_In in Hf. tauto.
  - intros [Ha [Hb Hon]]. exists a. split; [assumption|].
    apply in_map. apply filter_In. tauto.
Qed.

Lemma existsb_perm {A : Type} (f : A -> bool) (l l' : list A) :
  Permutation l l' -> existsb f l = existsb f l'.
Proof.
  induction 1; simpl; try congruence.
  destruct (f x), (f y); reflexivity.
Qed.

Lemma NoDup_map_filter {R K : Type} (key : R -> K) (keep : R -> bool)
    (rows : list R) (Hkeys : NoDup (map key rows)) :
  NoDup (map key (filter keep rows)).
Proof.
  induction rows as [|x l IH]; simpl; [constructor|].
  simpl in Hkeys. inversion Hkeys as [|? ? Hx Hl]; subst.
  destruct (keep x); simpl; [|now apply IH].
  constructor; [|now apply IH].
  intros Hin. apply Hx. apply in_map_iff in Hin. destruct Hin as [y [Hy Hf]].
  apply filter_In in Hf. rewrite <- Hy. apply in_map. tauto.
Qed.

Lemma NoDup_map_inj {A B : Type} (f : A -> B) (l : list A) (x y : A) :
  NoDup (map f l) -> In x l -> In y l -> f x = f y -> x = y.
Proof.
  induction l as [|z l IH]; simpl; intros H Hx Hy E; [contradiction|].
  inversion H as [|? ? Hz Hl]; subst.
  destruct Hx as [Hx|Hx], Hy as [Hy|Hy]; subst; trivial.
  - exfalso. apply Hz. rewrite E. now apply in_map.
  - exfalso. apply Hz. rewrite <- E. now apply in_map.
  - now apply IH.
Qed.

Lemma find_first {A : Type} (p : A -> bool) (l : list A) (x : A) :
  find p l = Some x ->
  exists before after,
    l = before ++ x :: after /\ p x = true /\ forall b, In b before -> p b = false.
Proof.
  induction l as [|y l IH]; simpl; [discriminate|].
  destruct (p y) eqn:E.
  - intros H. inversion H; subst. exists [], l. simpl. tauto.
  - intros H. destruct (IH H) as [before [after [Hl [Hx Hb]]]].
    exists (y :: before), after. subst l. simpl. repeat split; trivial.
    intros b [Hb'|Hb']; [now subst | now apply Hb].
Qed.

(* ------------------------------------------------------------------ *)
(** ** The key constraints hold in every store the program builds *)

Lemma NoDup_map_snoc {R K : Type} (key : R -> K) (rows : list R) (row : R) :
  NoDup (map key rows) -> ~ In (key row) (map key rows) ->
  NoDup (map key (rows ++ [row])).
Proof.
  intros Hnd Hnew. rewrite map_app. simpl.
  apply NoDup_app; [exact Hnd | repeat constructor; intros [] |].
  intros k Hk [Hk'|[]]. subst k. contradiction.
Qed.

Lemma empty_db_wf : db_wf empty_db.
Proof. constructor; simpl; constructor. Qed.

Lemma define_funnel_stage_wf (db db' : DB) (stage_id name : string) (position : Z)
    (description entry_event exit_event : string) (st : FunnelStage) :
  db_wf db ->
  define_funnel_stage db stage_id name position description entry_event exit_event
    = Ok (db', st) ->
  db_wf db'.
Proof.
  intros [H1 H2 H3 H4 H5 H6] Hdef.
  apply define_funnel_stage_inv in Hdef. destruct Hdef as [_ [-> ->]].
  constructor; simpl; try assumption.
  - apply NoDup_map_snoc; [now apply NoDup_map_filter|]. simpl.
    intros Hin. apply in_map_iff in Hin. destruct Hin as [s [Hs Hf]].
    apply filter_In in Hf. destruct Hf as [_ Hf].
    apply negb_true_iff, orb_false_iff in Hf. destruct Hf as [Hf _].
    apply String.eqb_neq in Hf. contradiction.
  - apply NoDup_map_snoc; [now apply NoDup_map_filter|]. simpl.
    intros Hin. apply in_map_iff in Hin. destruct Hin as [s [Hs Hf]].
    apply filter_In in Hf. destruct Hf as [_ Hf].
    apply negb_true_iff, orb_false_iff in Hf. destruct Hf as [_ Hf].
    apply String.eqb_neq in Hf. contradiction.
Qed.

Lemma start_session_wf (db db' : DB) (session_id now customer_id channel device sid
    : string) :
  db_wf db ->
  start_session db session_id now customer_id channel device = Ok (db', sid) ->
  db_wf db'.
Proof.
  intros [H1 H2 H3 H4 H5 H6]. unfold start_session.
  destruct (pk_insert cs_id _ _) as [ss|] eqn:E; [|discriminate].
  cbn [bind]. intros H. inversion H; subst.
  apply pk_insert_Ok in E. destruct E as [-> Hnew].
  constructor; simpl; try assumption. now apply NoDup_map_snoc.
Qed.

Lemma record_touchpoint_wf (db db' : DB) (new_id now session_id customer_id channel
    page event_type : string) (duration_ms : Z) (metadata : option string)
    (res : pydict) :
  db_wf db ->
  record_touchpoint db new_id now session_id customer_id channel page event_type
                    duration_ms metadata = Ok (db', res) ->
  db_wf db'.
Proof.
  intros [H1 H2 H3 H4 H5 H6]. unfold record_touchpoint.
  destruct (bind_integer duration_ms) as [duration|]; [|discriminate]. cbn [bind].
  destruct (pk_insert tp_id _ _) as [tps|] eqn:E; [|discriminate].
  cbn [bind]. intros H. inversion H; subst.
  apply pk_insert_Ok in E. destruct E as [-> Hnew].
  constructor; simpl; try assumption. now apply NoDup_map_snoc.
Qed.

Lemma close_session_rows_ids (ss : list CustomerSession) (session_id now : string)
    (converted : bool) (value : float) :
  map cs_id (close_session_rows ss session_id now converted value) = map cs_id ss.
Proof.
  unfold close_session_rows. rewrite map_map. apply map_ext.
  intros s. now destruct (String.eqb (cs_id s) session_id).
Qed.

Lemma end_session_wf (db db' : DB) (path_id drop_id now session_id : string)
    (converted : bool) (value : float) (path : ConversionPath) :
  db_wf db ->
  end_session db path_id drop_id now session_id converted value = Ok (db', path) ->
  db_wf db'.
Proof.
  intros [H1 H2 H3 H4 H5 H6]. unfold end_session.
  destruct (pk_insert cp_id _ _) as [cps|] eqn:E; [|discriminate].
  cbn [bind]. apply pk_insert_Ok in E. destruct E as [-> Hnew].
  match goal with
  | |- bind ?r _ = _ -> _ => destruct r as [des|] eqn:Ed; [|discriminate]
  end.
  cbn [bind]. intros H. inversion H; subst.
  constructor; simpl; try assumption.
  - now rewrite close_session_rows_ids.
  - now apply NoDup_map_snoc.
  - destruct converted; simpl in Ed.
    + inversion Ed; subst. assumption.
    + destruct (first_missed_stage _ _).
      * apply pk_insert_Ok in Ed. destruct Ed as [-> Hd].
        now apply NoDup_map_snoc.
      * inversion Ed; subst. assumption.
Qed.

(** What a successful call has done. *)

Lemma start_session_inv (db db' : DB) (session_id now customer_id channel device sid
    : string) :
  start_session db session_id now customer_id channel device = Ok (db', sid) ->
  sid = session_id
  /\ ~ In session_id (map cs_id (sessions db))
  /\ db' = mkDB (funnel_stages db)
                (sessions db ++ [mkCustomerSession session_id customer_id now None
                                                   channel device false 0%float])
                (touchpoints db) (conversion_paths db) (dropoff_events db).
Proof.
  unfold start_session.
  destruct (pk_insert cs_id _ _) as [ss|] eqn:E; [|discriminate].
  cbn [bind]. intros H. inversion H; subst.
  apply pk_insert_Ok in E. destruct E as [-> Hnew]. auto.
Qed.

Lemma record_touchpoint_inv (db db' : DB) (new_id now session_id customer_id channel
    page event_type : string) (duration_ms : Z) (metadata : option string)
    (res : pydict) :
  record_touchpoint db new_id now session_id customer_id channel page event_type
                    duration_ms metadata = Ok (db', res) ->
  ~ In new_id (map tp_id (touchpoints db))
  /\ exists tp,
       tp_id tp = new_id /\ tp_session_id tp = session_id
       /\ tp_event_type tp = event_type /\ tp_timestamp tp = now
       /\ tp_duration_ms tp = duration_ms
       /\ db' = mkDB (funnel_stages db) (sessions db) (touchpoints db ++ [tp])
                     (conversion_paths db) (dropoff_events db).
Proof.
  unfold record_touchpoint.
  destruct (bind_integer duration_ms) as [duration|] eqn:Eb; [|discriminate].
  apply bind_integer_Ok in Eb. destruct Eb as [_ ->]. cbn [bind].
  destruct (pk_insert tp_id _ _) as [tps|] eqn:E; [|discriminate].
  cbn [bind]. intros H. inversion H; subst.
  apply pk_insert_Ok in E. destruct E as [-> Hnew].
  split; [exact Hnew|].
  exists (mkTouchpoint new_id session_id customer_id channel page event_type now
                       duration_ms
                       (match metadata with Some m => m | None => "{}" end)).
  repeat split.
Qed.

Lemma end_session_inv (db db' : DB) (path_id drop_id now session_id : string)
    (converted : bool) (value : float) (path : ConversionPath) :
  end_session db path_id drop_id now session_id converted value = Ok (db', path) ->
  path = mkConversionPath path_id session_id
           (map row_name (session_stage_rows (funnel_stages db) (touchpoints db)
                                             session_id))
           (path_signature_of
              (map row_name (session_stage_rows (funnel_stages db) (touchpoints db)
                                                session_id)))
           converted now
  /\ ~ In path_id (map cp_id (conversion_paths db))
  /\ db' = mkDB (funnel_stages db)
                (close_session_rows (sessions db) session_id now converted value)
                (touchpoints db)
                (conversion_paths db ++ [path])
                (dropoff_events db
                 ++ new_dropoffs db drop_id now session_id converted
                      (cp_stages_visited path)).
Proof.
  unfold end_session, new_dropoffs.
  destruct (pk_insert cp_id _ _) as [cps|] eqn:E; [|discriminate].
  cbn [bind]. apply pk_insert_Ok in E. destruct E as [-> Hnew].
  destruct converted; cbn [negb bind].
  - intros H. inversion H; subst. cbn [cp_stages_visited].
    rewrite app_nil_r. auto.
  - destruct (first_missed_stage _ _) as [st|] eqn:Em.
    + destruct (pk_insert de_id _ _) as [des|] eqn:Ed; [|discriminate].
      cbn [bind]. apply pk_insert_Ok in Ed. destruct Ed as [-> Hd].
      intros H. inversion H; subst. cbn [cp_stages_visited]. rewrite Em. auto.
    + cbn [bind]. intros H. inversion H; subst. cbn [cp_stages_visited].
      rewrite Em, app_nil_r. auto.
Qed.

(* ------------------------------------------------------------------ *)
(** ** Touchpoint recorder *)

Lemma stages_entered_by_In (db : DB) (event_type : string) (fs : FunnelStage) :
  In fs (stages_entered_by db event_type) <->
  In fs (funnel_stages db) /\ fs_entry_event fs = event_type.
Proof.
  unfold stages_entered_by. rewrite SqlFacts.order_by_In, filter_In.
  now rewrite String.eqb_eq.
Qed.




(* ------------------------------------------------------------------ *)
(** ** Path and dropoff builder *)

Lemma first_missed_stage_Some (stages : list FunnelStage) (visited : list string)
    (st : FunnelStage) :
  first_missed_stage stages visited = Some st ->
  exists before after,
    Sql.order_by fs_position stages = before ++ st :: after
    /\ ~ In (fs_name st) visited
    /\ forall s, In s before -> In (fs_name s) visited.
Proof.
  unfold first_missed_stage. intros H.
  destruct (find_first _ _ H) as [before [after [Hl [Hst Hb]]]].
  exists before, after. split; [exact Hl|]. split.
  - apply negb_true_iff in Hst. now apply str_in_notIn.
  - intros s Hs. specialize (Hb s Hs). apply negb_false_iff in Hb.
    now apply str_in_In.
Qed.

Lemma first_missed_stage_None (stages : list FunnelStage) (visited : list string) :
  first_missed_stage stages visited = None <->
  forall st, In st stages -> In (fs_name st) visited.
Proof.
  unfold first_missed_stage. split.
  - intros H st Hst. apply (proj2 (SqlFacts.order_by_In fs_position stages st)) in Hst.
    pose proof (find_none _ _ H st Hst) as Hn. apply negb_false_iff in Hn.
    now apply str_in_In.
  - intros H. destruct (find _ _) as [st|] eqn:E; [|reflexivity].
    apply find_some in E. destruct E as [Hin Hp].
    apply SqlFacts.order_by_In in Hin. apply negb_true_iff in Hp.
    apply str_in_notIn in Hp. exfalso. apply Hp. now apply H.
Qed.

Lemma stage_row_eqb_eq (r1 r2 : stage_row) : stage_row_eqb r1 r2 = true <-> r1 = r2.
Proof.
  destruct r1 as [[i1 n1] p1], r2 as [[i2 n2] p2].
  unfold stage_row_eqb, row_id, row_name, row_position. simpl.
  rewrite !andb_true_iff, !String.eqb_eq, Z.eqb_eq.
  split; [intros [[? ?] ?]; subst; reflexivity | intros H; inversion H; auto].
Qed.

Lemma stage_matched_true (tps : list Touchpoint) (sid : string) (fs : FunnelStage) :
  stage_matched tps sid fs = true <->
  exists tp, In tp tps /\ tp_session_id tp = sid
             /\ tp_event_type tp = fs_entry_event fs.
Proof.
  unfold stage_matched. rewrite existsb_exists.
  split; intros [tp [H1 H2]]; exists tp.
  - apply andb_true_iff in H2. rewrite !String.eqb_eq in H2. tauto.
  - split; [assumption|]. apply andb_true_iff. rewrite !String.eqb_eq. tauto.
Qed.

(** The rows of the join in [end_session] are the rows of the stages that
    some touchpoint of the session matches. *)
Lemma session_stage_rows_In (stages : list FunnelStage) (tps : list Touchpoint)
    (sid : string) (r : stage_row) :
  In r (session_stage_rows stages tps sid) <->
  exists fs, In fs stages /\ to_row fs = r /\ stage_matched tps sid fs = true.
Proof.
  unfold session_stage_rows.
  rewrite SqlFacts.order_by_In, (SqlFacts.distinct_In _ stage_row_eqb_eq), in_map_iff.
  split.
  - intros [[tp fs] [Hr Hin]]. simpl in Hr. apply join_In in Hin.
    destruct Hin as [Htp [Hfs Hon]]. apply filter_In in Htp.
    destruct Htp as [Htp Hsid]. rewrite String.eqb_eq in Hon, Hsid.
    exists fs. split; [assumption|]. split; [assumption|].
    apply stage_matched_true. exists tp. auto.
  - intros [fs [Hfs [Hr Hm]]].
    apply stage_matched_true in Hm. destruct Hm as [tp [Htp [Hsid Hev]]].
    exists (tp, fs). split; [assumption|]. apply join_In.
    split; [|split; [assumption | now apply String.eqb_eq]].
    apply filter_In. split; [assumption | now apply String.eqb_eq].
Qed.

Lemma session_stage_names_In (stages : list FunnelStage) (tps : list Touchpoint)
    (sid name : string) :
  In name (map row_name (session_stage_rows stages tps sid)) <->
  exists fs, In fs stages /\ fs_name fs = name /\ stage_matched tps sid fs = true.
Proof.
  rewrite in_map_iff. split.
  - intros [r [Hn Hr]]. apply session_stage_rows_In in Hr.
    destruct Hr as [fs [Hfs [Hrow Hm]]]. exists fs. subst r. auto.
  - intros [fs [Hfs [Hn Hm]]]. exists (to_row fs). split; [exact Hn|].
    apply session_stage_rows_In. exists fs. auto.
Qed.

(** C1.  A call of [end_session] whose two fresh identifiers are new adds
    exactly one conversion path, and it changes neither the stages nor the
    touchpoints.  The names in [stages_visited] are the names of the
    registered stages whose entry event is the event type of some
    touchpoint of the session.  With [converted] true the call adds no
    dropoff event.  With [converted] false it adds none when the name of
    every registered stage is in [stages_visited], so none when every
    registered stage is matched by a touchpoint of the session, and
    otherwise exactly one: for the first stage, in ascending order of
    position, whose name is not in [stages_visited], which no touchpoint
    of the session matches, with the reason [stage_not_reached]. *)
Theorem end_session_one_path_at_most_one_dropoff :
  forall (db : DB) (path_id drop_id now session_id : string)
         (converted : bool) (conversion_value : float),
    ~ In path_id (map cp_id (conversion_paths db)) ->
    ~ In drop_id (map de_id (dropoff_events db)) ->
    exists db' path,
      end_session db path_id drop_id now session_id converted conversion_value
        = Ok (db', path)
      /\ conversion_paths db' = conversion_paths db ++ [path]
      /\ cp_id path = path_id /\ cp_session_id path = session_id
      /\ cp_converted path = converted
      /\ cp_created_at path = now
      /\ funnel_stages db' = funnel_stages db
      /\ touchpoints db' = touchpoints db
      /\ (forall name,
            In name (cp_stages_visited path) <->
            exists fs, In fs (funnel_stages db) /\ fs_name fs = name
                       /\ stage_matched (touchpoints db) session_id fs = true)
      /\ Permutation (funnel_stages db) (Sql.order_by fs_position (funnel_stages db))
      /\ StronglySorted (Sql.key_le fs_position)
                        (Sql.order_by fs_position (funnel_stages db))
      /\ (converted = true -> dropoff_events db' = dropoff_events db)
      /\ (converted = false ->
          ((forall st, In st (funnel_stages db) ->
                       In (fs_name st) (cp_stages_visited path)) ->
           dropoff_events db' = dropoff_events db)
          /\ ((forall st, In st (funnel_stages db) ->
                          stage_matched (touchpoints db) session_id st = true) ->
              dropoff_events db' = dropoff_events db)
          /\ ((exists st, In st (funnel_stages db)
                          /\ ~ In (fs_name st) (cp_stages_visited path)) ->
              exists before st after,
                Sql.order_by fs_position (funnel_stages db) = before ++ st :: after
                /\ (forall s, In s before -> In (fs_name s) (cp_stages_visited path))
                /\ ~ In (fs_name st) (cp_stages_visited path)
                /\ stage_matched (touchpoints db) session_id st = false
                /\ dropoff_events db' =
                     dropoff_events db ++
                     [mkDropoffEvent drop_id session_id (fs_id st) (fs_name st) now
                                     "stage_not_reached"])).
Proof.
  intros db path_id drop_id now session_id converted conversion_value Hp Hd.
  unfold end_session.
  set (visited := map row_name _).
  set (path := mkConversionPath path_id session_id visited _ converted now).
  assert (Hvisited : forall name,
             In name visited <->
             exists fs, In fs (funnel_stages db) /\ fs_name fs = name
                        /\ stage_matched (touchpoints db) session_id fs = true).
  { intros name. apply session_stage_names_In. }
  assert (Hall : (forall st, In st (funnel_stages db) ->
                             stage_matched (touchpoints db) session_id st = true) ->
                 forall st, In st (funnel_stages db) -> In (fs_name st) visited).
  { intros H st Hst. apply Hvisited. exists st. auto. }
  rewrite (pk_insert_fresh cp_id (conversion_paths db) path) by exact Hp.
  cbn [bind].
  destruct converted; cbn [negb bind].
  - eexists _, path. split; [reflexivity|].
    do 7 (split; [reflexivity|]). split; [exact Hvisited|].
    split; [apply SqlFacts.order_by_perm|].
    split; [apply SqlFacts.order_by_sorted|].
    split; [reflexivity | discriminate].
  - destruct (first_missed_stage (funnel_stages db) visited) as [st|] eqn:E.
    + rewrite pk_insert_fresh by exact Hd. cbn [bind].
      eexists _, path. split; [reflexivity|].
      do 7 (split; [reflexivity|]). split; [exact Hvisited|].
      split; [apply SqlFacts.order_by_perm|].
      split; [apply SqlFacts.order_by_sorted|].
      split; [discriminate|]. intros _.
      destruct (first_missed_stage_Some _ _ E) as [before [after [Hl [Hst Hb]]]].
      assert (Hin : In st (funnel_stages db)).
      { apply (SqlFacts.order_by_In fs_position). rewrite Hl.
        apply in_or_app. right. now left. }
      split; [|split].
      * intros Hnames. exfalso. apply Hst. now apply Hnames.
      * intros Hm. exfalso. apply Hst. now apply (Hall Hm).
      * intros _. exists before, st, after. cbn.
        split; [exact Hl|]. split; [exact Hb|]. split; [exact Hst|].
        split; [|reflexivity].
        destruct (stage_matched (touchpoints db) session_id st) eqn:Em;
          [|reflexivity].
        exfalso. apply Hst. apply Hvisited. exists st. auto.
    + eexists _, path. split; [reflexivity|].
      do 7 (split; [reflexivity|]). split; [exact Hvisited|].
      split; [apply SqlFacts.order_by_perm|].
      split; [apply SqlFacts.order_by_sorted|].
      split; [discriminate|]. intros _.
      split; [reflexivity|]. split; [reflexivity|].
      intros [st [Hin Hnot]]. exfalso. apply Hnot.
      now apply (proj1 (first_missed_stage_None _ _) E).
Qed.

(** C1, at a store where the session reached stage [B] but not stage [A]. *)
Lemma end_session_one_path_witness :
  exists db' path,
    end_session Examples.open_session "p1" "d1" "2024-01-01T10:00:03" "s1" false 0
      = Ok (db', path)
    /\ conversion_paths db' = conversion_paths Examples.open_session ++ [path]
    /\ cp_id path = "p1" /\ cp_session_id path = "s1"
    /\ cp_converted path = false
    /\ cp_created_at path = "2024-01-01T10:00:03"
    /\ funnel_stages db' = funnel_stages Examples.open_session
    /\ touchpoints db' = touchpoints Examples.open_session
    /\ (forall name,
          In name (cp_stages_visited path) <->
          exists fs, In fs (funnel_stages Examples.open_session)
                     /\ fs_name fs = name
                     /\ stage_matched (touchpoints Examples.open_session) "s1" fs
                        = true)
    /\ Permutation (funnel_stages Examples.open_session)
         (Sql.order_by fs_position (funnel_stages Examples.open_session))
    /\ StronglySorted (Sql.key_le fs_position)
         (Sql.order_by fs_position (funnel_stages Examples.open_session))
    /\ (false = true -> dropoff_events db' = dropoff_events Examples.open_session)
    /\ (false = false ->
        ((forall st, In st (funnel_stages Examples.open_session) ->
                     In (fs_name st) (cp_stages_visited path)) ->
         dropoff_events db' = dropoff_events Examples.open_session)
        /\ ((forall st, In st (funnel_stages Examples.open_session) ->
                        stage_matched (touchpoints Examples.open_session) "s1" st
                        = true) ->
            dropoff_events db' = dropoff_events Examples.open_session)
        /\ ((exists st, In st (funnel_stages Examples.open_session)
                        /\ ~ In (fs_name st) (cp_stages_visited path)) ->
            exists before st after,
              Sql.order_by fs_position (funnel_stages Examples.open_session)
                = before ++ st :: after
              /\ (forall s, In s before -> In (fs_name s) (cp_stages_visited path))
              /\ ~ In (fs_name st) (cp_stages_visited path)
              /\ stage_matched (touchpoints Examples.open_session) "s1" st = false
              /\ dropoff_events db' =
                   dropoff_events Examples.open_session ++
                   [mkDropoffEvent "d1" "s1" (fs_id st) (fs_name st)
                      "2024-01-01T10:00:03" "stage_not_reached"])).
Proof.
  apply (end_session_one_path_at_most_one_dropoff
           Examples.open_session "p1" "d1" "2024-01-01T10:00:03" "s1" false 0).
  - simpl. tauto.
  - simpl. tauto.
Defined.

(** The last clause of C1 at work: the example session has reached stage
    [B]; once it has also reached stage [A] it has visited every registered
    stage, and closing it without a conversion adds no dropoff event. *)
Lemma end_session_all_stages_visited_example :
  exists db1 res db2 path,
    record_touchpoint Examples.open_session "t2" "2024-01-01T10:00:02" "s1" "c1"
                      "web" "/" "a" 0 None = Ok (db1, res)
    /\ end_session db1 "p1" "d1" "2024-01-01T10:00:03" "s1" false 0
       = Ok (db2, path)
    /\ cp_stages_visited path = ["B"; "A"]
    /\ dropoff_events db2 = [].
Proof. eexists _, _, _, _. repeat split; vm_compute; reflexivity. Qed.

(* ------------------------------------------------------------------ *)
(** ** Path signature *)

Lemma matched_stages_perm (stages : list FunnelStage) (tps tps' : list Touchpoint)
    (sid : string) :
  Permutation tps tps' -> matched_stages stages tps sid = matched_stages stages tps' sid.
Proof.
  intros H. unfold matched_stages. apply filter_ext. intros fs.
  unfold stage_matched. now apply existsb_perm.
Qed.

(** The rows the join of [end_session] produces, before [ORDER BY]: each
    matched stage once. *)
Lemma joined_rows_perm (stages : list FunnelStage) (tps : list Touchpoint)
    (sid : string) :
  NoDup (map fs_id stages) ->
  Permutation
    (Sql.distinct stage_row_eqb
       (map (fun p => to_row (snd p))
          (Sql.join (fun tp fs => String.eqb (tp_event_type tp) (fs_entry_event fs))
             (filter (fun tp => String.eqb (tp_session_id tp) sid) tps)
             stages)))
    (map to_row (matched_stages stages tps sid)).
Proof.
  intros Hnd. apply NoDup_Permutation.
  - apply SqlFacts.distinct_NoDup, stage_row_eqb_eq.
  - apply (NoDup_map_inv row_id). rewrite map_map. simpl.
    unfold matched_stages. change (fun x => row_id (to_row x)) with fs_id.
    now apply NoDup_map_filter.
  - intros r. rewrite (SqlFacts.distinct_In _ stage_row_eqb_eq).
    rewrite !in_map_iff. split.
    + intros [[tp fs] [Hr Hin]]. simpl in Hr. apply join_In in Hin.
      destruct Hin as [Htp [Hfs Hon]]. apply filter_In in Htp.
      destruct Htp as [Htp Hsid]. rewrite String.eqb_eq in Hon, Hsid.
      exists fs. split; [assumption|]. apply filter_In. split; [assumption|].
      apply stage_matched_true. exists tp. auto.
    + intros [fs [Hr Hin]]. apply filter_In in Hin. destruct Hin as [Hfs Hm].
      apply stage_matched_true in Hm. destruct Hm as [tp [Htp [Hsid Hev]]].
      exists (tp, fs). split; [assumption|]. apply join_In.
      split; [|split; [assumption | now apply String.eqb_eq]].
      apply filter_In. split; [assumption | now apply String.eqb_eq].
Qed.

Lemma session_stage_rows_perm (stages : list FunnelStage) (tps : list Touchpoint)
    (sid : string) :
  NoDup (map fs_id stages) ->
  Permutation (session_stage_rows stages tps sid)
              (map to_row (matched_stages stages tps sid)).
Proof.
  intros H. unfold session_stage_rows.
  rewrite <- SqlFacts.order_by_perm. now apply joined_rows_perm.
Qed.

Lemma session_stage_rows_sorted (stages : list FunnelStage) (tps : list Touchpoint)
    (sid : string) :
  StronglySorted (Sql.key_le row_position) (session_stage_rows stages tps sid).
Proof. apply SqlFacts.order_by_sorted. Qed.

Lemma sorted_rows_stages (l : list FunnelStage) :
  StronglySorted (Sql.key_le row_position) (map to_row l) ->
  StronglySorted (Sql.key_le fs_position) l.
Proof.
  induction l as [|x l IH]; simpl; intros H; [constructor|].
  inversion H as [|? ? Hl Hx]; subst. constructor; [now apply IH|].
  rewrite Forall_map in Hx. exact Hx.
Qed.

Lemma end_session_path (db db' : DB) (path_id drop_id now sid : string)
    (converted : bool) (value : float) (path : ConversionPath) :
  end_session db path_id drop_id now sid converted value = Ok (db', path) ->
  cp_stages_visited path =
    map row_name (session_stage_rows (funnel_stages db) (touchpoints db) sid)
  /\ cp_path_signature path = path_signature_of (cp_stages_visited path).
Proof.
  unfold end_session. intros H.
  destruct (pk_insert cp_id _ _) as [cps|]; [|discriminate]. cbn [bind] in H.
  match type of H with
  | bind ?r _ = _ => destruct r as [des|]; [|discriminate]
  end.
  cbn [bind] in H. inversion H; subst. simpl. auto.
Qed.

(** C2, as the program has it.  When the session is closed, the stages in
    [stages_visited] are the matched stages, each once, in ascending order
    of position; the signature is ["direct"] when no stage is matched and
    otherwise their names joined by [" → "].  When no two matched stages
    share a position, recording the same touchpoints in another order
    gives the same signature. *)
Theorem path_signature_joins_matched_stages_by_position :
  forall (db db' : DB) (path_id drop_id now sid : string) (converted : bool)
         (value : float) (path : ConversionPath),
    db_wf db ->
    end_session db path_id drop_id now sid converted value = Ok (db', path) ->
    exists visited : list FunnelStage,
      Permutation visited (matched_stages (funnel_stages db) (touchpoints db) sid)
      /\ StronglySorted (Sql.key_le fs_position) visited
      /\ cp_stages_visited path = map fs_name visited
      /\ NoDup (cp_stages_visited path)
      /\ (matched_stages (funnel_stages db) (touchpoints db) sid = [] ->
          cp_path_signature path = "direct")
      /\ (matched_stages (funnel_stages db) (touchpoints db) sid <> [] ->
          cp_path_signature path = String.concat " → " (map fs_name visited))
      /\ (NoDup (map fs_position visited) ->
          forall (db2 db2' : DB) (path_id2 drop_id2 now2 : string)
                 (converted2 : bool) (value2 : float) (path2 : ConversionPath),
            funnel_stages db2 = funnel_stages db ->
            Permutation (touchpoints db) (touchpoints db2) ->
            end_session db2 path_id2 drop_id2 now2 sid converted2 value2
              = Ok (db2', path2) ->
            cp_stages_visited path2 = cp_stages_visited path
            /\ cp_path_signature path2 = cp_path_signature path).
Proof.
  intros db db' path_id drop_id now sid converted value path Hwf He.
  destruct (end_session_path _ _ _ _ _ _ _ He) as [Hv Hs].
  pose proof (session_stage_rows_perm _ (touchpoints db) sid (wf_stage_ids Hwf)) as Hp.
  destruct (Permutation_map_inv _ _ Hp) as [visited [Hrows Hperm]].
  exists visited.
  assert (Hnames : cp_stages_visited path = map fs_name visited).
  { rewrite Hv, Hrows, map_map. reflexivity. }
  split; [now symmetry|].
  split.
  { apply sorted_rows_stages. rewrite <- Hrows. apply session_stage_rows_sorted. }
  split; [exact Hnames|].
  split.
  { rewrite Hnames. apply (Permutation_NoDup (Permutation_map fs_name Hperm)).
    unfold matched_stages. apply NoDup_map_filter. exact (wf_stage_names Hwf). }
  split.
  { intros Hm. rewrite Hm in Hperm. apply Permutation_nil in Hperm.
    rewrite Hs, Hnames, Hperm. reflexivity. }
  split.
  { intros Hm. rewrite Hs, Hnames. destruct visited as [|v vs]; [|reflexivity].
    exfalso. apply Hm. apply Permutation_nil. now symmetry. }
  intros Hpos db2 db2' path_id2 drop_id2 now2 converted2 value2 path2 Hst Htp He2.
  destruct (end_session_path _ _ _ _ _ _ _ He2) as [Hv2 Hs2].
  assert (Hrows2 : session_stage_rows (funnel_stages db2) (touchpoints db2) sid
                   = session_stage_rows (funnel_stages db) (touchpoints db) sid).
  { symmetry. apply SqlFacts.sorted_perm_unique with (key := row_position).
    - apply session_stage_rows_sorted.
    - apply session_stage_rows_sorted.
    - rewrite Hrows, map_map. exact Hpos.
    - rewrite Hp. rewrite Hst.
      rewrite (session_stage_rows_perm _ (touchpoints db2) sid (wf_stage_ids Hwf)).
      now rewrite (matched_stages_perm (funnel_stages db) sid Htp). }
  assert (Hvv : cp_stages_visited path2 = cp_stages_visited path).
  { now rewrite Hv2, Hv, Hrows2. }
  split; [exact Hvv|]. now rewrite Hs2, Hs, Hvv.
Qed.

(** C2, at a store where the session reached stage [B] only. *)
Lemma path_signature_witness :
  exists visited : list FunnelStage,
    Permutation visited
      (matched_stages (funnel_stages Examples.open_session)
                      (touchpoints Examples.open_session) "s1")
    /\ StronglySorted (Sql.key_le fs_position) visited
    /\ cp_stages_visited (snd Examples.closed_session) = map fs_name visited
    /\ NoDup (cp_stages_visited (snd Examples.closed_session))
    /\ (matched_stages (funnel_stages Examples.open_session)
                       (touchpoints Examples.open_session) "s1" = [] ->
        cp_path_signature (snd Examples.closed_session) = "direct")
    /\ (matched_stages (funnel_stages Examples.open_session)
                       (touchpoints Examples.open_session) "s1" <> [] ->
        cp_path_signature (snd Examples.closed_session)
          = String.concat " → " (map fs_name visited))
    /\ (NoDup (map fs_position visited) ->
        forall (db2 db2' : DB) (path_id2 drop_id2 now2 : string)
               (converted2 : bool) (value2 : float) (path2 : ConversionPath),
          funnel_stages db2 = funnel_stages Examples.open_session ->
          Permutation (touchpoints Examples.open_session) (touchpoints db2) ->
          end_session db2 path_id2 drop_id2 now2 "s1" converted2 value2
            = Ok (db2', path2) ->
          cp_stages_visited path2 = cp_stages_visited (snd Examples.closed_session)
          /\ cp_path_signature path2
             = cp_path_signature (snd Examples.closed_session)).
Proof.
  apply path_signature_joins_matched_stages_by_position
    with (db' := fst Examples.closed_session) (path_id := "p1") (drop_id := "d1")
         (now := "2024-01-01T10:00:03") (converted := false) (value := 0%float).
  - constructor; simpl; repeat constructor; simpl; intuition discriminate.
  - reflexivity.
Defined.

(** C2 as stated fails: two stages share position [1]; the session that
    records event [a] before event [b] gets the signature ["A → B"], the
    session that records [b] before [a] gets ["B → A"]. *)
Lemma path_signature_depends_on_touchpoint_order :
  exists (dba dbb : DB) (pa pb : ConversionPath),
    Examples.two_event_session Examples.tied_stages "a" "b" true = Ok (dba, pa)
    /\ Examples.two_event_session Examples.tied_stages "b" "a" true = Ok (dbb, pb)
    /\ Permutation (map tp_event_type (touchpoints dba))
                   (map tp_event_type (touchpoints dbb))
    /\ funnel_stages dba = funnel_stages dbb
    /\ cp_path_signature pa = "A → B"
    /\ cp_path_signature pb = "B → A"
    /\ cp_path_signature pa <> cp_path_signature pb.
Proof.
  eexists _, _, _, _.
  split; [reflexivity|]. split; [reflexivity|].
  split; [simpl; apply perm_swap|].
  split; [reflexivity|]. split; [reflexivity|]. split; [reflexivity|].
  simpl. discriminate.
Qed.

(* ------------------------------------------------------------------ *)
(** ** Funnel analysis *)

Lemma session_has_event_true (db : DB) (event : string) (s : CustomerSession) :
  session_has_event db event s = true <->
  exists tp, In tp (touchpoints db) /\ tp_session_id tp = cs_id s
             /\ tp_event_type tp = event.
Proof.
  unfold session_has_event. rewrite existsb_exists.
  split; intros [tp [H1 H2]]; exists tp.
  - apply andb_true_iff in H2. rewrite !String.eqb_eq in H2. tauto.
  - split; [assumption|]. apply andb_true_iff. rewrite !String.eqb_eq. tauto.
Qed.

(** The sessions counted by the entry query are the sessions in the window
    that have the event, each once. *)
Lemma reached_sessions_perm (db : DB) (event cutoff : string) :
  NoDup (map cs_id (sessions db)) ->
  Permutation (reached_sessions db event cutoff)
              (map cs_id (sessions_with_event db event cutoff)).
Proof.
  intros Hnd. apply NoDup_Permutation.
  - apply SqlFacts.distinct_NoDup, String.eqb_eq.
  - unfold sessions_with_event. now apply NoDup_map_filter.
  - intros sid. unfold reached_sessions.
    rewrite (SqlFacts.distinct_In _ String.eqb_eq). rewrite !in_map_iff. split.
    + intros [[tp s] [Hsid Hin]]. simpl in Hsid. apply filter_In in Hin.
      destruct Hin as [Hj Hw]. apply join_In in Hj. destruct Hj as [Htp [Hs Hon]].
      simpl in Hw. apply andb_true_iff in Hw. destruct Hw as [Hev Hw].
      rewrite String.eqb_eq in Hon, Hev.
      exists s. split; [congruence|]. apply filter_In. split; [assumption|].
      apply andb_true_iff. split; [exact Hw|].
      apply session_has_event_true. exists tp. auto.
    + intros [s [Hsid Hin]]. apply filter_In in Hin. destruct Hin as [Hs Hc].
      apply andb_true_iff in Hc. destruct Hc as [Hw He].
      apply session_has_event_true in He. destruct He as [tp [Htp [Hts Hev]]].
      exists (tp, s). simpl. split; [congruence|]. apply filter_In. split.
      * apply join_In. split; [assumption|]. split; [assumption|].
        now apply String.eqb_eq.
      * simpl. apply andb_true_iff. split; [now apply String.eqb_eq | exact Hw].
Qed.

Lemma converted_sessions_perm (db : DB) (event cutoff : string) :
  NoDup (map cs_id (sessions db)) ->
  Permutation (converted_sessions db event cutoff)
              (map cs_id (converted_sessions_with_event db event cutoff)).
Proof.
  intros Hnd. apply NoDup_Permutation.
  - apply SqlFacts.distinct_NoDup, String.eqb_eq.
  - unfold converted_sessions_with_event, sessions_with_event.
    now do 2 apply NoDup_map_filter.
  - intros sid. unfold converted_sessions.
    rewrite (SqlFacts.distinct_In _ String.eqb_eq). rewrite !in_map_iff.
    unfold converted_sessions_with_event, sessions_with_event. split.
    + intros [[s tp] [Hsid Hin]]. simpl in Hsid. apply filter_In in Hin.
      destruct Hin as [Hj Hw]. apply join_In in Hj. destruct Hj as [Hs [Htp Hon]].
      simpl in Hw. rewrite !andb_true_iff in Hw. destruct Hw as [[Hc Hev] Hw].
      rewrite String.eqb_eq in Hon, Hev.
      exists s. split; [assumption|]. rewrite !filter_In.
      repeat split; try assumption.
      apply andb_true_iff. split; [exact Hw|].
      apply session_has_event_true. exists tp. auto.
    + intros [s [Hsid Hin]]. rewrite !filter_In in Hin.
      destruct Hin as [[Hs Hc] Hconv].
      apply andb_true_iff in Hc. destruct Hc as [Hw He].
      apply session_has_event_true in He. destruct He as [tp [Htp [Hts Hev]]].
      exists (s, tp). simpl. split; [assumption|]. apply filter_In. split.
      * apply join_In. split; [assumption|]. split; [assumption|].
        now apply String.eqb_eq.
      * simpl. rewrite !andb_true_iff. repeat split; trivial.
        now apply String.eqb_eq.
Qed.

Lemma count_reached_spec (db : DB) (event cutoff : string) :
  NoDup (map cs_id (sessions db)) ->
  count_reached db event cutoff
    = List.length (sessions_with_event db event cutoff).
Proof.
  intros H. unfold count_reached.
  rewrite (Permutation_length (reached_sessions_perm db event cutoff H)).
  apply length_map.
Qed.

Lemma count_converted_spec (db : DB) (event cutoff : string) :
  NoDup (map cs_id (sessions db)) ->
  count_converted db event cutoff
    = List.length (converted_sessions_with_event db event cutoff).
Proof.
  intros H. unfold count_converted.
  rewrite (Permutation_length (converted_sessions_perm db event cutoff H)).
  apply length_map.
Qed.

Lemma nth_error_enumerate {A : Type} (l : list A) (a i : nat) :
  nth_error (combine (seq a (List.length l)) l) i
    = option_map (fun x => (a + i, x)) (nth_error l i).
Proof.
  revert a i. induction l as [|x l IH]; intros a i; simpl.
  - now destruct i.
  - destruct i as [|i]; simpl.
    + now rewrite Nat.add_0_r.
    + rewrite IH. now rewrite Nat.add_succ_r.
Qed.

Lemma analyze_funnel_nth (db : DB) (cutoff : string) (i : nat) :
  nth_error (analyze_funnel db cutoff) i
    = option_map
        (stage_metrics db cutoff (Sql.order_by fs_position (funnel_stages db)) i)
        (nth_error (Sql.order_by fs_position (funnel_stages db)) i).
Proof.
  unfold analyze_funnel. rewrite nth_error_map, nth_error_enumerate.
  now destruct (nth_error _ i).
Qed.

(** C4.  The funnel analysis has one row per registered stage, in
    ascending order of position.  The entry count of a row is the number of
    sessions in the window that have a touchpoint of the stage's entry
    event.  The exit count of every row but the last is the entry count of
    the next row; the exit count of the last row is the number of
    converted sessions in the window that have a touchpoint of that
    stage's entry event. *)
Theorem funnel_exit_counts_chain :
  forall (db : DB) (cutoff : string),
    db_wf db ->
    Permutation (funnel_stages db) (Sql.order_by fs_position (funnel_stages db))
    /\ StronglySorted (Sql.key_le fs_position)
                      (Sql.order_by fs_position (funnel_stages db))
    /\ map fm_stage_id (analyze_funnel db cutoff)
         = map fs_id (Sql.order_by fs_position (funnel_stages db))
    /\ forall (i : nat) (st : FunnelStage) (r : FunnelMetrics),
         nth_error (Sql.order_by fs_position (funnel_stages db)) i = Some st ->
         nth_error (analyze_funnel db cutoff) i = Some r ->
         entry_count r
           = List.length (sessions_with_event db (fs_entry_event st) cutoff)
         /\ (forall r', nth_error (analyze_funnel db cutoff) (i + 1) = Some r' ->
                        exit_count r = entry_count r')
         /\ (i + 1 = List.length (analyze_funnel db cutoff) ->
             exit_count r
               = List.length
                   (converted_sessions_with_event db (fs_entry_event st) cutoff)).
Proof.
  intros db cutoff Hwf.
  pose proof (wf_session_ids Hwf) as Hs.
  split; [apply SqlFacts.order_by_perm|].
  split; [apply SqlFacts.order_by_sorted|].
  assert (Hlen : List.length (analyze_funnel db cutoff)
                 = List.length (Sql.order_by fs_position (funnel_stages db))).
  { unfold analyze_funnel. rewrite length_map, length_combine, length_seq. lia. }
  split.
  { apply nth_error_ext. intros i. rewrite !nth_error_map, analyze_funnel_nth.
    now destruct (nth_error _ i). }
  intros i st r Hst Hr.
  rewrite analyze_funnel_nth, Hst in Hr. simpl in Hr. inversion Hr; subst r; clear Hr.
  unfold stage_metrics. cbn [entry_count exit_count].
  split; [now apply count_reached_spec|].
  split.
  - intros r' Hr'. rewrite analyze_funnel_nth in Hr'.
    destruct (nth_error _ (i + 1)) as [next|] eqn:En; [|discriminate].
    simpl in Hr'. inversion Hr'; subst r'. cbn [entry_count].
    assert (Hlt : i + 1 < List.length (Sql.order_by fs_position (funnel_stages db))).
    { apply nth_error_Some. congruence. }
    apply Nat.ltb_lt in Hlt. now rewrite Hlt.
  - intros Hlast. rewrite Hlen in Hlast.
    assert (Hge : Nat.ltb (i + 1)
                    (List.length (Sql.order_by fs_position (funnel_stages db)))
                  = false).
    { apply Nat.ltb_ge. lia. }
    rewrite Hge. now apply count_converted_spec.
Qed.

(** C4, at the store of the example. *)
Lemma funnel_exit_counts_witness :
  Permutation (funnel_stages Examples.cart_without_view)
    (Sql.order_by fs_position (funnel_stages Examples.cart_without_view))
  /\ StronglySorted (Sql.key_le fs_position)
       (Sql.order_by fs_position (funnel_stages Examples.cart_without_view))
  /\ map fm_stage_id (analyze_funnel Examples.cart_without_view "2024-01-01T00:00:00")
       = map fs_id (Sql.order_by fs_position (funnel_stages Examples.cart_without_view))
  /\ forall (i : nat) (st : FunnelStage) (r : FunnelMetrics),
       nth_error (Sql.order_by fs_position (funnel_stages Examples.cart_without_view)) i
         = Some st ->
       nth_error (analyze_funnel Examples.cart_without_view "2024-01-01T00:00:00") i
         = Some r ->
       entry_count r
         = List.length (sessions_with_event Examples.cart_without_view
                          (fs_entry_event st) "2024-01-01T00:00:00")
       /\ (forall r',
             nth_error (analyze_funnel Examples.cart_without_view
                          "2024-01-01T00:00:00") (i + 1) = Some r' ->
             exit_count r = entry_count r')
       /\ (i + 1 = List.length (analyze_funnel Examples.cart_without_view
                                  "2024-01-01T00:00:00") ->
           exit_count r
             = List.length
                 (converted_sessions_with_event Examples.cart_without_view
                    (fs_entry_event st) "2024-01-01T00:00:00")).
Proof.
  apply (funnel_exit_counts_chain (db := Examples.cart_without_view)
           "2024-01-01T00:00:00").
  constructor; simpl; repeat constructor; simpl; intuition discriminate.
Defined.

(** The last stage never reports more exits than entries. *)
Lemma last_stage_exit_le_entry (db : DB) (event cutoff : string) :
  db_wf db -> count_converted db event cutoff <= count_reached db event cutoff.
Proof.
  intros Hwf. pose proof (wf_session_ids Hwf) as Hs.
  rewrite count_converted_spec, count_reached_spec by assumption.
  unfold converted_sessions_with_event. apply filter_length_le.
Qed.

(** The two rate formulas in exact rational arithmetic. *)
Module ExactRates.
Local Open Scope Q_scope.

(** In exact arithmetic the two rates sum to 100, the conversion rate is
    never negative and the drop-off rate never above 100; both lie in
    [0, 100] when the exit count does not exceed the entry count, and
    neither does when it exceeds a positive entry count. *)
Lemma exact_rates :
  forall entry exit : nat,
    raw_conversion_rate entry exit + raw_drop_off_rate entry exit == 100
    /\ 0 <= raw_conversion_rate entry exit
    /\ raw_drop_off_rate entry exit <= 100
    /\ ((exit <= entry)%nat ->
        raw_conversion_rate entry exit <= 100 /\ 0 <= raw_drop_off_rate entry exit)
    /\ ((0 < entry < exit)%nat ->
        100 < raw_conversion_rate entry exit /\ raw_drop_off_rate entry exit < 0).
Proof.
  intros entry exit. unfold raw_drop_off_rate, raw_conversion_rate.
  cbn [Py.of_int Py.truediv Py.mul Py.sub Py.exact].
  change (inject_Z 100) with 100. change (inject_Z 0) with 0.
  destruct (Nat.eqb entry 0) eqn:E.
  - apply Nat.eqb_eq in E. subst entry.
    repeat split; try lra; intros; lia.
  - apply Nat.eqb_neq in E.
    assert (He : 0 < inject_Z (Z.of_nat entry)).
    { change 0 with (inject_Z 0). rewrite <- Zlt_Qlt. lia. }
    assert (Hx : 0 <= inject_Z (Z.of_nat exit)).
    { change 0 with (inject_Z 0). rewrite <- Zle_Qle. lia. }
    set (q := inject_Z (Z.of_nat exit) / inject_Z (Z.of_nat entry)).
    assert (Hq : 0 <= q) by (apply Qle_shift_div_l; [assumption | lra]).
    split; [ring|]. split; [lra|]. split; [lra|]. split.
    + intros Hle. assert (Hq1 : q <= 1).
      { apply Qle_shift_div_r; [assumption|]. rewrite Qmult_1_l.
        rewrite <- Zle_Qle. lia. }
      lra.
    + intros [_ Hlt]. assert (Hq1 : 1 < q).
      { apply Qlt_shift_div_l; [assumption|]. rewrite Qmult_1_l.
        rewrite <- Zlt_Qlt. lia. }
      lra.
Qed.

End ExactRates.

(** C3, on the store of the example: session [s1] has the events [view]
    and [cart], session [s2] has [cart] only.  Stage [Browse] is entered by
    one session and its exit count, the entry count of stage [Buy], is two:
    the program reports a conversion rate of 200 and a drop-off rate of
    -100.  The two rates still sum to 100, but neither lies in [0, 100]. *)
Theorem funnel_rates_leave_0_100 :
  map (fun r => (fm_stage_name r, entry_count r, exit_count r,
                 conversion_rate r, drop_off_rate r))
      (analyze_funnel Examples.cart_without_view "2024-01-01T00:00:00")
    = [("Browse", 1, 2, 200%float, (-100)%float);
       ("Buy", 2, 0, 0%float, 100%float)]
  /\ PrimFloat.leb 200 100 = false
  /\ PrimFloat.leb 0 (-100) = false
  /\ (200 + -100)%float = 100%float.
Proof. repeat split; vm_compute; reflexivity. Qed.

(* ------------------------------------------------------------------ *)
(** ** Lifetime-value segments *)

(** The bucket formulas in exact rational arithmetic: there the buckets do
    partition the range of the totals. *)
Module ExactBuckets.
Local Open Scope Q_scope.

Lemma scaled_floor (w d : Q) :
  0 < w -> 0 <= d ->
  (0 <= Qfloor (d / w))%Z
  /\ inject_Z (Qfloor (d / w)) * w <= d
  /\ d < inject_Z (Qfloor (d / w) + 1) * w.
Proof.
  intros Hw Hd.
  assert (Hq : 0 <= d / w) by (apply Qle_shift_div_l; [assumption | lra]).
  split.
  { change 0%Z with (Qfloor 0). now apply Qfloor_resp_le. }
  split.
  - pose proof (Qfloor_le (d / w)) as H.
    apply (Qmult_le_compat_r _ _ w) in H; [|lra].
    assert (E : d / w * w == d) by (field; lra). rewrite E in H. exact H.
  - pose proof (Qlt_floor (d / w)) as H.
    apply (proj2 (Qmult_lt_r _ _ w Hw)) in H.
    assert (E : d / w * w == d) by (field; lra). rewrite E in H. exact H.
Qed.

Lemma int_scale_le (i j : Z) (w : Q) :
  0 < w -> (i <= j)%Z -> inject_Z i * w <= inject_Z j * w.
Proof.
  intros Hw H. apply Qmult_le_compat_r; [|lra]. now rewrite <- Zle_Qle.
Qed.

Lemma int_scale_lt_inv (i j : Z) (w : Q) :
  0 < w -> inject_Z i * w < inject_Z j * w -> (i < j)%Z.
Proof.
  intros Hw H. apply Qmult_lt_r in H; [|assumption]. now rewrite Zlt_Qlt.
Qed.

Lemma in_bucket_exact (b : Z) (m w : Q) (i : Z) (x : Q) :
  in_bucket b m w i x = true <->
  bucket_lo m w i <= x
  /\ (if Z.eqb i (b - 1) then x <= bucket_hi m w i else x < bucket_hi m w i).
Proof.
  unfold in_bucket. cbn [Py.leb Py.ltb Py.exact].
  destruct (Z.eqb i (b - 1)); rewrite andb_true_iff, ?negb_true_iff.
  - now rewrite !Qle_bool_iff.
  - rewrite Qle_bool_iff. split; intros [H1 H2]; split; trivial.
    + apply Qnot_le_lt. intros H. apply Qle_bool_iff in H. congruence.
    + destruct (Qle_bool _ x) eqn:E; [|reflexivity].
      apply Qle_bool_iff in E. lra.
Qed.

Lemma bucket_lo_exact (m w : Q) (i : Z) : bucket_lo m w i = m + inject_Z i * w.
Proof. reflexivity. Qed.

Lemma bucket_hi_exact (m w : Q) (i : Z) :
  bucket_hi m w i = m + inject_Z i * w + w.
Proof. reflexivity. Qed.

Lemma inject_Z_succ (i : Z) : inject_Z (i + 1) == inject_Z i + 1.
Proof. now rewrite inject_Z_plus. Qed.

Lemma bucket_width_exact (b : Z) (m M : Q) :
  (1 <= b)%Z -> m <= M ->
  exists w, bucket_width m M b = Ok w /\ 0 < w /\ M <= m + inject_Z b * w
            /\ (m < M -> w == (M - m) / inject_Z b)
            /\ (~ m < M -> w == 1).
Proof.
  intros Hb HmM. unfold bucket_width. cbn [Py.ltb Py.sub Py.div Py.of_int Py.exact].
  assert (Hb0 : 0 < inject_Z b).
  { change 0 with (inject_Z 0). rewrite <- Zlt_Qlt. lia. }
  destruct (Qle_bool M m) eqn:E; simpl.
  - apply Qle_bool_iff in E. exists (inject_Z 1). split; [reflexivity|].
    change (inject_Z 1) with 1. split; [lra|]. split.
    + assert (1 <= inject_Z b).
      { change 1 with (inject_Z 1). rewrite <- Zle_Qle. exact Hb. }
      lra.
    + split; [intros; lra | reflexivity].
  - assert (Hlt : m < M).
    { apply Qnot_le_lt. intros H. apply Qle_bool_iff in H. congruence. }
    assert (Eb : Z.eqb b 0 = false) by (apply Z.eqb_neq; lia).
    rewrite Eb. eexists. split; [reflexivity|]. split.
    + apply Qlt_shift_div_l; [assumption | lra].
    + split.
      * assert (E' : inject_Z b * ((M - m) / inject_Z b) == M - m) by (field; lra).
        rewrite E'. lra.
      * split; [reflexivity | intros; contradiction].
Qed.

(** In exact arithmetic, with at least one bucket, the buckets start at the
    minimum, each ends where the next starts, the last ends at or above the
    maximum, and every value between the minimum and the maximum is in
    exactly one of them. *)
Lemma exact_buckets_partition :
  forall (b : Z) (m M x : Q),
    (1 <= b)%Z -> m <= x -> x <= M ->
    exists w : Q,
      bucket_width m M b = Ok w
      /\ (m < M -> w == (M - m) / inject_Z b)
      /\ (~ m < M -> w == 1)
      /\ bucket_lo m w 0 == m
      /\ M <= bucket_hi m w (b - 1)
      /\ (forall i, bucket_hi m w i == bucket_lo m w (i + 1))
      /\ exists i : Z,
           (0 <= i < b)%Z
           /\ in_bucket b m w i x = true
           /\ forall j, (0 <= j < b)%Z -> in_bucket b m w j x = true -> j = i.
Proof.
  intros b m M x Hb Hmx HxM.
  destruct (bucket_width_exact Hb (Qle_trans _ _ _ Hmx HxM))
    as [w [Ew [Hw [Hcov [Hw1 Hw2]]]]].
  exists w. split; [exact Ew|]. split; [exact Hw1|]. split; [exact Hw2|].
  split; [rewrite bucket_lo_exact; change (inject_Z 0) with 0; ring|].
  assert (Hb1 : inject_Z (b - 1) * w + w == inject_Z b * w).
  { pose proof (inject_Z_succ (b - 1)) as Hs.
    replace (b - 1 + 1)%Z with b in Hs by lia. rewrite Hs. ring. }
  split; [rewrite bucket_hi_exact; lra|].
  split.
  { intros i. rewrite bucket_hi_exact, bucket_lo_exact, inject_Z_succ. ring. }
  assert (Hd : 0 <= x - m) by lra.
  destruct (scaled_floor Hw Hd) as [Hf0 [Hfl Hfu]].
  set (f := Qfloor ((x - m) / w)) in *.
  rewrite inject_Z_succ in Hfu.
  exists (Z.min (b - 1) f). split; [lia|]. split.
  - apply in_bucket_exact. rewrite bucket_lo_exact, bucket_hi_exact. split.
    + pose proof (int_scale_le (i := Z.min (b - 1) f) (j := f) Hw ltac:(lia)). lra.
    + destruct (Z.eqb (Z.min (b - 1) f) (b - 1)) eqn:E.
      * apply Z.eqb_eq in E. rewrite E. lra.
      * apply Z.eqb_neq in E. replace (Z.min (b - 1) f) with f by lia. lra.
  - intros j Hj Hin. apply in_bucket_exact in Hin.
    rewrite bucket_lo_exact, bucket_hi_exact in Hin. destruct Hin as [Hlo Hhi].
    assert (Hjf : (j <= f)%Z).
    { assert (Hlt : inject_Z j * w < inject_Z (f + 1) * w).
      { rewrite inject_Z_succ. lra. }
      apply (int_scale_lt_inv Hw) in Hlt. lia. }
    destruct (Z.eqb j (b - 1)) eqn:E.
    + apply Z.eqb_eq in E. lia.
    + apply Z.eqb_neq in E.
      assert (Hfj : (f < j + 1)%Z).
      { assert (Hlt : inject_Z f * w < inject_Z (j + 1) * w).
        { rewrite inject_Z_succ. lra. }
        now apply (int_scale_lt_inv Hw) in Hlt. }
      lia.
Qed.

Lemma min_of_exact_le (l : list Q) (x y : Q) :
  In y (x :: l) -> Py.min_of x l <= y.
Proof.
  revert x y. induction l as [|a l IH]; intros x y Hy.
  - destruct Hy as [Hy|[]]. subst. unfold Py.min_of. simpl. lra.
  - unfold Py.min_of in *. simpl. cbn [Py.ltb Py.exact].
    destruct (Qle_bool x a) eqn:E; simpl.
    + apply Qle_bool_iff in E.
      destruct Hy as [Hy|[Hy|Hy]].
      * apply IH. now left.
      * subst y. apply Qle_trans with x; [apply IH; now left | exact E].
      * apply IH. now right.
    + assert (Ha : a < x).
      { apply Qnot_le_lt. intros H. apply Qle_bool_iff in H. congruence. }
      destruct Hy as [Hy|[Hy|Hy]].
      * subst y. apply Qle_trans with a; [apply IH; now left | lra].
      * apply IH. now left.
      * apply IH. now right.
Qed.

Lemma max_of_exact_ge (l : list Q) (x y : Q) :
  In y (x :: l) -> y <= Py.max_of x l.
Proof.
  revert x y. induction l as [|a l IH]; intros x y Hy.
  - destruct Hy as [Hy|[]]. subst. unfold Py.max_of. simpl. lra.
  - unfold Py.max_of in *. simpl. cbn [Py.ltb Py.exact].
    destruct (Qle_bool a x) eqn:E; simpl.
    + apply Qle_bool_iff in E.
      destruct Hy as [Hy|[Hy|Hy]].
      * apply IH. now left.
      * subst y. apply Qle_trans with x; [exact E | apply IH; now left].
      * apply IH. now right.
    + assert (Ha : x < a).
      { apply Qnot_le_lt. intros H. apply Qle_bool_iff in H. congruence. }
      destruct Hy as [Hy|[Hy|Hy]].
      * subst y. apply Qle_trans with a; [lra | apply IH; now left].
      * apply IH. now left.
      * apply IH. now right.
Qed.

(** So is every total of a non-empty list, the minimum and the maximum
    being those of the list. *)
Lemma exact_totals_fall_in_one_bucket :
  forall (b : Z) (r : Q) (rest : list Q) (y : Q),
    (1 <= b)%Z -> In y (r :: rest) ->
    exists w : Q,
      bucket_width (Py.min_of r rest) (Py.max_of r rest) b = Ok w
      /\ exists i : Z,
           (0 <= i < b)%Z
           /\ in_bucket b (Py.min_of r rest) w i y = true
           /\ forall j, (0 <= j < b)%Z ->
                        in_bucket b (Py.min_of r rest) w j y = true -> j = i.
Proof.
  intros b r rest y Hb Hy.
  destruct (exact_buckets_partition Hb (min_of_exact_le Hy) (max_of_exact_ge Hy))
    as [w [Ew [_ [_ [_ [_ [_ Hi]]]]]]].
  exists w. split; [exact Ew | exact Hi].
Qed.

End ExactBuckets.

(** C5, on the store of the example: two customers whose converted
    sessions are worth 19.99 and 59.99, five buckets.  The width is 8 and
    the upper bound of the last bucket, computed as
    [(19.99 + 4 * 8) + 8], is 59.989999999999995, below the maximum: the
    customer worth 59.99 is in no bucket, and the five counts add up to one
    customer out of two. *)
Theorem ltv_maximum_falls_outside_last_bucket :
  ltv_rows Examples.two_buyers = [("c1", 19.99%float); ("c2", 59.99%float)]
  /\ bucket_width 19.99%float 59.99%float 5 = Ok 8%float
  /\ bucket_hi 19.99%float 8%float 4 = 59.989999999999995%float
  /\ PrimFloat.ltb (bucket_hi 19.99%float 8%float 4) 59.99 = true
  /\ map (fun i => in_bucket 5 19.99%float 8%float i 59.99%float) (Py.range 5)
       = [false; false; false; false; false]
  /\ exists segments,
       compute_customer_ltv_segments Examples.two_buyers 5 = Ok segments
       /\ map customer_count segments = [1; 0; 0; 0; 0]
       /\ list_sum (map customer_count segments) = 1
       /\ List.length (ltv_rows Examples.two_buyers) = 2.
Proof.
  do 5 (split; [vm_compute; reflexivity|]).
  eexists. split; [vm_compute; reflexivity|].
  repeat split.
Qed.

(** C10.  When no session is converted the segmentation is the empty
    list, whatever the number of buckets asked for. *)
Theorem ltv_segments_empty_without_conversions :
  forall (db : DB) (buckets : Z),
    (forall s, In s (sessions db) -> cs_converted s = false) ->
    compute_customer_ltv_segments db buckets = Ok [].
Proof.
  intros db buckets H. unfold compute_customer_ltv_segments, ltv_rows.
  assert (E : filter cs_converted (sessions db) = []).
  { induction (sessions db) as [|s l IH]; [reflexivity|]. simpl.
    rewrite (H s (or_introl eq_refl)). apply IH. intros s' Hs'.
    apply H. now right. }
  rewrite E. reflexivity.
Qed.

(** C10, at a store whose only session is open, with five buckets. *)
Lemma ltv_segments_empty_witness :
  compute_customer_ltv_segments Examples.open_session 5 = Ok [].
Proof.
  apply (ltv_segments_empty_without_conversions Examples.open_session 5).
  simpl. intros s [<-|[]]. reflexivity.
Defined.

(* ------------------------------------------------------------------ *)
(** ** Journey heatmap *)

Lemma list_update_length {A : Type} (l : list A) (n : nat) (f : A -> A) :
  List.length (list_update l n f) = List.length l.
Proof.
  revert n. induction l as [|x l IH]; intros [|n]; simpl; auto.
Qed.

Lemma list_update_nth_same {A : Type} (l : list A) (n : nat) (f : A -> A) (d : A) :
  n < List.length l -> nth n (list_update l n f) d = f (nth n l d).
Proof.
  revert n. induction l as [|x l IH]; intros [|n] H; simpl in *; try lia; auto.
  apply IH. lia.
Qed.

Lemma list_update_nth_other {A : Type} (l : list A) (n k : nat) (f : A -> A) (d : A) :
  k <> n -> nth k (list_update l n f) d = nth k l d.
Proof.
  revert n k. induction l as [|x l IH]; intros [|n] [|k] H; simpl; auto; try lia.
Qed.

Lemma list_update_Forall {A : Type} (P : A -> Prop) (l : list A) (n : nat)
    (f : A -> A) :
  (forall x, P x -> P (f x)) -> Forall P l -> Forall P (list_update l n f).
Proof.
  intros Hf. revert n. induction l as [|x l IH]; intros [|n] H; simpl; auto.
  - inversion H; subst. constructor; auto.
  - inversion H; subst. constructor; auto.
Qed.

Lemma sum_map_update {A : Type} (g : A -> nat) (l : list A) (n : nat)
    (f : A -> A) (d : A) :
  n < List.length l -> g (f (nth n l d)) = S (g (nth n l d)) ->
  list_sum (map g (list_update l n f)) = S (list_sum (map g l)).
Proof.
  revert n. induction l as [|x l IH]; intros [|n] H Hg; simpl in *; try lia.
  rewrite (IH n); [lia | lia | assumption].
Qed.

Lemma list_sum_update_S (l : list nat) (n : nat) :
  n < List.length l -> list_sum (list_update l n S) = S (list_sum l).
Proof.
  revert n. induction l as [|x l IH]; intros [|n] H; simpl in *; try lia.
  rewrite IH; lia.
Qed.

Lemma week_shaped_row (m : list (list nat)) (d : nat) :
  week_shaped m -> d < 7 -> List.length (nth d m []) = 24.
Proof.
  intros [Hl Hf] Hd. rewrite Forall_forall in Hf. apply Hf, nth_In. lia.
Qed.

Lemma bump_shaped (m : list (list nat)) (d h : nat) :
  week_shaped m -> week_shaped (bump m d h).
Proof.
  intros [Hl Hf]. split.
  - unfold bump. now rewrite list_update_length.
  - unfold bump. apply list_update_Forall; [|assumption].
    intros row Hrow. now rewrite list_update_length.
Qed.

Lemma bump_total (m : list (list nat)) (d h : nat) :
  week_shaped m -> d < 7 -> h < 24 ->
  list_sum (map (@list_sum) (bump m d h)) = S (list_sum (map (@list_sum) m)).
Proof.
  intros Hm Hd Hh. unfold bump. destruct Hm as [Hl Hf].
  apply sum_map_update with (d := []); [lia|].
  assert (Hrow : h < List.length (nth d m [])).
  { rewrite (week_shaped_row (conj Hl Hf) Hd). exact Hh. }
  now apply list_sum_update_S.
Qed.

Lemma bump_cell (m : list (list nat)) (d h d' h' : nat) :
  week_shaped m -> d < 7 -> h < 24 ->
  cell (bump m d h) d' h'
    = cell m d' h' + (if Nat.eqb d d' && Nat.eqb h h' then 1 else 0).
Proof.
  intros Hm Hd Hh. unfold cell, bump.
  destruct (Nat.eqb d d') eqn:Ed.
  - apply Nat.eqb_eq in Ed. subst d'.
    rewrite list_update_nth_same by (destruct Hm; lia).
    destruct (Nat.eqb h h') eqn:Eh; simpl.
    + apply Nat.eqb_eq in Eh. subst h'.
      rewrite list_update_nth_same; [lia|].
      now rewrite (week_shaped_row Hm Hd).
    + apply Nat.eqb_neq in Eh.
      rewrite list_update_nth_other by auto. lia.
  - apply Nat.eqb_neq in Ed. simpl.
    rewrite list_update_nth_other by auto. lia.
Qed.

Lemma zero_matrix_shaped : week_shaped zero_matrix.
Proof. split; [reflexivity | repeat constructor]. Qed.

Lemma zero_matrix_cell (d h : nat) : cell zero_matrix d h = 0.
Proof.
  unfold cell, zero_matrix.
  do 8 (destruct d as [|d]; [do 25 (destruct h as [|h]; [reflexivity|]);
                             reflexivity|]).
  simpl. now destruct h.
Qed.

Section HeatmapFacts.
Variable fromisoformat : string -> option pydatetime.

Lemma count_rows_fold (rows : list string) (m : list (list nat)) :
  week_shaped m ->
  week_shaped (fold_left (count_row fromisoformat) rows m)
  /\ list_sum (map (@list_sum) (fold_left (count_row fromisoformat) rows m))
       = list_sum (map (@list_sum) m)
         + List.length (filter (parses fromisoformat) rows)
  /\ forall d h,
       cell (fold_left (count_row fromisoformat) rows m) d h
         = cell m d h + List.length (filter (falls_on fromisoformat d h) rows).
Proof.
  revert m. induction rows as [|ts rows IH]; intros m Hm; simpl.
  - split; [assumption|]. split; [lia | intros; lia].
  - destruct (fromisoformat ts) as [dt|] eqn:E.
    + assert (Hcr : count_row fromisoformat m ts = bump m (weekday dt) (hour dt)).
      { unfold count_row. now rewrite E. }
      assert (Hp : parses fromisoformat ts = true).
      { unfold parses. now rewrite E. }
      assert (Hf : forall d h, falls_on fromisoformat d h ts
                               = Nat.eqb (weekday dt) d && Nat.eqb (hour dt) h).
      { intros d h. unfold falls_on. now rewrite E. }
      assert (Hd : weekday dt < 7) by (apply Nat.ltb_lt, weekday_range).
      assert (Hh : hour dt < 24) by (apply Nat.ltb_lt, hour_range).
      rewrite Hcr, Hp.
      destruct (IH _ (bump_shaped (weekday dt) (hour dt) Hm)) as [H1 [H2 H3]].
      split; [exact H1|]. split.
      * rewrite H2, bump_total by assumption. simpl. lia.
      * intros d h. rewrite H3, bump_cell, Hf by assumption.
        destruct (Nat.eqb (weekday dt) d && Nat.eqb (hour dt) h); simpl; lia.
    + assert (Hcr : count_row fromisoformat m ts = m).
      { unfold count_row. now rewrite E. }
      assert (Hp : parses fromisoformat ts = false).
      { unfold parses. now rewrite E. }
      assert (Hf : forall d h, falls_on fromisoformat d h ts = false).
      { intros d h. unfold falls_on. now rewrite E. }
      rewrite Hcr, Hp. destruct (IH _ Hm) as [H1 [H2 H3]].
      split; [exact H1|]. split; [exact H2|].
      intros d h. now rewrite Hf.
Qed.
End HeatmapFacts.

Lemma filter_map_length {A B : Type} (f : A -> B) (p : B -> bool) (q : A -> bool)
    (l : list A) :
  List.length (filter p (map f (filter q l)))
    = List.length (filter (fun x => q x && p (f x)) l).
Proof.
  induction l as [|x l IH]; simpl; [reflexivity|].
  destruct (q x); simpl; [|assumption].
  destruct (p (f x)); simpl; congruence.
Qed.

(** C7.  Whatever the parser accepts, the total reported by the heatmap
    is the sum of the cells of its seven rows of twenty-four, and it is the
    number of touchpoints in the window whose timestamp parses; a timestamp
    that does not parse changes nothing.  The cell of day [d] and hour [h]
    counts the touchpoints in the window whose timestamp parses to weekday
    [d] (Monday is 0, Sunday is 6) and hour [h]. *)
Theorem heatmap_total_counts_parseable_touchpoints :
  forall (fromisoformat : string -> option pydatetime) (db : DB) (cutoff : string),
    total_touchpoints (get_journey_heatmap fromisoformat db cutoff)
      = list_sum (map (@list_sum)
                      (matrix (get_journey_heatmap fromisoformat db cutoff)))
    /\ total_touchpoints (get_journey_heatmap fromisoformat db cutoff)
       = List.length
           (filter (fun tp => tp_in_window cutoff tp
                              && parses fromisoformat (tp_timestamp tp))
                   (touchpoints db))
    /\ week_shaped (matrix (get_journey_heatmap fromisoformat db cutoff))
    /\ (forall d h,
          cell (matrix (get_journey_heatmap fromisoformat db cutoff)) d h
            = List.length
                (filter (fun tp => tp_in_window cutoff tp
                                   && falls_on fromisoformat d h (tp_timestamp tp))
                        (touchpoints db)))
    /\ (forall (m : list (list nat)) (ts : string),
          fromisoformat ts = None -> count_row fromisoformat m ts = m)
    /\ day_labels (get_journey_heatmap fromisoformat db cutoff)
       = ["Mon"; "Tue"; "Wed"; "Thu"; "Fri"; "Sat"; "Sun"].
Proof.
  intros fromisoformat db cutoff.
  unfold get_journey_heatmap. cbn [total_touchpoints matrix day_labels].
  destruct (count_rows_fold fromisoformat (timestamps_since db cutoff)
              zero_matrix_shaped) as [H1 [H2 H3]].
  split; [reflexivity|].
  split.
  { rewrite H2. unfold timestamps_since.
    rewrite (filter_map_length tp_timestamp). reflexivity. }
  split; [exact H1|].
  split.
  { intros d h. rewrite H3, zero_matrix_cell. unfold timestamps_since.
    rewrite (filter_map_length tp_timestamp). reflexivity. }
  split; [|reflexivity].
  intros m ts E. unfold count_row. now rewrite E.
Qed.

(* ------------------------------------------------------------------ *)
(** ** Dropoff analysis *)

Section GroupCount.
Context {A K : Type} (eqb : K -> K -> bool) (key : A -> K).
Hypothesis eqb_spec : forall x y, eqb x y = true <-> x = y.

Lemma count_step_out (F : K -> list A) (x : A) (kx : K) (ks : list K) :
  ~ In kx ks ->
  list_sum (map (fun k => List.length (if eqb kx k then x :: F k else F k)) ks)
    = list_sum (map (fun k => List.length (F k)) ks).
Proof.
  induction ks as [|k ks IH]; simpl; intros H; [reflexivity|].
  destruct (eqb kx k) eqn:E.
  - apply eqb_spec in E. subst. tauto.
  - rewrite IH by tauto. reflexivity.
Qed.

Lemma count_step_in (F : K -> list A) (x : A) (kx : K) (ks : list K) :
  NoDup ks -> In kx ks ->
  list_sum (map (fun k => List.length (if eqb kx k then x :: F k else F k)) ks)
    = S (list_sum (map (fun k => List.length (F k)) ks)).
Proof.
  induction ks as [|k ks IH]; simpl; intros Hnd Hin; [destruct Hin|].
  inversion Hnd as [|? ? Hk Hks]; subst.
  destruct (eqb kx k) eqn:E.
  - apply eqb_spec in E. subst k. rewrite count_step_out by assumption.
    simpl. lia.
  - destruct Hin as [Hin|Hin].
    + subst k. assert (eqb kx kx = true) by now apply eqb_spec. congruence.
    + rewrite IH by assumption. lia.
Qed.

Lemma count_key_cover (ks : list K) (l : list A) :
  NoDup ks -> (forall x, In x l -> In (key x) ks) ->
  list_sum (map (fun k => List.length (filter (fun x => eqb (key x) k) l)) ks)
    = List.length l.
Proof.
  intros Hnd. induction l as [|x l IH]; intros Hc; simpl.
  - clear Hc Hnd. induction ks as [|k ks IHk]; simpl; [reflexivity | exact IHk].
  - rewrite <- IH by (intros y Hy; apply Hc; now right).
    apply count_step_in with (F := fun k => filter (fun y => eqb (key y) k) l);
      [exact Hnd | apply Hc; now left].
Qed.

Lemma group_count_keys (l : list A) :
  map fst (Sql.group_count eqb key l) = Sql.distinct eqb (map key l).
Proof.
  unfold Sql.group_count. rewrite map_map. simpl. apply map_id.
Qed.

Lemma group_count_total (l : list A) :
  list_sum (map snd (Sql.group_count eqb key l)) = List.length l.
Proof.
  unfold Sql.group_count. rewrite map_map. simpl.
  apply count_key_cover.
  - now apply SqlFacts.distinct_NoDup.
  - intros x Hx. apply (SqlFacts.distinct_In _ eqb_spec). now apply in_map.
Qed.

Lemma group_count_In (l : list A) (k : K) (n : nat) :
  In (k, n) (Sql.group_count eqb key l) ->
  n = List.length (filter (fun x => eqb (key x) k) l) /\ 0 < n.
Proof.
  unfold Sql.group_count. intros H. apply in_map_iff in H.
  destruct H as [k' [Hk Hin]]. inversion Hk; subst. split; [reflexivity|].
  apply (proj1 (SqlFacts.distinct_In _ eqb_spec _ _)) in Hin.
  apply in_map_iff in Hin. destruct Hin as [x [Hx Hl]].
  assert (Hf : In x (filter (fun y => eqb (key y) k) l)).
  { apply filter_In. split; [assumption | now apply eqb_spec]. }
  destruct (filter _ l); [destruct Hf | simpl; lia].
Qed.

Lemma dict_set_fresh {V : Type} (d : list (K * V)) (k : K) (v : V) :
  ~ In k (map fst d) -> Py.dict_set eqb d k v = d ++ [(k, v)].
Proof.
  induction d as [|[k' v'] d IH]; simpl; intros H; [reflexivity|].
  destruct (eqb k' k) eqn:E.
  - apply eqb_spec in E. subst. tauto.
  - f_equal. apply IH. tauto.
Qed.

Lemma dict_of_rows_fold {V : Type} (rows acc : list (K * V)) :
  NoDup (map fst (acc ++ rows)) ->
  fold_left (fun d r => Py.dict_set eqb d (fst r) (snd r)) rows acc = acc ++ rows.
Proof.
  revert acc. induction rows as [|[k v] rows IH]; intros acc H; simpl.
  - now rewrite app_nil_r.
  - rewrite dict_set_fresh.
    + rewrite IH; rewrite <- app_assoc; [reflexivity | exact H].
    + rewrite map_app in H. simpl in H. apply NoDup_remove_2 in H.
      intros Hin. apply H. apply in_or_app. now left.
Qed.

(** A comprehension over rows with distinct keys keeps the rows. *)
Lemma dict_of_rows_id {V : Type} (rows : list (K * V)) :
  NoDup (map fst rows) -> Py.dict_of_rows eqb rows = rows.
Proof. intros H. unfold Py.dict_of_rows. now rewrite dict_of_rows_fold. Qed.

(** The dictionary built from a grouped and ordered query holds the
    groups. *)
Lemma grouped_dict_perm (order : K * nat -> Z) (l : list A) :
  Permutation
    (Py.dict_of_rows eqb (Sql.order_by order (Sql.group_count eqb key l)))
    (Sql.group_count eqb key l).
Proof.
  rewrite dict_of_rows_id.
  - symmetry. apply SqlFacts.order_by_perm.
  - apply (Permutation_NoDup
             (Permutation_map fst (SqlFacts.order_by_perm order _))).
    rewrite group_count_keys. now apply SqlFacts.distinct_NoDup.
Qed.

Lemma grouped_dict_total (order : K * nat -> Z) (l : list A) :
  Py.sum_values
    (Py.dict_of_rows eqb (Sql.order_by order (Sql.group_count eqb key l)))
    = List.length l.
Proof.
  unfold Py.sum_values.
  rewrite (Permutation_list_sum (Permutation_map snd (grouped_dict_perm order l))).
  apply group_count_total.
Qed.
End GroupCount.

Lemma unique_session_match (ss : list CustomerSession) (x : string) :
  NoDup (map cs_id ss) ->
  List.length (filter (fun s => String.eqb x (cs_id s)) ss)
    = if existsb (fun s => String.eqb x (cs_id s)) ss then 1 else 0.
Proof.
  induction ss as [|s ss IH]; simpl; intros H; [reflexivity|].
  inversion H as [|? ? Hs Hss]; subst.
  destruct (String.eqb x (cs_id s)) eqn:E; simpl.
  - apply String.eqb_eq in E. subst x. rewrite (IH Hss).
    destruct (existsb _ ss) eqn:Ex; [|reflexivity].
    apply existsb_exists in Ex. destruct Ex as [s' [Hin He]].
    apply String.eqb_eq in He. exfalso. apply Hs. rewrite He. now apply in_map.
  - now apply IH.
Qed.

Lemma filter_pairs_length {A B : Type} (p : A -> bool) (a : A) (l : list B) :
  List.length (filter (fun q => p (fst q)) (map (pair a) l))
    = if p a then List.length l else 0.
Proof.
  induction l as [|b l IH]; simpl; [now destruct (p a)|].
  destruct (p a); simpl in *; congruence.
Qed.

(** The rows of the join with sessions are the dropoff events of the stage
    whose session is in the sessions table. *)
Lemma dropoffs_with_session_length (db : DB) (stage_id : string) :
  NoDup (map cs_id (sessions db)) ->
  List.length (dropoffs_with_session db stage_id)
    = List.length (filter (has_session db) (dropoffs_at db stage_id)).
Proof.
  intros Hnd. unfold dropoffs_with_session, dropoffs_at, has_session, Sql.join.
  induction (dropoff_events db) as [|de des IH]; simpl; [reflexivity|].
  rewrite filter_app, length_app, IH.
  rewrite (filter_pairs_length (fun d => String.eqb (de_stage_id d) stage_id)).
  destruct (String.eqb (de_stage_id de) stage_id); simpl; [|reflexivity].
  rewrite (unique_session_match (sessions db) (de_session_id de) Hnd).
  destruct (existsb _ (sessions db)); simpl; reflexivity.
Qed.

(** C8, as the program has it.  The counts by reason and the counts by
    hour are taken over all the dropoff events of the stage: each sums to
    their number, which is [total_dropoffs].  The counts by channel are
    taken over the events of the stage whose session is in the sessions
    table: they sum to the number of those, which is the number of all of
    them when every such event has its session. *)
Theorem dropoff_aggregations_totals :
  forall (db : DB) (stage_id : string),
    db_wf db ->
    Py.sum_values (reasons (analyze_dropoffs db stage_id))
      = List.length (dropoffs_at db stage_id)
    /\ total_dropoffs (analyze_dropoffs db stage_id)
       = List.length (dropoffs_at db stage_id)
    /\ Py.sum_values (time_of_day (analyze_dropoffs db stage_id))
       = List.length (dropoffs_at db stage_id)
    /\ Py.sum_values (by_channel (analyze_dropoffs db stage_id))
       = List.length (filter (has_session db) (dropoffs_at db stage_id))
    /\ Py.sum_values (by_channel (analyze_dropoffs db stage_id))
       <= total_dropoffs (analyze_dropoffs db stage_id)
    /\ ((forall de, In de (dropoffs_at db stage_id) -> has_session db de = true) ->
        Py.sum_values (by_channel (analyze_dropoffs db stage_id))
          = total_dropoffs (analyze_dropoffs db stage_id))
    /\ (forall k n, In (k, n) (reasons (analyze_dropoffs db stage_id)) ->
          n = List.length (filter (fun de => String.eqb (de_reason de) k)
                                  (dropoffs_at db stage_id)) /\ 0 < n)
    /\ (forall h n, In (h, n) (time_of_day (analyze_dropoffs db stage_id)) ->
          n = List.length (filter (fun de => Z.eqb (dropoff_hour de) h)
                                  (dropoffs_at db stage_id)) /\ 0 < n)
    /\ (forall c n, In (c, n) (by_channel (analyze_dropoffs db stage_id)) ->
          n = List.length (filter (fun p => String.eqb (cs_channel (snd p)) c)
                                  (dropoffs_with_session db stage_id)) /\ 0 < n).
Proof.
  intros db stage_id Hwf. pose proof (wf_session_ids Hwf) as Hs.
  unfold analyze_dropoffs. cbn [reasons time_of_day by_channel total_dropoffs].
  assert (Hr : Py.sum_values
                 (Py.dict_of_rows String.eqb
                    (Sql.order_by count_desc
                       (Sql.group_count String.eqb de_reason
                          (dropoffs_at db stage_id))))
               = List.length (dropoffs_at db stage_id)).
  { apply grouped_dict_total, String.eqb_eq. }
  assert (Hc : Py.sum_values
                 (Py.dict_of_rows String.eqb
                    (Sql.order_by count_desc
                       (Sql.group_count String.eqb (fun p => cs_channel (snd p))
                          (dropoffs_with_session db stage_id))))
               = List.length (filter (has_session db) (dropoffs_at db stage_id))).
  { rewrite grouped_dict_total by apply String.eqb_eq.
    now apply dropoffs_with_session_length. }
  split; [exact Hr|]. split; [exact Hr|].
  split; [apply grouped_dict_total, Z.eqb_eq|].
  split; [exact Hc|].
  split; [rewrite Hc, Hr; apply filter_length_le|].
  split.
  { intros Hall. rewrite Hc, Hr. f_equal. apply forallb_filter_id.
    apply forallb_forall. exact Hall. }
  split.
  { intros k n Hin. apply (group_count_In String.eqb de_reason String.eqb_eq).
    apply (Permutation_in _ (grouped_dict_perm String.eqb de_reason String.eqb_eq
                               count_desc _)). exact Hin. }
  split.
  { intros h n Hin. apply (group_count_In Z.eqb dropoff_hour Z.eqb_eq).
    apply (Permutation_in _ (grouped_dict_perm Z.eqb dropoff_hour Z.eqb_eq
                               fst _)). exact Hin. }
  intros c n Hin.
  apply (group_count_In String.eqb (fun p : DropoffEvent * CustomerSession =>
                                      cs_channel (snd p)) String.eqb_eq).
  apply (Permutation_in _ (grouped_dict_perm String.eqb _ String.eqb_eq
                             count_desc _)). exact Hin.
Qed.

(** C8, at the store of the example and its first stage. *)
Lemma dropoff_aggregations_witness :
  Py.sum_values (reasons (analyze_dropoffs Examples.ghost_dropoff "st-A"))
    = List.length (dropoffs_at Examples.ghost_dropoff "st-A")
  /\ total_dropoffs (analyze_dropoffs Examples.ghost_dropoff "st-A")
     = List.length (dropoffs_at Examples.ghost_dropoff "st-A")
  /\ Py.sum_values (time_of_day (analyze_dropoffs Examples.ghost_dropoff "st-A"))
     = List.length (dropoffs_at Examples.ghost_dropoff "st-A")
  /\ Py.sum_values (by_channel (analyze_dropoffs Examples.ghost_dropoff "st-A"))
     = List.length (filter (has_session Examples.ghost_dropoff)
                           (dropoffs_at Examples.ghost_dropoff "st-A"))
  /\ Py.sum_values (by_channel (analyze_dropoffs Examples.ghost_dropoff "st-A"))
     <= total_dropoffs (analyze_dropoffs Examples.ghost_dropoff "st-A")
  /\ ((forall de, In de (dropoffs_at Examples.ghost_dropoff "st-A") ->
                  has_session Examples.ghost_dropoff de = true) ->
      Py.sum_values (by_channel (analyze_dropoffs Examples.ghost_dropoff "st-A"))
        = total_dropoffs (analyze_dropoffs Examples.ghost_dropoff "st-A"))
  /\ (forall k n,
        In (k, n) (reasons (analyze_dropoffs Examples.ghost_dropoff "st-A")) ->
        n = List.length (filter (fun de => String.eqb (de_reason de) k)
                                (dropoffs_at Examples.ghost_dropoff "st-A"))
        /\ 0 < n)
  /\ (forall h n,
        In (h, n) (time_of_day (analyze_dropoffs Examples.ghost_dropoff "st-A")) ->
        n = List.length (filter (fun de => Z.eqb (dropoff_hour de) h)
                                (dropoffs_at Examples.ghost_dropoff "st-A"))
        /\ 0 < n)
  /\ (forall c n,
        In (c, n) (by_channel (analyze_dropoffs Examples.ghost_dropoff "st-A")) ->
        n = List.length (filter (fun p => String.eqb (cs_channel (snd p)) c)
                                (dropoffs_with_session Examples.ghost_dropoff "st-A"))
        /\ 0 < n).
Proof.
  apply (dropoff_aggregations_totals (db := Examples.ghost_dropoff) "st-A").
  constructor; simpl; repeat constructor; simpl; intuition discriminate.
Defined.

(** C8 as stated fails: closing a session identifier that was never
    started leaves a dropoff event whose session is not in the sessions
    table.  The stage has one dropoff event; the counts by reason and by
    hour sum to one, the counts by channel sum to zero. *)
Lemma dropoff_channel_total_misses_orphans :
  analyze_dropoffs Examples.ghost_dropoff "st-A"
    = mkDropoffAnalysis "st-A" [("stage_not_reached", 1)] [(10%Z, 1)] [] 1
  /\ List.length (dropoffs_at Examples.ghost_dropoff "st-A") = 1
  /\ Py.sum_values (reasons (analyze_dropoffs Examples.ghost_dropoff "st-A")) = 1
  /\ Py.sum_values (time_of_day (analyze_dropoffs Examples.ghost_dropoff "st-A")) = 1
  /\ Py.sum_values (by_channel (analyze_dropoffs Examples.ghost_dropoff "st-A"))
     <> List.length (dropoffs_at Examples.ghost_dropoff "st-A").
Proof.
  do 4 (split; [vm_compute; reflexivity|]).
  vm_compute. discriminate.
Qed.

Lemma dropoffs_at_absent (db : DB) (stage_id : string) :
  ~ In stage_id (map de_stage_id (dropoff_events db)) ->
  dropoffs_at db stage_id = [] /\ dropoffs_with_session db stage_id = [].
Proof.
  intros H. split.
  - unfold dropoffs_at.
    induction (dropoff_events db) as [|de des IH]; simpl in *; [reflexivity|].
    destruct (String.eqb (de_stage_id de) stage_id) eqn:E.
    + apply String.eqb_eq in E. tauto.
    + apply IH. tauto.
  - unfold dropoffs_with_session.
    destruct (filter _ _) as [|[de s] rest] eqn:E; [reflexivity|].
    assert (Hin : In (de, s) (filter
                   (fun p => String.eqb (de_stage_id (fst p)) stage_id)
                   (Sql.join (fun de s => String.eqb (de_session_id de) (cs_id s))
                      (dropoff_events db) (sessions db)))).
    { rewrite E. now left. }
    apply filter_In in Hin. destruct Hin as [Hj Hst]. simpl in Hst.
    apply String.eqb_eq in Hst. apply join_In in Hj. destruct Hj as [Hde _].
    exfalso. apply H. rewrite <- Hst. now apply in_map.
Qed.

Lemma step_avoiding_step (sid : string) (db db' : DB) :
  step_avoiding sid db db' -> step db db'.
Proof.
  intros H. destruct H.
  - eapply step_define; eassumption.
  - eapply step_start; eassumption.
  - eapply step_record; eassumption.
  - eapply step_end; eassumption.
Qed.

Lemma never_given_reachable (sid : string) (db : DB) :
  never_given sid db -> reachable db.
Proof.
  intros H. induction H as [|db db' _ IH Hstep]; [apply steps_refl|].
  eapply steps_next; [exact IH | eapply step_avoiding_step; exact Hstep].
Qed.

(** A dropoff event carries the identifier of a stage that is registered
    when the event is written: an identifier that no stage was ever given
    is on no stage and on no dropoff event. *)
Lemma step_avoiding_absent (sid : string) (db db' : DB) :
  step_avoiding sid db db' ->
  ~ In sid (map fs_id (funnel_stages db))
  /\ ~ In sid (map de_stage_id (dropoff_events db)) ->
  ~ In sid (map fs_id (funnel_stages db'))
  /\ ~ In sid (map de_stage_id (dropoff_events db')).
Proof.
  intros Hstep [Hs Hd]. destruct Hstep as [db db' ? ? ? ? ? ? ? Hne H
                                          | db db' ? ? ? ? ? ? H
                                          | db db' ? ? ? ? ? ? ? ? ? ? H
                                          | db db' ? ? ? ? ? ? ? H].
  - apply define_funnel_stage_inv in H. destruct H as [_ [-> ->]]. simpl.
    split; [|exact Hd]. rewrite map_app, in_app_iff. simpl.
    intros [Hin|[Hin|[]]]; [|congruence].
    apply Hs. apply in_map_iff in Hin. destruct Hin as [s [Hid Hin]].
    apply filter_In in Hin. rewrite <- Hid. apply in_map. tauto.
  - apply start_session_inv in H. destruct H as [_ [_ ->]]. simpl. auto.
  - apply record_touchpoint_inv in H. destruct H as [_ [tp [_ [_ [_ [_ [_ ->]]]]]]].
    simpl. auto.
  - apply end_session_inv in H. destruct H as [_ [_ ->]]. simpl.
    split; [exact Hs|]. rewrite map_app, in_app_iff. intros [Hin|Hin]; [tauto|].
    unfold new_dropoffs in Hin. destruct converted; [destruct Hin|].
    destruct (first_missed_stage _ _) as [st|] eqn:E; [|destruct Hin].
    simpl in Hin. destruct Hin as [Hin|[]].
    destruct (first_missed_stage_Some _ _ E) as [before [after [Hl _]]].
    apply Hs. rewrite <- Hin. apply in_map.
    apply (SqlFacts.order_by_In fs_position). rewrite Hl.
    apply in_or_app. right. now left.
Qed.

(** C9, as the program has it.  For a stage identifier that no stage was
    ever given, in a store the program has built from the empty database,
    [analyze_dropoffs] raises nothing and returns the identifier with
    three empty groupings and a total of zero: no stage is registered
    under it and no dropoff event carries it. *)
Theorem analyze_dropoffs_of_stage_never_defined_is_empty :
  forall (db : DB) (stage_id : string),
    never_given stage_id db ->
    reachable db
    /\ ~ In stage_id (map fs_id (funnel_stages db))
    /\ ~ In stage_id (map de_stage_id (dropoff_events db))
    /\ analyze_dropoffs db stage_id = mkDropoffAnalysis stage_id [] [] [] 0.
Proof.
  intros db stage_id H.
  split; [exact (never_given_reachable H)|].
  assert (Habs : ~ In stage_id (map fs_id (funnel_stages db))
                 /\ ~ In stage_id (map de_stage_id (dropoff_events db))).
  { induction H as [|db db' _ IH Hstep]; [simpl; tauto|].
    exact (step_avoiding_absent Hstep IH). }
  destruct Habs as [Hs Hd]. split; [exact Hs|]. split; [exact Hd|].
  destruct (dropoffs_at_absent db stage_id Hd) as [H1 H2].
  unfold analyze_dropoffs. rewrite H1, H2. reflexivity.
Qed.

(** C9, at the store where the example session was closed and dropped at
    stage [A], for an identifier no stage was given. *)
Lemma analyze_dropoffs_never_defined_witness :
  reachable (fst Examples.closed_session)
  /\ ~ In "no-such-stage" (map fs_id (funnel_stages (fst Examples.closed_session)))
  /\ ~ In "no-such-stage"
          (map de_stage_id (dropoff_events (fst Examples.closed_session)))
  /\ analyze_dropoffs (fst Examples.closed_session) "no-such-stage"
     = mkDropoffAnalysis "no-such-stage" [] [] [] 0.
Proof.
  apply analyze_dropoffs_of_stage_never_defined_is_empty.
  apply never_given_next with (db := Examples.open_session).
  - apply never_given_next with (db := Examples.started).
    + apply never_given_next with (db := Examples.tied_stages).
      * apply never_given_next with (db := Examples.one_stage).
        -- apply never_given_next with (db := empty_db);
             [apply never_given_empty|].
           apply avoiding_define
             with (stage_id := "st-A") (name := "A") (position := 1%Z)
                  (description := "") (entry_event := "a") (exit_event := "")
                  (st := mkFunnelStage "st-A" "A" 1 "" "a" "");
             [discriminate | reflexivity].
        -- apply avoiding_define
             with (stage_id := "st-B") (name := "B") (position := 1%Z)
                  (description := "") (entry_event := "b") (exit_event := "")
                  (st := mkFunnelStage "st-B" "B" 1 "" "b" "");
             [discriminate | reflexivity].
      * apply avoiding_start
          with (session_id := "s1") (now := "2024-01-01T10:00:00")
               (customer_id := "c1") (channel := "web") (device := "desktop")
               (s := "s1").
        reflexivity.
    + apply avoiding_record
        with (new_id := "t1") (now := "2024-01-01T10:00:01") (session_id := "s1")
             (customer_id := "c1") (channel := "web") (page := "/")
             (event_type := "b") (duration_ms := 0%Z) (metadata := None)
             (res := [("touchpoint_id", PStr "t1"); ("stage_entered", PStr "B");
                      ("position", PInt 1); ("stage_id", PStr "st-B")]).
      reflexivity.
  - apply avoiding_end
      with (path_id := "p1") (drop_id := "d1") (now := "2024-01-01T10:00:03")
           (session_id := "s1") (converted := false) (conversion_value := 0%float)
           (path := snd Examples.closed_session).
    reflexivity.
Defined.

(** C9 as stated fails: a session misses stage [A], whose identifier is
    [st-A]; then the stage is defined again, and [INSERT OR REPLACE] puts a
    row with a new identifier in the place of the old one.  No stage has
    the identifier [st-A] any more, yet [analyze_dropoffs] still counts the
    dropoff event that carries it. *)
Lemma analyze_dropoffs_counts_replaced_stage :
  reachable Examples.replaced_stage
  /\ map fs_id (funnel_stages Examples.replaced_stage) = ["st-A2"]
  /\ ~ In "st-A" (map fs_id (funnel_stages Examples.replaced_stage))
  /\ analyze_dropoffs Examples.replaced_stage "st-A"
     = mkDropoffAnalysis "st-A" [("stage_not_reached", 1)] [(10%Z, 1)]
                         [("web", 1)] 1.
Proof.
  split.
  { apply steps_next with (db1 := Examples.missed_stage).
    - apply steps_next
        with (db1 := match start_session Examples.one_stage "s1"
                              "2024-01-01T10:00:00" "c1" "web" "desktop" with
                     | Ok q => fst q
                     | Raise _ => empty_db
                     end).
      + apply steps_next with (db1 := Examples.one_stage).
        * apply steps_next with (db1 := empty_db); [apply steps_refl|].
          apply step_define
            with (stage_id := "st-A") (name := "A") (position := 1%Z)
                 (description := "") (entry_event := "a") (exit_event := "")
                 (st := mkFunnelStage "st-A" "A" 1 "" "a" "").
          reflexivity.
        * apply step_start
            with (session_id := "s1") (now := "2024-01-01T10:00:00")
                 (customer_id := "c1") (channel := "web") (device := "desktop")
                 (sid := "s1").
          reflexivity.
      + apply step_end
          with (path_id := "p1") (drop_id := "d1") (now := "2024-01-01T10:00:03")
               (session_id := "s1") (converted := false)
               (conversion_value := 0%float)
               (path := mkConversionPath "p1" "s1" [] "direct" false
                                         "2024-01-01T10:00:03").
        reflexivity.
    - apply step_define
        with (stage_id := "st-A2") (name := "A") (position := 1%Z)
             (description := "") (entry_event := "a") (exit_event := "")
             (st := mkFunnelStage "st-A2" "A" 1 "" "a" "").
      reflexivity. }
  split; [reflexivity|]. split; [simpl; intuition discriminate|].
  vm_compute. reflexivity.
Qed.

(* ================================================================== *)
(** * Further properties of the program *)

(* ------------------------------------------------------------------ *)
(** ** Stage registry *)

(** X1.  [define_funnel_stage] is an insert-or-replace on the name and on
    the identifier.  With a position that fits 64 bits it returns the new
    stage, and afterwards the table holds that stage and, of the old
    stages, exactly those with another name and another identifier; the
    new stage is the only one of its name; the other tables are untouched.
    With a position outside 64 bits it raises [OverflowError]. *)
Theorem define_funnel_stage_replaces_by_name :
  forall (db : DB) (stage_id name : string) (position : Z)
         (description entry_event exit_event : string),
    (Sql.int64 position = false ->
     define_funnel_stage db stage_id name position description
                         entry_event exit_event = Raise OverflowError)
    /\ (Sql.int64 position = true ->
        exists db' : DB,
          define_funnel_stage db stage_id name position description
                              entry_event exit_event
            = Ok (db', mkFunnelStage stage_id name position description
                                     entry_event exit_event)
          /\ (forall s,
                In s (funnel_stages db')
                <-> s = mkFunnelStage stage_id name position description
                                      entry_event exit_event
                    \/ (In s (funnel_stages db)
                        /\ fs_name s <> name /\ fs_id s <> stage_id))
          /\ filter (fun s => String.eqb (fs_name s) name) (funnel_stages db')
             = [mkFunnelStage stage_id name position description
                              entry_event exit_event]
          /\ sessions db' = sessions db
          /\ touchpoints db' = touchpoints db
          /\ conversion_paths db' = conversion_paths db
          /\ dropoff_events db' = dropoff_events db).
Proof.
  intros db stage_id name position description entry_event exit_event.
  unfold define_funnel_stage. split.
  { intros Hwide. now rewrite (bind_integer_wide _ Hwide). }
  intros Hfits. rewrite (bind_integer_fits _ Hfits). cbn [bind].
  eexists. split; [reflexivity|].
  cbn [funnel_stages sessions touchpoints conversion_paths dropoff_events].
  split.
  - intros s. rewrite in_app_iff, filter_In. simpl.
    rewrite negb_true_iff, orb_false_iff, !String.eqb_neq. split.
    + intros [[H1 [H2 H3]]|[H|[]]]; [right | left]; auto.
    + intros [H|[H1 [H2 H3]]]; [right; left | left]; auto.
  - split; [|repeat split].
    rewrite filter_app. simpl. rewrite String.eqb_refl.
    match goal with |- ?l ++ _ = _ => assert (E : l = []) end.
    { induction (funnel_stages db) as [|s l IH]; simpl; [reflexivity|].
      destruct (String.eqb (fs_name s) name) eqn:En.
      - rewrite orb_true_r. simpl. exact IH.
      - rewrite orb_false_r. destruct (String.eqb (fs_id s) stage_id); simpl.
        + exact IH.
        + rewrite En. exact IH. }
    rewrite E. reflexivity.
Qed.

(* ------------------------------------------------------------------ *)
(** ** Histories of successful calls *)

Lemma step_wf (db db' : DB) : db_wf db -> step db db' -> db_wf db'.
Proof.
  intros Hwf Hs. destruct Hs.
  - eapply define_funnel_stage_wf; eassumption.
  - eapply start_session_wf; eassumption.
  - eapply record_touchpoint_wf; eassumption.
  - eapply end_session_wf; eassumption.
Qed.

Lemma steps_wf (db db' : DB) : db_wf db -> steps db db' -> db_wf db'.
Proof.
  intros Hwf Hs. induction Hs; [assumption|]. eapply step_wf; eassumption.
Qed.

(** X2.  Every store the program builds from the empty database by
    successful calls satisfies the key constraints of the schema:
    identifiers are unique in each table and stage names are unique. *)
Theorem reachable_stores_keep_key_constraints :
  forall db : DB, reachable db -> db_wf db.
Proof.
  intros db H. unfold reachable in H.
  induction H as [|db1 db2 Hs IH Hstep]; [apply empty_db_wf|].
  exact (step_wf IH Hstep).
Qed.

(** X2, at the store with two stages and one open session. *)
Lemma reachable_stores_witness : db_wf Examples.started.
Proof.
  apply reachable_stores_keep_key_constraints.
  apply steps_next with (db1 := Examples.tied_stages).
  - apply steps_next with (db1 := Examples.one_stage).
    + apply steps_next with (db1 := empty_db); [apply steps_refl|].
      apply step_define
        with (stage_id := "st-A") (name := "A") (position := 1%Z)
             (description := "") (entry_event := "a") (exit_event := "")
             (st := mkFunnelStage "st-A" "A" 1 "" "a" "").
      reflexivity.
    + apply step_define
        with (stage_id := "st-B") (name := "B") (position := 1%Z)
             (description := "") (entry_event := "b") (exit_event := "")
             (st := mkFunnelStage "st-B" "B" 1 "" "b" "").
      reflexivity.
  - apply step_start
      with (session_id := "s1") (now := "2024-01-01T10:00:00")
           (customer_id := "c1") (channel := "web") (device := "desktop")
           (sid := "s1").
    reflexivity.
Defined.

Lemma step_append_only (db db' : DB) :
  step db db' ->
  (exists l, map cs_id (sessions db') = map cs_id (sessions db) ++ l)
  /\ (exists l, touchpoints db' = touchpoints db ++ l)
  /\ (exists l, conversion_paths db' = conversion_paths db ++ l)
  /\ (exists l, dropoff_events db' = dropoff_events db ++ l).
Proof.
  intros Hs. destruct Hs as [db db' ? ? ? ? ? ? ? H | db db' ? ? ? ? ? ? H
                             | db db' ? ? ? ? ? ? ? ? ? ? H
                             | db db' ? ? ? ? ? ? ? H].
  - apply define_funnel_stage_inv in H. destruct H as [_ [_ ->]]. simpl.
    repeat split; exists []; now rewrite app_nil_r.
  - apply start_session_inv in H. destruct H as [_ [_ ->]]. simpl.
    split; [eexists; apply map_app|].
    repeat split; exists []; now rewrite app_nil_r.
  - apply record_touchpoint_inv in H. destruct H as [_ [tp [_ [_ [_ [_ [_ ->]]]]]]].
    simpl. split; [exists []; now rewrite app_nil_r|].
    split; [eexists; reflexivity|].
    split; exists []; now rewrite app_nil_r.
  - apply end_session_inv in H. destruct H as [_ [_ ->]]. simpl.
    split; [exists []; now rewrite close_session_rows_ids, app_nil_r|].
    split; [exists []; now rewrite app_nil_r|].
    split; eexists; reflexivity.
Qed.

(** X3.  The history is append-only: whatever successful calls follow, the
    touchpoints, conversion paths and dropoff events already stored stay
    where they are, unchanged, with new rows only after them, and no
    session identifier disappears. *)
Theorem history_is_append_only :
  forall db db' : DB,
    steps db db' ->
    (exists l, map cs_id (sessions db') = map cs_id (sessions db) ++ l)
    /\ (exists l, touchpoints db' = touchpoints db ++ l)
    /\ (exists l, conversion_paths db' = conversion_paths db ++ l)
    /\ (exists l, dropoff_events db' = dropoff_events db ++ l).
Proof.
  intros db db' Hs. induction Hs as [|db1 db2 Hs IH Hstep].
  - repeat split; exists []; now rewrite app_nil_r.
  - destruct IH as [[a Ha] [[b Hb] [[c Hc] [d Hd]]]].
    destruct (step_append_only Hstep) as [[a' Ha'] [[b' Hb'] [[c' Hc'] [d' Hd']]]].
    split; [exists (a ++ a'); now rewrite Ha', Ha, app_assoc|].
    split; [exists (b ++ b'); now rewrite Hb', Hb, app_assoc|].
    split; [exists (c ++ c'); now rewrite Hc', Hc, app_assoc|].
    exists (d ++ d'); now rewrite Hd', Hd, app_assoc.
Qed.

Lemma tied_stages_to_closed :
  steps Examples.tied_stages (fst Examples.closed_session).
Proof.
  apply steps_next with (db1 := Examples.open_session).
  - apply steps_next with (db1 := Examples.started); [|].
    + apply steps_next with (db1 := Examples.tied_stages); [apply steps_refl|].
      apply step_start
        with (session_id := "s1") (now := "2024-01-01T10:00:00")
             (customer_id := "c1") (channel := "web") (device := "desktop")
             (sid := "s1").
      reflexivity.
    + apply step_record
        with (new_id := "t1") (now := "2024-01-01T10:00:01") (session_id := "s1")
             (customer_id := "c1") (channel := "web") (page := "/")
             (event_type := "b") (duration_ms := 0%Z) (metadata := None)
             (res := [("touchpoint_id", PStr "t1"); ("stage_entered", PStr "B");
                      ("position", PInt 1); ("stage_id", PStr "st-B")]).
      reflexivity.
  - apply step_end
      with (path_id := "p1") (drop_id := "d1") (now := "2024-01-01T10:00:03")
           (session_id := "s1") (converted := false) (conversion_value := 0%float)
           (path := snd Examples.closed_session).
    reflexivity.
Defined.

(** X3, from the store with one open session to the store where it is
    closed. *)
Lemma history_is_append_only_witness :
  (exists l, map cs_id (sessions (fst Examples.closed_session))
             = map cs_id (sessions Examples.tied_stages) ++ l)
  /\ (exists l, touchpoints (fst Examples.closed_session)
                = touchpoints Examples.tied_stages ++ l)
  /\ (exists l, conversion_paths (fst Examples.closed_session)
                = conversion_paths Examples.tied_stages ++ l)
  /\ (exists l, dropoff_events (fst Examples.closed_session)
                = dropoff_events Examples.tied_stages ++ l).
Proof.
  apply history_is_append_only. exact tied_stages_to_closed.
Defined.




(* ------------------------------------------------------------------ *)
(** ** Closing a session *)

(** X5.  [end_session] rewrites the outcome of the sessions whose
    identifier it is given and of no other: each keeps its place, its
    customer, start time, channel and device, and gets the end time, the
    flag and the value of the call (a value that is not a number is stored
    as [NULL], for which NaN stands).  When no session has the identifier
    the sessions table is unchanged, and the call still succeeds.  Stages
    and touchpoints are never touched. *)
Theorem end_session_closes_only_that_session :
  forall (db db' : DB) (path_id drop_id now session_id : string)
         (converted : bool) (value : float) (path : ConversionPath),
    end_session db path_id drop_id now session_id converted value = Ok (db', path) ->
    funnel_stages db' = funnel_stages db
    /\ touchpoints db' = touchpoints db
    /\ List.length (sessions db') = List.length (sessions db)
    /\ (forall i s, nth_error (sessions db) i = Some s -> cs_id s <> session_id ->
                    nth_error (sessions db') i = Some s)
    /\ (forall i s, nth_error (sessions db) i = Some s -> cs_id s = session_id ->
                    nth_error (sessions db') i
                      = Some (mkCustomerSession (cs_id s) (cs_customer_id s)
                                (cs_start_time s) (Some now) (cs_channel s)
                                (cs_device s) converted value))
    /\ (~ In session_id (map cs_id (sessions db)) -> sessions db' = sessions db).
Proof.
  intros db db' path_id drop_id now session_id converted value path H.
  apply end_session_inv in H. destruct H as [_ [_ ->]]. cbn [funnel_stages
    touchpoints sessions].
  split; [reflexivity|]. split; [reflexivity|].
  unfold close_session_rows.
  split; [apply length_map|].
  split.
  { intros i s Hs Hne. rewrite nth_error_map, Hs. simpl.
    apply String.eqb_neq in Hne. now rewrite Hne. }
  split.
  { intros i s Hs He. rewrite nth_error_map, Hs. simpl.
    apply String.eqb_eq in He. now rewrite He. }
  intros Hnot. rewrite <- (map_id (sessions db)) at 2.
  apply map_ext_in. intros s Hs.
  destruct (String.eqb (cs_id s) session_id) eqn:E; [|reflexivity].
  apply String.eqb_eq in E. exfalso. apply Hnot. rewrite <- E. now apply in_map.
Qed.

(** X5, at the close of the example session. *)
Lemma end_session_closes_witness :
  funnel_stages (fst Examples.closed_session) = funnel_stages Examples.open_session
  /\ touchpoints (fst Examples.closed_session) = touchpoints Examples.open_session
  /\ List.length (sessions (fst Examples.closed_session))
     = List.length (sessions Examples.open_session)
  /\ (forall i s, nth_error (sessions Examples.open_session) i = Some s ->
                  cs_id s <> "s1" ->
                  nth_error (sessions (fst Examples.closed_session)) i = Some s)
  /\ (forall i s, nth_error (sessions Examples.open_session) i = Some s ->
                  cs_id s = "s1" ->
                  nth_error (sessions (fst Examples.closed_session)) i
                    = Some (mkCustomerSession (cs_id s) (cs_customer_id s)
                              (cs_start_time s) (Some "2024-01-01T10:00:03")
                              (cs_channel s) (cs_device s) false 0%float))
  /\ (~ In "s1" (map cs_id (sessions Examples.open_session)) ->
      sessions (fst Examples.closed_session) = sessions Examples.open_session).
Proof.
  apply end_session_closes_only_that_session
    with (path_id := "p1") (drop_id := "d1") (path := snd Examples.closed_session).
  reflexivity.
Defined.

(** X6.  Nothing guards a second close: when [end_session] is called again
    on the same session the call succeeds, a second conversion path with
    the same stages and the same signature is stored after the first, the
    session carries the outcome of the second call, and, when both calls
    have the same [converted], the second inserts a dropoff event for the
    same stage as the first. *)
Theorem closing_twice_duplicates_the_path :
  forall (db db1 db2 : DB) (path_id1 drop_id1 now1 path_id2 drop_id2 now2
          session_id : string) (converted1 converted2 : bool)
         (value1 value2 : float) (path1 path2 : ConversionPath),
    end_session db path_id1 drop_id1 now1 session_id converted1 value1
      = Ok (db1, path1) ->
    end_session db1 path_id2 drop_id2 now2 session_id converted2 value2
      = Ok (db2, path2) ->
    cp_stages_visited path2 = cp_stages_visited path1
    /\ cp_path_signature path2 = cp_path_signature path1
    /\ path_id2 <> path_id1
    /\ conversion_paths db2 = conversion_paths db ++ [path1; path2]
    /\ (forall i s, nth_error (sessions db) i = Some s -> cs_id s = session_id ->
                    nth_error (sessions db2) i
                      = Some (mkCustomerSession (cs_id s) (cs_customer_id s)
                                (cs_start_time s) (Some now2) (cs_channel s)
                                (cs_device s) converted2 value2))
    /\ exists new1 new2,
         dropoff_events db2 = dropoff_events db ++ new1 ++ new2
         /\ (converted1 = converted2 ->
             map de_stage_id new1 = map de_stage_id new2).
Proof.
  intros db db1 db2 path_id1 drop_id1 now1 path_id2 drop_id2 now2 session_id
         converted1 converted2 value1 value2 path1 path2 H1 H2.
  apply end_session_inv in H1. destruct H1 as [Hp1 [Hn1 Hdb1]].
  apply end_session_inv in H2. destruct H2 as [Hp2 [Hn2 Hdb2]].
  assert (Hst : funnel_stages db1 = funnel_stages db) by now rewrite Hdb1.
  assert (Htp : touchpoints db1 = touchpoints db) by now rewrite Hdb1.
  rewrite Hst, Htp in Hp2.
  assert (Hv : cp_stages_visited path2 = cp_stages_visited path1).
  { now rewrite Hp1, Hp2. }
  split; [exact Hv|]. split; [now rewrite Hp1, Hp2|]. split.
  { intros E. apply Hn2. rewrite Hdb1. cbn [conversion_paths].
    rewrite map_app. apply in_or_app. right. rewrite Hp1. simpl. now left. }
  split.
  { rewrite Hdb2. cbn [conversion_paths]. rewrite Hdb1. cbn [conversion_paths].
    now rewrite <- app_assoc. }
  split.
  { intros i s Hs He. rewrite Hdb2. cbn [sessions]. rewrite Hdb1. cbn [sessions].
    unfold close_session_rows. rewrite !nth_error_map, Hs. simpl.
    apply String.eqb_eq in He. rewrite He. simpl. now rewrite He. }
  exists (new_dropoffs db drop_id1 now1 session_id converted1
                       (cp_stages_visited path1)),
         (new_dropoffs db1 drop_id2 now2 session_id converted2
                       (cp_stages_visited path2)).
  split.
  { rewrite Hdb2. cbn [dropoff_events]. rewrite Hdb1 at 1. cbn [dropoff_events].
    now rewrite <- app_assoc. }
  intros Ec. unfold new_dropoffs. rewrite Hst, Hv, Ec.
  destruct converted2; [reflexivity|].
  now destruct (first_missed_stage _ _).
Qed.

(** X6, at the example session closed twice without a conversion. *)
Lemma closing_twice_witness :
  cp_stages_visited (snd Examples.closed_twice)
    = cp_stages_visited (snd Examples.closed_session)
  /\ cp_path_signature (snd Examples.closed_twice)
     = cp_path_signature (snd Examples.closed_session)
  /\ "p2" <> "p1"
  /\ conversion_paths (fst Examples.closed_twice)
     = conversion_paths Examples.open_session
       ++ [snd Examples.closed_session; snd Examples.closed_twice]
  /\ (forall i s, nth_error (sessions Examples.open_session) i = Some s ->
                  cs_id s = "s1" ->
                  nth_error (sessions (fst Examples.closed_twice)) i
                    = Some (mkCustomerSession (cs_id s) (cs_customer_id s)
                              (cs_start_time s) (Some "2024-01-01T10:05:00")
                              (cs_channel s) (cs_device s) false 0%float))
  /\ exists new1 new2,
       dropoff_events (fst Examples.closed_twice)
         = dropoff_events Examples.open_session ++ new1 ++ new2
       /\ (false = false -> map de_stage_id new1 = map de_stage_id new2).
Proof.
  apply closing_twice_duplicates_the_path
    with (db1 := fst Examples.closed_session) (drop_id1 := "d1")
         (now1 := "2024-01-01T10:00:03") (drop_id2 := "d2")
         (value1 := 0%float); reflexivity.
Defined.

Lemma session_stage_rows_no_touchpoint (stages : list FunnelStage)
    (tps : list Touchpoint) (sid : string) :
  (forall tp, In tp tps -> tp_session_id tp <> sid) ->
  session_stage_rows stages tps sid = [].
Proof.
  intros H. unfold session_stage_rows.
  assert (E : filter (fun tp => String.eqb (tp_session_id tp) sid) tps = []).
  { induction tps as [|tp tps IH]; simpl; [reflexivity|].
    destruct (String.eqb (tp_session_id tp) sid) eqn:Et.
    - apply String.eqb_eq in Et. exfalso. apply (H tp); [now left | exact Et].
    - apply IH. intros tp' Htp'. apply H. now right. }
  rewrite E. reflexivity.
Qed.

(** X7.  A session that has no touchpoint, and so also a session
    identifier nobody started, closes with the signature ["direct"] and no
    stage visited.  Closed without a conversion while stages are
    registered, it gets one dropoff event, at a stage of least position;
    closed as converted, or with no stage registered, it gets none. *)
Theorem session_without_touchpoints_closes_direct :
  forall (db db' : DB) (path_id drop_id now session_id : string)
         (converted : bool) (value : float) (path : ConversionPath),
    (forall tp, In tp (touchpoints db) -> tp_session_id tp <> session_id) ->
    end_session db path_id drop_id now session_id converted value = Ok (db', path) ->
    cp_stages_visited path = []
    /\ cp_path_signature path = "direct"
    /\ (converted = true \/ funnel_stages db = [] ->
        dropoff_events db' = dropoff_events db)
    /\ (converted = false -> funnel_stages db <> [] ->
        exists st,
          In st (funnel_stages db)
          /\ (forall s, In s (funnel_stages db) ->
                        (fs_position st <= fs_position s)%Z)
          /\ dropoff_events db'
             = dropoff_events db
               ++ [mkDropoffEvent drop_id session_id (fs_id st) (fs_name st) now
                                  "stage_not_reached"]).
Proof.
  intros db db' path_id drop_id now session_id converted value path Hno H.
  apply end_session_inv in H. destruct H as [Hp [_ Hdb]].
  rewrite (session_stage_rows_no_touchpoint _ _ Hno) in Hp. simpl in Hp.
  assert (Hv : cp_stages_visited path = []) by now rewrite Hp.
  split; [exact Hv|]. split; [now rewrite Hp|].
  rewrite Hv in Hdb. rewrite Hdb. cbn [dropoff_events]. unfold new_dropoffs.
  unfold first_missed_stage. split.
  - intros [Hc|He].
    + rewrite Hc. now rewrite app_nil_r.
    + rewrite He. simpl. destruct converted; now rewrite app_nil_r.
  - intros Hc Hne. rewrite Hc.
    destruct (Sql.order_by fs_position (funnel_stages db)) as [|st rest] eqn:E.
    + apply SqlFacts.order_by_nil_iff in E. contradiction.
    + simpl. destruct (SqlFacts.order_by_head_least _ _ E) as [Hin Hleast].
      exists st. auto.
Qed.

(** X7, at the close of a session identifier that was never started. *)
Lemma session_without_touchpoints_witness :
  cp_stages_visited
    (mkConversionPath "p1" "ghost" [] "direct" false "2024-01-01T10:00:03") = []
  /\ cp_path_signature
       (mkConversionPath "p1" "ghost" [] "direct" false "2024-01-01T10:00:03")
     = "direct"
  /\ (false = true \/ funnel_stages Examples.tied_stages = [] ->
      dropoff_events Examples.ghost_dropoff = dropoff_events Examples.tied_stages)
  /\ (false = false -> funnel_stages Examples.tied_stages <> [] ->
      exists st,
        In st (funnel_stages Examples.tied_stages)
        /\ (forall s, In s (funnel_stages Examples.tied_stages) ->
                      (fs_position st <= fs_position s)%Z)
        /\ dropoff_events Examples.ghost_dropoff
           = dropoff_events Examples.tied_stages
             ++ [mkDropoffEvent "d1" "ghost" (fs_id st) (fs_name st)
                   "2024-01-01T10:00:03" "stage_not_reached"]).
Proof.
  apply session_without_touchpoints_closes_direct
    with (path_id := "p1") (value := 0%float).
  - simpl. tauto.
  - reflexivity.
Defined.

Lemma steps_keep_touchpoints (db db' : DB) :
  steps db db' -> incl (touchpoints db) (touchpoints db').
Proof.
  intros Hs. induction Hs as [|db1 db2 Hs IH Hstep]; [apply incl_refl|].
  destruct (step_append_only Hstep) as [_ [[l Hl] _]].
  rewrite Hl. apply incl_tran with (1 := IH). apply incl_appl, incl_refl.
Qed.

(** X8.  A stage that [record_touchpoint] reports as entered is among the
    stages visited when the session is closed, whatever successful calls
    come in between, as long as the stage table is the same at the close. *)
Theorem entered_stage_is_visited_at_close :
  forall (db db1 db2 db3 : DB)
         (new_id now session_id customer_id channel page event_type : string)
         (duration_ms : Z) (metadata : option string) (res : pydict)
         (name path_id drop_id now' : string) (converted : bool) (value : float)
         (path : ConversionPath),
    db_wf db ->
    record_touchpoint db new_id now session_id customer_id channel page event_type
                      duration_ms metadata = Ok (db1, res) ->
    dict_get res "stage_entered" = Some (PStr name) ->
    steps db1 db2 ->
    funnel_stages db2 = funnel_stages db1 ->
    end_session db2 path_id drop_id now' session_id converted value
      = Ok (db3, path) ->
    In name (cp_stages_visited path).
Proof.
  intros db db1 db2 db3 new_id now session_id customer_id channel page event_type
         duration_ms metadata res name path_id drop_id now' converted value path
         Hwf Hrec Hres Hsteps Hstages Hend.
  pose proof (record_touchpoint_wf _ _ _ _ _ _ _ _ _ Hwf Hrec) as Hwf1.
  pose proof (steps_wf Hwf1 Hsteps) as Hwf2.
  assert (Hst : exists st, In st (funnel_stages db1)
                           /\ fs_entry_event st = event_type /\ fs_name st = name).
  { unfold record_touchpoint in Hrec.
    destruct (bind_integer duration_ms) as [duration|]; [|discriminate].
    cbn [bind] in Hrec.
    destruct (pk_insert tp_id _ _) as [tps|]; [|discriminate].
    cbn [bind] in Hrec.
    match type of Hrec with
    | context [stages_entered_by ?d ?e] =>
        destruct (stages_entered_by d e) as [|st rest] eqn:E
    end.
    - inversion Hrec; subst. simpl in Hres. discriminate.
    - inversion Hrec; subst. simpl in Hres. inversion Hres; subst.
      exists st. assert (Hin : In st (stages_entered_by
                  (mkDB (funnel_stages db) (sessions db) tps (conversion_paths db)
                        (dropoff_events db)) event_type)).
      { rewrite E. now left. }
      apply stages_entered_by_In in Hin. simpl in Hin. simpl. tauto. }
  destruct Hst as [st [Hin [Hev Hname]]].
  apply record_touchpoint_inv in Hrec.
  destruct Hrec as [_ [tp [_ [Hsid [Htev [_ [_ Hdb1]]]]]]].
  assert (Htp : In tp (touchpoints db2)).
  { apply (steps_keep_touchpoints Hsteps). rewrite Hdb1. cbn [touchpoints].
    apply in_or_app. right. now left. }
  destruct (end_session_path _ _ _ _ _ _ _ Hend) as [Hv _].
  rewrite Hv, <- Hname.
  change (fs_name st) with (row_name (to_row st)). apply in_map.
  apply (Permutation_in _ (Permutation_sym
           (session_stage_rows_perm _ (touchpoints db2) session_id
              (wf_stage_ids Hwf2)))).
  apply in_map. unfold matched_stages. apply filter_In. split.
  - now rewrite Hstages.
  - apply stage_matched_true. exists tp. repeat split; congruence.
Qed.

(** X8, at the example session: event [b] enters stage [B], and [B] is
    visited at the close. *)
Lemma entered_stage_witness :
  In "B" (cp_stages_visited (snd Examples.closed_session)).
Proof.
  apply entered_stage_is_visited_at_close
    with (db := Examples.started) (db1 := Examples.open_session)
         (db2 := Examples.open_session) (db3 := fst Examples.closed_session)
         (new_id := "t1") (now := "2024-01-01T10:00:01") (session_id := "s1")
         (customer_id := "c1") (channel := "web") (page := "/")
         (event_type := "b") (duration_ms := 0%Z) (metadata := None)
         (res := [("touchpoint_id", PStr "t1"); ("stage_entered", PStr "B");
                  ("position", PInt 1); ("stage_id", PStr "st-B")])
         (path_id := "p1") (drop_id := "d1") (now' := "2024-01-01T10:00:03")
         (converted := false) (value := 0%float).
  - constructor; simpl; repeat constructor; simpl; intuition discriminate.
  - reflexivity.
  - reflexivity.
  - apply steps_refl.
  - reflexivity.
  - reflexivity.
Defined.

(* ------------------------------------------------------------------ *)
(** ** Funnel analysis, further *)

Lemma distinct_nil {A : Type} (eqb : A -> A -> bool) (l : list A) :
  (forall x y, eqb x y = true <-> x = y) -> Sql.distinct eqb l = [] -> l = [].
Proof.
  intros Heq H. destruct l as [|x l]; [reflexivity|].
  assert (Hin : In x (Sql.distinct eqb (x :: l))).
  { apply (SqlFacts.distinct_In _ Heq). now left. }
  rewrite H in Hin. destruct Hin.
Qed.

(** X9.  A stage that no session in the window entered is reported with a
    conversion rate of 0.0, a drop-off rate of 100.0 and an average
    duration of 0.0, whatever its exit count is: the division by the entry
    count is guarded. *)
Theorem stage_without_entries_reports_zero_rate :
  forall (db : DB) (cutoff : string) (i : nat) (r : FunnelMetrics),
    nth_error (analyze_funnel db cutoff) i = Some r ->
    entry_count r = 0 ->
    conversion_rate r = 0%float
    /\ drop_off_rate r = 100%float
    /\ avg_duration_ms r = 0%float.
Proof.
  intros db cutoff i r Hr H0. rewrite analyze_funnel_nth in Hr.
  destruct (nth_error _ i) as [stage|]; [|discriminate].
  simpl in Hr. inversion Hr; subst r; clear Hr.
  unfold stage_metrics in *. cbn [entry_count conversion_rate drop_off_rate
                                  avg_duration_ms] in *.
  rewrite H0. split; [vm_compute; reflexivity|]. split; [vm_compute; reflexivity|].
  unfold count_reached, reached_sessions in H0. apply length_zero_iff_nil in H0.
  apply (distinct_nil String.eqb _ String.eqb_eq) in H0. apply map_eq_nil in H0.
  unfold avg_duration. rewrite H0. vm_compute. reflexivity.
Qed.

(** X9, at the store of the example: no session has event [a], the entry
    event of the first stage. *)
Lemma stage_without_entries_witness :
  exists r,
    nth_error (analyze_funnel Examples.open_session "2024-01-01T00:00:00") 0
      = Some r
    /\ conversion_rate r = 0%float
    /\ drop_off_rate r = 100%float
    /\ avg_duration_ms r = 0%float.
Proof.
  eexists. split; [vm_compute; reflexivity|].
  apply stage_without_entries_reports_zero_rate
    with (db := Examples.open_session) (cutoff := "2024-01-01T00:00:00") (i := 0);
    vm_compute; reflexivity.
Defined.

Lemma join_app_l {A B : Type} (on : A -> B -> bool) (l1 l1' : list A) (l2 : list B) :
  Sql.join on (l1 ++ l1') l2 = Sql.join on l1 l2 ++ Sql.join on l1' l2.
Proof. unfold Sql.join. apply flat_map_app. Qed.

Lemma join_unmatched_r {A B : Type} (on : A -> B -> bool) (l1 : list A)
    (l2 : list B) (b : B) :
  (forall a, In a l1 -> on a b = false) ->
  Sql.join on l1 (l2 ++ [b]) = Sql.join on l1 l2.
Proof.
  intros H. unfold Sql.join. induction l1 as [|a l1 IH]; simpl; [reflexivity|].
  rewrite IH by (intros a' Ha'; apply H; now right).
  rewrite filter_app. simpl. rewrite (H a (or_introl eq_refl)).
  now rewrite app_nil_r.
Qed.

Lemma join_unmatched_l {A B : Type} (on : A -> B -> bool) (a : A) (l2 : list B) :
  (forall b, In b l2 -> on a b = false) -> Sql.join on [a] l2 = [].
Proof.
  intros H. unfold Sql.join. simpl. rewrite app_nil_r.
  assert (E : filter (on a) l2 = []).
  { induction l2 as [|b l2 IH]; simpl; [reflexivity|].
    rewrite (H b (or_introl eq_refl)). apply IH. intros b' Hb'. apply H. now right. }
  now rewrite E.
Qed.

(** X10.  A touchpoint recorded for a session identifier that is not in the
    sessions table is stored but never counted by the funnel analysis:
    the analysis is the same before and after, for every window. *)
Theorem touchpoint_of_unknown_session_leaves_funnel_unchanged :
  forall (db db' : DB)
         (new_id now session_id customer_id channel page event_type : string)
         (duration_ms : Z) (metadata : option string) (res : pydict)
         (cutoff : string),
    ~ In session_id (map cs_id (sessions db)) ->
    record_touchpoint db new_id now session_id customer_id channel page event_type
                      duration_ms metadata = Ok (db', res) ->
    In new_id (map tp_id (touchpoints db'))
    /\ analyze_funnel db' cutoff = analyze_funnel db cutoff.
Proof.
  intros db db' new_id now session_id customer_id channel page event_type
         duration_ms metadata res cutoff Hno Hrec.
  apply record_touchpoint_inv in Hrec.
  destruct Hrec as [_ [tp [Hid [Hsid [_ [_ [_ Hdb]]]]]]].
  split.
  { rewrite Hdb. cbn [touchpoints]. rewrite map_app. apply in_or_app. right.
    simpl. now left. }
  assert (Hs : forall s, In s (sessions db) ->
                         String.eqb (tp_session_id tp) (cs_id s) = false).
  { intros s Hin. apply String.eqb_neq. intros E. apply Hno.
    rewrite <- Hsid, E. now apply in_map. }
  assert (Hs' : forall s, In s (sessions db) ->
                          String.eqb (cs_id s) (tp_session_id tp) = false).
  { intros s Hin. rewrite String.eqb_sym. now apply Hs. }
  assert (J1 : Sql.join (fun tp s => String.eqb (tp_session_id tp) (cs_id s))
                 (touchpoints db') (sessions db')
               = Sql.join (fun tp s => String.eqb (tp_session_id tp) (cs_id s))
                   (touchpoints db) (sessions db)).
  { rewrite Hdb. cbn [touchpoints sessions]. rewrite join_app_l.
    rewrite (join_unmatched_l _ tp (sessions db) Hs). apply app_nil_r. }
  assert (J2 : Sql.join (fun s tp => String.eqb (cs_id s) (tp_session_id tp))
                 (sessions db') (touchpoints db')
               = Sql.join (fun s tp => String.eqb (cs_id s) (tp_session_id tp))
                   (sessions db) (touchpoints db)).
  { rewrite Hdb. cbn [touchpoints sessions].
    apply (join_unmatched_r (fun s tp => String.eqb (cs_id s) (tp_session_id tp))
             (sessions db) (touchpoints db) tp Hs'). }
  assert (Hst : funnel_stages db' = funnel_stages db) by now rewrite Hdb.
  unfold analyze_funnel. rewrite Hst. apply map_ext. intros [i stage].
  unfold stage_metrics, count_reached, reached_sessions, count_converted,
    converted_sessions, avg_duration. cbn [fst snd].
  rewrite J1, J2. reflexivity.
Qed.

(** X10, at a touchpoint recorded for a session that was never started. *)
Lemma touchpoint_of_unknown_session_witness :
  In "t9" (map tp_id (touchpoints Examples.ghost_touchpoint))
  /\ analyze_funnel Examples.ghost_touchpoint "2024-01-01T00:00:00"
     = analyze_funnel Examples.started "2024-01-01T00:00:00".
Proof.
  apply touchpoint_of_unknown_session_leaves_funnel_unchanged
    with (now := "2024-01-01T10:00:09") (session_id := "ghost")
         (customer_id := "c9") (channel := "web") (page := "/")
         (event_type := "a") (duration_ms := 100%Z) (metadata := None)
         (res := [("touchpoint_id", PStr "t9"); ("stage_entered", PStr "A");
                  ("position", PInt 1); ("stage_id", PStr "st-A")]).
  - simpl. intuition discriminate.
  - reflexivity.
Defined.

(* ------------------------------------------------------------------ *)
(** ** Dropoff analysis, further *)

(** X11.  After a call of [end_session], the dropoff total of a stage is
    its total before plus the number of dropoff events the call inserted
    for that stage, which is at most one over all stages together. *)
Theorem dropoff_total_grows_with_each_dropoff :
  forall (db db' : DB) (path_id drop_id now session_id : string)
         (converted : bool) (value : float) (path : ConversionPath),
    end_session db path_id drop_id now session_id converted value = Ok (db', path) ->
    exists new : list DropoffEvent,
      dropoff_events db' = dropoff_events db ++ new
      /\ List.length new <= 1
      /\ (converted = true -> new = [])
      /\ forall stage_id,
           total_dropoffs (analyze_dropoffs db' stage_id)
             = total_dropoffs (analyze_dropoffs db stage_id)
               + List.length
                   (filter (fun de => String.eqb (de_stage_id de) stage_id) new).
Proof.
  intros db db' path_id drop_id now session_id converted value path H.
  apply end_session_inv in H. destruct H as [_ [_ Hdb]].
  exists (new_dropoffs db drop_id now session_id converted (cp_stages_visited path)).
  split; [now rewrite Hdb|]. split.
  { unfold new_dropoffs. destruct converted; [simpl; lia|].
    destruct (first_missed_stage _ _); simpl; lia. }
  split; [intros ->; reflexivity|].
  intros stage_id. unfold analyze_dropoffs. cbn [total_dropoffs].
  rewrite !(grouped_dict_total String.eqb de_reason String.eqb_eq).
  unfold dropoffs_at. rewrite Hdb. cbn [dropoff_events].
  now rewrite filter_app, length_app.
Qed.

(** X11, at the close of the example session, which drops at stage [A]. *)
Lemma dropoff_total_witness :
  exists new : list DropoffEvent,
    dropoff_events (fst Examples.closed_session)
      = dropoff_events Examples.open_session ++ new
    /\ List.length new <= 1
    /\ (false = true -> new = [])
    /\ forall stage_id,
         total_dropoffs (analyze_dropoffs (fst Examples.closed_session) stage_id)
           = total_dropoffs (analyze_dropoffs Examples.open_session stage_id)
             + List.length
                 (filter (fun de => String.eqb (de_stage_id de) stage_id) new).
Proof.
  apply dropoff_total_grows_with_each_dropoff
    with (path_id := "p1") (drop_id := "d1") (now := "2024-01-01T10:00:03")
         (session_id := "s1") (value := 0%float)
         (path := snd Examples.closed_session).
  reflexivity.
Defined.

Lemma substring_skip (date rest : string) (len : nat) :
  String.substring (String.length date) len (date ++ rest)
    = String.substring 0 len rest.
Proof.
  induction date as [|c date IH]; simpl; [reflexivity | exact IH].
Qed.

Lemma digit_is_plain (c : ascii) (a : Z) :
  Sql.digit_of c = Some a ->
  Sql.is_space c = false /\ c <> "-"%char /\ c <> "+"%char /\ (0 <= a <= 9)%Z.
Proof.
  unfold Sql.digit_of, Sql.is_space.
  destruct (Nat.leb 48 (nat_of_ascii c) && Nat.leb (nat_of_ascii c) 57) eqn:E;
    [|discriminate].
  apply andb_true_iff in E. destruct E as [E1 E2].
  apply Nat.leb_le in E1. apply Nat.leb_le in E2.
  intros H. inversion H; subst. split.
  - apply orb_false_iff. split.
    + apply Nat.eqb_neq. lia.
    + apply andb_false_iff. right. apply Nat.leb_gt. lia.
  - split; [|split; [|lia]]; intros Hc; subst c;
      vm_compute in E1; vm_compute in E2; lia.
Qed.

(** X12.  The hour of a dropoff event is read from the two characters after
    the eleventh of its timestamp: for a timestamp in the format that
    [isoformat()] writes, a date part of eleven characters followed by two
    digits, it is the number those two digits spell, so it lies between 0
    and 23 for every hour a clock shows. *)
Theorem dropoff_hour_reads_the_hour_digits :
  forall (de : DropoffEvent) (date rest : string) (c1 c2 : ascii) (a b : Z),
    de_timestamp de = (date ++ String c1 (String c2 rest))%string ->
    String.length date = 11 ->
    Sql.digit_of c1 = Some a ->
    Sql.digit_of c2 = Some b ->
    dropoff_hour de = (10 * a + b)%Z
    /\ ((10 * a + b < 24)%Z -> (0 <= dropoff_hour de <= 23)%Z).
Proof.
  intros de date rest c1 c2 a b Hts Hlen H1 H2.
  assert (E : dropoff_hour de = (10 * a + b)%Z).
  { unfold dropoff_hour, Sql.substr. rewrite Hts.
    change (12 - 1) with 11. rewrite <- Hlen, substring_skip.
    cbn [String.substring].
    assert (Hsub : String.substring 0 0 rest = EmptyString) by now destruct rest.
    rewrite Hsub.
    destruct (digit_is_plain c1 H1) as [Hsp [Hm [Hp _]]].
    unfold Sql.cast_integer. cbn [Sql.skip_spaces]. rewrite Hsp.
    assert (Hl : Sql.leading_digits 0 (String c1 (String c2 EmptyString))
                 = (10 * a + b)%Z).
    { cbn [Sql.leading_digits]. rewrite H1. cbn [Sql.leading_digits].
      rewrite H2. cbn [Sql.leading_digits]. lia. }
    destruct c1 as [[] [] [] [] [] [] [] []];
      try exact Hl; try (exfalso; apply Hm; reflexivity);
      exfalso; apply Hp; reflexivity. }
  split; [exact E|]. intros Hlt.
  destruct (digit_is_plain c1 H1) as [_ [_ [_ Ha]]].
  destruct (digit_is_plain c2 H2) as [_ [_ [_ Hb]]]. lia.
Qed.

(** X12, at the dropoff event of the example, stamped ten o'clock. *)
Lemma dropoff_hour_witness :
  dropoff_hour (mkDropoffEvent "d1" "s1" "st-A" "A" "2024-01-01T10:00:03"
                               "stage_not_reached") = (10 * 1 + 0)%Z
  /\ ((10 * 1 + 0 < 24)%Z ->
      (0 <= dropoff_hour (mkDropoffEvent "d1" "s1" "st-A" "A"
                            "2024-01-01T10:00:03" "stage_not_reached") <= 23)%Z).
Proof.
  apply dropoff_hour_reads_the_hour_digits
    with (date := "2024-01-01T") (rest := ":00:03") (c1 := "1"%char)
         (c2 := "0"%char); reflexivity.
Defined.

(* ------------------------------------------------------------------ *)
(** ** Top paths and channel attribution *)

Lemma sorted_app_inv {A : Type} (R : A -> A -> Prop) (l1 l2 : list A) :
  StronglySorted R (l1 ++ l2) ->
  StronglySorted R l1
  /\ forall a b, In a l1 -> In b l2 -> R a b.
Proof.
  induction l1 as [|x l1 IH]; simpl; intros H.
  - split; [constructor | intros a b []].
  - inversion H as [|? ? Hs Hf]; subst. destruct (IH Hs) as [H1 H2].
    rewrite Forall_forall in Hf. split.
    + constructor; [assumption|]. apply Forall_forall. intros y Hy.
      apply Hf. apply in_or_app. now left.
    + intros a b [Ha|Ha] Hb.
      * subst a. apply Hf. apply in_or_app. now right.
      * now apply H2.
Qed.

Lemma sorted_weaken {A : Type} (R R' : A -> A -> Prop) (l : list A) :
  (forall a b, R a b -> R' a b) -> StronglySorted R l -> StronglySorted R' l.
Proof.
  intros HR H. induction H as [|x l Hs IH Hf]; constructor; [assumption|].
  apply Forall_forall. rewrite Forall_forall in Hf. auto.
Qed.

Lemma sql_limit_prefix {A : Type} (n : Z) (l : list A) :
  exists rest, l = sql_limit n l ++ rest.
Proof.
  unfold sql_limit. destruct (n <? 0)%Z.
  - exists []. now rewrite app_nil_r.
  - exists (skipn (Z.to_nat n) l). symmetry. apply firstn_skipn.
Qed.

Lemma filter_swap {A : Type} (p q : A -> bool) (l : list A) :
  filter p (filter q l) = filter q (filter p l).
Proof.
  induction l as [|x l IH]; simpl; [reflexivity|].
  destruct (p x) eqn:Ep, (q x) eqn:Eq; simpl; rewrite ?Ep, ?Eq, IH; reflexivity.
Qed.

Section TopPaths.
Variable sqlite_round2 : float -> float.

Lemma path_groups_signatures (db : DB) :
  map ps_path_signature (path_groups sqlite_round2 db)
    = Sql.distinct String.eqb (map cp_path_signature (conversion_paths db)).
Proof. unfold path_groups. rewrite map_map. simpl. apply map_id. Qed.

Lemma path_groups_row (db : DB) (r : PathStats) :
  In r (path_groups sqlite_round2 db) ->
  ps_occurrences r
    = List.length (filter (fun cp => String.eqb (cp_path_signature cp)
                                                (ps_path_signature r))
                          (conversion_paths db))
  /\ ps_conversions r
     = List.length (filter (fun cp => String.eqb (cp_path_signature cp)
                                                 (ps_path_signature r)
                                      && cp_converted cp)
                           (conversion_paths db))
  /\ 0 < ps_occurrences r
  /\ ps_conversions r <= ps_occurrences r
  /\ ps_conversion_rate r
     = percent_converted sqlite_round2 (ps_conversions r) (ps_occurrences r).
Proof.
  unfold path_groups. intros H. apply in_map_iff in H.
  destruct H as [sig [Hr Hsig]]. subst r.
  cbn [ps_occurrences ps_conversions ps_path_signature ps_conversion_rate].
  split; [reflexivity|]. split.
  { f_equal. clear Hsig. induction (conversion_paths db) as [|cp l IH]; simpl.
    - reflexivity.
    - destruct (String.eqb (cp_path_signature cp) sig); simpl;
        [destruct (cp_converted cp); simpl; now rewrite IH | exact IH]. }
  split.
  { apply (proj1 (SqlFacts.distinct_In _ String.eqb_eq _ _)) in Hsig.
    apply in_map_iff in Hsig. destruct Hsig as [cp [Hcp Hin]].
    assert (Hf : In cp (filter (fun cp' => String.eqb (cp_path_signature cp') sig)
                               (conversion_paths db))).
    { apply filter_In. split; [assumption | now apply String.eqb_eq]. }
    destruct (filter _ (conversion_paths db)); [destruct Hf | simpl; lia]. }
  split; [apply filter_length_le | reflexivity].
Qed.

(** X13.  With a limit that fits 64 bits, each row of
    [get_top_conversion_paths] reports a signature that occurs among the
    stored paths, the number of paths that carry it and the number of
    converted ones among them; no signature is listed twice; the rows come
    in descending order of occurrences; a limit that is not negative
    bounds the number of rows, and the rows it cuts off have no more
    occurrences than any row it keeps.  A limit outside 64 bits raises
    [OverflowError]. *)
Theorem top_paths_count_and_rank_signatures :
  forall (db : DB) (limit : Z),
    (Sql.int64 limit = false ->
     get_top_conversion_paths sqlite_round2 db limit = Raise OverflowError)
    /\ (Sql.int64 limit = true ->
        exists rows : list PathStats,
          get_top_conversion_paths sqlite_round2 db limit = Ok rows
          /\ (forall r, In r rows ->
                ps_occurrences r
                  = List.length (filter (fun cp => String.eqb (cp_path_signature cp)
                                                              (ps_path_signature r))
                                        (conversion_paths db))
                /\ ps_conversions r
                   = List.length (filter (fun cp => String.eqb (cp_path_signature cp)
                                                               (ps_path_signature r)
                                                    && cp_converted cp)
                                         (conversion_paths db))
                /\ 0 < ps_occurrences r
                /\ ps_conversions r <= ps_occurrences r)
          /\ NoDup (map ps_path_signature rows)
          /\ StronglySorted (fun a b => ps_occurrences b <= ps_occurrences a) rows
          /\ ((0 <= limit)%Z -> List.length rows <= Z.to_nat limit)
          /\ exists rest,
               Permutation (path_groups sqlite_round2 db) (rows ++ rest)
               /\ forall a b, In a rows -> In b rest ->
                              ps_occurrences b <= ps_occurrences a).
Proof.
  intros db limit. unfold get_top_conversion_paths. split.
  { intros Hwide. now rewrite (bind_integer_wide _ Hwide). }
  intros Hfits. rewrite (bind_integer_fits _ Hfits). cbn [bind].
  eexists. split; [reflexivity|].
  set (sorted := Sql.order_by occurrences_desc (path_groups sqlite_round2 db)).
  destruct (sql_limit_prefix limit sorted) as [rest Hrest].
  assert (Hperm : Permutation (path_groups sqlite_round2 db) sorted)
    by apply SqlFacts.order_by_perm.
  assert (Hsorted : StronglySorted (fun a b => ps_occurrences b <= ps_occurrences a)
                                   sorted).
  { apply sorted_weaken with (R := Sql.key_le occurrences_desc).
    - unfold Sql.key_le, occurrences_desc. intros a b. lia.
    - apply SqlFacts.order_by_sorted. }
  rewrite Hrest in Hsorted. destruct (sorted_app_inv _ _ Hsorted) as [Hs1 Hs2].
  split.
  { intros r Hr. assert (Hin : In r (path_groups sqlite_round2 db)).
    { apply (Permutation_in _ (Permutation_sym Hperm)). rewrite Hrest.
      apply in_or_app. now left. }
    destruct (path_groups_row db r Hin) as [H1 [H2 [H3 [H4 _]]]]. auto. }
  split.
  { assert (Hnd : NoDup (map ps_path_signature sorted)).
    { apply (Permutation_NoDup (Permutation_map ps_path_signature Hperm)).
      rewrite path_groups_signatures. apply SqlFacts.distinct_NoDup, String.eqb_eq. }
    rewrite Hrest, map_app in Hnd. now apply NoDup_app_remove_r in Hnd. }
  split; [exact Hs1|]. split.
  { intros Hl. unfold sql_limit. assert (E : (limit <? 0)%Z = false)
      by (apply Z.ltb_ge; lia).
    rewrite E. apply firstn_le_length. }
  exists rest. split; [now rewrite <- Hrest | exact Hs2].
Qed.

(** X14.  With a negative limit, or one that reaches the number of stored
    paths, the listing leaves nothing out: every stored signature has its
    row, the occurrences sum to the number of stored paths and the
    conversions to the number of converted ones. *)
Theorem top_paths_without_cut_cover_all_paths :
  forall (db : DB) (limit : Z),
    Sql.int64 limit = true ->
    (limit < 0)%Z \/ (Z.of_nat (List.length (conversion_paths db)) <= limit)%Z ->
    exists rows : list PathStats,
      get_top_conversion_paths sqlite_round2 db limit = Ok rows
      /\ (forall cp, In cp (conversion_paths db) ->
                     In (cp_path_signature cp) (map ps_path_signature rows))
      /\ list_sum (map ps_occurrences rows) = List.length (conversion_paths db)
      /\ list_sum (map ps_conversions rows)
         = List.length (filter cp_converted (conversion_paths db)).
Proof.
  intros db limit Hfits Hlimit.
  exists (Sql.order_by occurrences_desc (path_groups sqlite_round2 db)).
  split.
  { unfold get_top_conversion_paths. rewrite (bind_integer_fits _ Hfits).
    cbn [bind]. f_equal. unfold sql_limit.
    destruct (limit <? 0)%Z eqn:E; [reflexivity|].
    apply Z.ltb_ge in E. destruct Hlimit as [Hn|Hbig]; [lia|].
    apply firstn_all2. rewrite SqlFacts.order_by_length.
    unfold path_groups. rewrite length_map.
    assert (Hd : List.length (Sql.distinct String.eqb
                                (map cp_path_signature (conversion_paths db)))
                 <= List.length (conversion_paths db)).
    { rewrite <- (length_map cp_path_signature (conversion_paths db)).
      apply NoDup_incl_length.
      - apply SqlFacts.distinct_NoDup, String.eqb_eq.
      - intros x Hx.
        exact (proj1 (SqlFacts.distinct_In _ String.eqb_eq _ _) Hx). }
    lia. }
  assert (Hperm : Permutation (path_groups sqlite_round2 db)
                    (Sql.order_by occurrences_desc (path_groups sqlite_round2 db)))
    by apply SqlFacts.order_by_perm.
  split.
  { intros cp Hcp.
    apply (Permutation_in _ (Permutation_map ps_path_signature Hperm)).
    rewrite path_groups_signatures. apply (SqlFacts.distinct_In _ String.eqb_eq).
    now apply in_map. }
  split.
  - rewrite <- (Permutation_list_sum (Permutation_map ps_occurrences Hperm)).
    unfold path_groups. rewrite map_map. cbn [ps_occurrences].
    apply (count_key_cover String.eqb cp_path_signature String.eqb_eq).
    + apply SqlFacts.distinct_NoDup, String.eqb_eq.
    + intros cp Hcp. apply (SqlFacts.distinct_In _ String.eqb_eq).
      now apply in_map.
  - rewrite <- (Permutation_list_sum (Permutation_map ps_conversions Hperm)).
    unfold path_groups. rewrite map_map. cbn [ps_conversions].
    transitivity
      (list_sum
         (map (fun sig =>
                 List.length
                   (filter (fun cp => String.eqb (cp_path_signature cp) sig)
                           (filter cp_converted (conversion_paths db))))
              (Sql.distinct String.eqb
                 (map cp_path_signature (conversion_paths db))))).
    + f_equal. apply map_ext. intros sig. now rewrite filter_swap.
    + apply (count_key_cover String.eqb cp_path_signature String.eqb_eq).
      * apply SqlFacts.distinct_NoDup, String.eqb_eq.
      * intros cp Hcp. apply filter_In in Hcp. destruct Hcp as [Hcp _].
        apply (SqlFacts.distinct_In _ String.eqb_eq). now apply in_map.
Qed.
End TopPaths.

(** X14, at the store where the example session was closed twice, with
    Python's rounding in the place of SQLite's and the default limit. *)
Lemma top_paths_without_cut_witness :
  exists rows : list PathStats,
    get_top_conversion_paths Py.round2 (fst Examples.closed_twice) 10 = Ok rows
    /\ (forall cp, In cp (conversion_paths (fst Examples.closed_twice)) ->
                   In (cp_path_signature cp) (map ps_path_signature rows))
    /\ list_sum (map ps_occurrences rows)
       = List.length (conversion_paths (fst Examples.closed_twice))
    /\ list_sum (map ps_conversions rows)
       = List.length (filter cp_converted
                             (conversion_paths (fst Examples.closed_twice))).
Proof.
  apply top_paths_without_cut_cover_all_paths; [reflexivity|].
  right. simpl. lia.
Defined.

Section ChannelAttribution.
Variable sqlite_round2 : float -> float.
Variable sqlite_avg : list float -> float.

Lemma channel_groups_channels (db : DB) (cutoff : string) :
  map ch_channel (channel_groups sqlite_round2 sqlite_avg db cutoff)
    = Sql.distinct String.eqb
        (map cs_channel (filter (in_window cutoff) (sessions db))).
Proof. unfold channel_groups. rewrite map_map. simpl. apply map_id. Qed.

Lemma channel_groups_row (db : DB) (cutoff : string) (r : ChannelStats) :
  In r (channel_groups sqlite_round2 sqlite_avg db cutoff) ->
  ch_sessions r
    = List.length (filter (fun s => String.eqb (cs_channel s) (ch_channel r))
                          (filter (in_window cutoff) (sessions db)))
  /\ ch_conversions r
     = List.length
         (filter cs_converted
            (filter (fun s => String.eqb (cs_channel s) (ch_channel r))
                    (filter (in_window cutoff) (sessions db))))
  /\ 0 < ch_sessions r
  /\ ch_conversions r <= ch_sessions r
  /\ (ch_conversions r = 0 -> ch_avg_value r = None)
  /\ (forall v, ch_avg_value r = Some v ->
        Sql.is_null v = false
        /\ exists s, In s (sessions db) /\ in_window cutoff s = true
                     /\ cs_channel s = ch_channel r /\ cs_converted s = true
                     /\ Sql.is_null (cs_conversion_value s) = false).
Proof.
  unfold channel_groups. intros H. apply in_map_iff in H.
  destruct H as [c [Hr Hc]]. subst r.
  cbn [ch_sessions ch_conversions ch_channel ch_avg_value].
  split; [reflexivity|]. split; [reflexivity|]. split.
  { apply (proj1 (SqlFacts.distinct_In _ String.eqb_eq _ _)) in Hc.
    apply in_map_iff in Hc. destruct Hc as [s [Hs Hin]].
    assert (Hf : In s (filter (fun s' => String.eqb (cs_channel s') c)
                         (filter (fun s' => String.leb cutoff (cs_start_time s'))
                                 (sessions db)))).
    { apply filter_In. split; [assumption | now apply String.eqb_eq]. }
    destruct (filter (fun s' => String.eqb (cs_channel s') c) _);
      [destruct Hf | simpl; lia]. }
  split; [apply filter_length_le|].
  unfold avg_converted_value. split.
  - intros H0. apply length_zero_iff_nil in H0. now rewrite H0.
  - intros v Hv.
    destruct (Sql.not_null _) as [|x xs] eqn:En; [discriminate|].
    destruct (python_real (sqlite_avg (x :: xs))) as [a|]; [|discriminate].
    apply python_real_Some in Hv. destruct Hv as [_ Hv]. split; [exact Hv|].
    assert (Hx : In x (Sql.not_null
                         (map cs_conversion_value
                            (filter cs_converted
                               (filter (fun s => String.eqb (cs_channel s) c)
                                  (filter (fun s => String.leb cutoff (cs_start_time s))
                                          (sessions db))))))).
    { rewrite En. now left. }
    apply not_null_In in Hx. destruct Hx as [Hx Hnn].
    apply in_map_iff in Hx. destruct Hx as [s [Hs Hin]].
    apply filter_In in Hin. destruct Hin as [Hin Hconv].
    apply filter_In in Hin. destruct Hin as [Hin Hch].
    apply filter_In in Hin. destruct Hin as [Hin Hw].
    exists s. rewrite Hs. apply String.eqb_eq in Hch. auto.
Qed.

(** X15.  Each row of [get_channel_attribution] reports a channel of some
    session in the window, the number of sessions of the window on that
    channel and the number of converted ones among them; the average value
    is missing when none converted, and when it is there it is a number
    and some converted session of the channel has a value that is not
    [NULL]; no channel is listed twice and every channel of the window is
    listed; the rows come in descending order of conversions; the session
    counts sum to the number of sessions in the window. *)
Theorem channel_attribution_counts_sessions_by_channel :
  forall (db : DB) (cutoff : string),
    (forall r, In r (get_channel_attribution sqlite_round2 sqlite_avg db cutoff) ->
       ch_sessions r
         = List.length (filter (fun s => String.eqb (cs_channel s) (ch_channel r))
                               (filter (in_window cutoff) (sessions db)))
       /\ ch_conversions r
          = List.length
              (filter cs_converted
                 (filter (fun s => String.eqb (cs_channel s) (ch_channel r))
                         (filter (in_window cutoff) (sessions db))))
       /\ 0 < ch_sessions r
       /\ ch_conversions r <= ch_sessions r
       /\ (ch_conversions r = 0 -> ch_avg_value r = None)
       /\ (forall v, ch_avg_value r = Some v ->
             Sql.is_null v = false
             /\ exists s, In s (sessions db) /\ in_window cutoff s = true
                          /\ cs_channel s = ch_channel r /\ cs_converted s = true
                          /\ Sql.is_null (cs_conversion_value s) = false))
    /\ NoDup (map ch_channel (get_channel_attribution sqlite_round2 sqlite_avg db cutoff))
    /\ (forall s, In s (sessions db) -> in_window cutoff s = true ->
                  In (cs_channel s)
                     (map ch_channel
                          (get_channel_attribution sqlite_round2 sqlite_avg db cutoff)))
    /\ StronglySorted (fun a b => ch_conversions b <= ch_conversions a)
                      (get_channel_attribution sqlite_round2 sqlite_avg db cutoff)
    /\ list_sum (map ch_sessions (get_channel_attribution sqlite_round2 sqlite_avg db cutoff))
       = List.length (filter (in_window cutoff) (sessions db)).
Proof.
  intros db cutoff. unfold get_channel_attribution.
  assert (Hperm : Permutation (channel_groups sqlite_round2 sqlite_avg db cutoff)
                    (Sql.order_by conversions_desc
                       (channel_groups sqlite_round2 sqlite_avg db cutoff)))
    by apply SqlFacts.order_by_perm.
  split.
  { intros r Hr. apply channel_groups_row.
    now apply (Permutation_in _ (Permutation_sym Hperm)). }
  split.
  { apply (Permutation_NoDup (Permutation_map ch_channel Hperm)).
    rewrite channel_groups_channels. apply SqlFacts.distinct_NoDup, String.eqb_eq. }
  split.
  { intros s Hs Hw. apply (Permutation_in _ (Permutation_map ch_channel Hperm)).
    rewrite channel_groups_channels. apply (SqlFacts.distinct_In _ String.eqb_eq).
    apply in_map. apply filter_In. auto. }
  split.
  { apply sorted_weaken with (R := Sql.key_le conversions_desc).
    - unfold Sql.key_le, conversions_desc. intros a b. lia.
    - apply SqlFacts.order_by_sorted. }
  rewrite <- (Permutation_list_sum (Permutation_map ch_sessions Hperm)).
  unfold channel_groups. rewrite map_map. cbn [ch_sessions].
  apply (count_key_cover String.eqb cs_channel String.eqb_eq).
  - apply SqlFacts.distinct_NoDup, String.eqb_eq.
  - intros s Hs. apply (SqlFacts.distinct_In _ String.eqb_eq). now apply in_map.
Qed.
End ChannelAttribution.

(** The channel listing of the store with two buyers, whatever SQLite's
    rounding and averaging are; and of the store whose only converted
    session has no value: one conversion, and no average. *)
Lemma channel_attribution_example (sqlite_round2 : float -> float)
    (sqlite_avg : list float -> float) :
  map (fun r => (ch_channel r, ch_sessions r, ch_conversions r))
      (get_channel_attribution sqlite_round2 sqlite_avg Examples.two_buyers
                               "2024-01-01T00:00:00")
    = [("web", 2, 2)]
  /\ map (fun r => (ch_channel r, ch_sessions r, ch_conversions r, ch_avg_value r))
         (get_channel_attribution sqlite_round2 sqlite_avg Examples.nan_buyer
                                  "2024-01-01T00:00:00")
     = [("web", 1, 1, None)].
Proof. split; reflexivity. Qed.

(* ------------------------------------------------------------------ *)
(** ** Lifetime-value rows and segments *)

(** X16.  The grouped query behind the segmentation has exactly one row
    per customer that has a converted session, and sessions that did not
    convert contribute nothing: two stores with the same converted
    sessions give the same rows. *)
Theorem ltv_rows_one_per_converting_customer :
  forall db : DB,
    NoDup (map fst (ltv_rows db))
    /\ (forall c, In c (map fst (ltv_rows db)) <->
                  exists s, In s (sessions db) /\ cs_converted s = true
                            /\ cs_customer_id s = c)
    /\ (forall db2 : DB,
          filter cs_converted (sessions db2) = filter cs_converted (sessions db) ->
          ltv_rows db2 = ltv_rows db).
Proof.
  intros db.
  assert (Hkeys : map fst (ltv_rows db)
                  = Sql.distinct String.eqb
                      (map cs_customer_id (filter cs_converted (sessions db)))).
  { unfold ltv_rows. rewrite map_map. simpl. apply map_id. }
  split; [rewrite Hkeys; apply SqlFacts.distinct_NoDup, String.eqb_eq|].
  split.
  - intros c. rewrite Hkeys, (SqlFacts.distinct_In _ String.eqb_eq), in_map_iff.
    split.
    + intros [s [Hc Hs]]. apply filter_In in Hs. exists s. tauto.
    + intros [s [Hs [Hconv Hc]]]. exists s. split; [assumption|].
      apply filter_In. tauto.
  - intros db2 H. unfold ltv_rows. rewrite H. reflexivity.
Qed.

Lemma range_In (n i : Z) : In i (Py.range n) <-> (0 <= i < n)%Z.
Proof.
  unfold Py.range. rewrite in_map_iff. split.
  - intros [k [Hk Hin]]. apply in_seq in Hin. lia.
  - intros H. exists (Z.to_nat i). split; [lia|]. apply in_seq. lia.
Qed.

Lemma int_fits_float_iff (z : Z) :
  Py.int_fits_float z = true <-> (- Py.float_bound < z < Py.float_bound)%Z.
Proof. unfold Py.int_fits_float. rewrite Z.ltb_lt. lia. Qed.

Lemma float_bound_pos : (0 < Py.float_bound)%Z.
Proof. reflexivity. Qed.

Lemma for_append_all {A B : Type} (body : A -> result B) (g : A -> B) (l : list A) :
  (forall x, In x l -> body x = Ok (g x)) -> Py.for_append body l = Ok (map g l).
Proof.
  induction l as [|x l IH]; intros H; simpl; [reflexivity|].
  rewrite (H x (or_introl eq_refl)). cbn [bind].
  rewrite IH by (intros y Hy; apply H; now right). reflexivity.
Qed.

Lemma for_append_raises {A B : Type} (body : A -> result B) (e : error)
    (l : list A) :
  (forall x, In x l -> body x = Raise e \/ exists y, body x = Ok y) ->
  (exists x, In x l /\ body x = Raise e) ->
  Py.for_append body l = Raise e.
Proof.
  induction l as [|x l IH]; intros Hall [z [Hz He]]; [destruct Hz|]. simpl.
  destruct (Hall x (or_introl eq_refl)) as [Hx|[y Hx]]; rewrite Hx; cbn [bind].
  - reflexivity.
  - destruct Hz as [Hz|Hz]; [subst z; congruence|].
    rewrite IH; [reflexivity | intros w Hw; apply Hall; now right | eauto].
Qed.

(** X17.  On a store with converted sessions,
    [compute_customer_ltv_segments] raises [TypeError] when the total of
    some customer is [NULL].  Otherwise it raises [OverflowError] when the
    totals differ and the number of buckets is too large for a [float],
    or when the totals are equal and a bucket index is; it raises
    [ZeroDivisionError] when zero buckets are asked for and the totals
    differ; and for any other number of buckets that a [float] can hold it
    returns as many segments as buckets were asked for, none for a
    negative number, numbered from 1 with the labels ["Segment 1"],
    ["Segment 2"], and so on, and no segment counts more customers than
    there are rows. *)
Theorem ltv_segments_shape_and_error :
  forall (db : DB) (buckets : Z) (r : string * float) (rest : list (string * float)),
    ltv_rows db = r :: rest ->
    (existsb (fun row => Sql.is_null (snd row)) (r :: rest) = true ->
     compute_customer_ltv_segments db buckets = Raise TypeError)
    /\ (existsb (fun row => Sql.is_null (snd row)) (r :: rest) = false ->
        (PrimFloat.ltb (Py.min_of (snd r) (map snd rest))
                       (Py.max_of (snd r) (map snd rest)) = true ->
         Py.int_fits_float buckets = false ->
         compute_customer_ltv_segments db buckets = Raise OverflowError)
        /\ (PrimFloat.ltb (Py.min_of (snd r) (map snd rest))
                          (Py.max_of (snd r) (map snd rest)) = false ->
            (Py.float_bound < buckets)%Z ->
            compute_customer_ltv_segments db buckets = Raise OverflowError)
        /\ (buckets = 0%Z
            /\ PrimFloat.ltb (Py.min_of (snd r) (map snd rest))
                             (Py.max_of (snd r) (map snd rest)) = true ->
            compute_customer_ltv_segments db buckets = Raise ZeroDivisionError)
        /\ (Py.int_fits_float buckets = true ->
            buckets <> 0%Z
            \/ PrimFloat.ltb (Py.min_of (snd r) (map snd rest))
                             (Py.max_of (snd r) (map snd rest)) = false ->
            exists segments,
              compute_customer_ltv_segments db buckets = Ok segments
              /\ List.length segments = Z.to_nat buckets
              /\ map bucket segments = map (fun i => (i + 1)%Z) (Py.range buckets)
              /\ map label segments
                 = map (fun i => ("Segment " ++ Py.str_of_int (i + 1))%string)
                       (Py.range buckets)
              /\ forall seg, In seg segments ->
                             customer_count seg <= List.length (ltv_rows db))).
Proof.
  intros db buckets r rest Hrows. unfold compute_customer_ltv_segments.
  rewrite Hrows. split; [now intros ->|]. intros ->.
  unfold bucket_width. cbn [Py.ltb Py.binary64].
  split; [|split; [|split]].
  - intros Hlt Hwide. rewrite Hlt, Hwide. reflexivity.
  - intros Hlt Hbig. rewrite Hlt. cbn [andb bind].
    apply for_append_raises.
    + intros i _. unfold segment. destruct (Py.int_fits_float i); eauto.
    + exists Py.float_bound. split.
      * apply range_In. pose proof float_bound_pos. lia.
      * unfold segment.
        assert (E : Py.int_fits_float Py.float_bound = false).
        { destruct (Py.int_fits_float Py.float_bound) eqn:E; [|reflexivity].
          apply int_fits_float_iff in E. lia. }
        now rewrite E.
  - intros [Hb Hlt]. rewrite Hlt, Hb. reflexivity.
  - intros Hfits Hok. rewrite Hfits, andb_false_r.
    assert (Hw : exists w,
               (if PrimFloat.ltb (Py.min_of (snd r) (map snd rest))
                                 (Py.max_of (snd r) (map snd rest))
                then if Z.eqb buckets 0 then Raise ZeroDivisionError
                     else Ok (Py.div (Py.sub (Py.max_of (snd r) (map snd rest))
                                             (Py.min_of (snd r) (map snd rest)))
                                     (Py.of_int buckets))
                else Ok (Py.of_int 1)) = Ok w).
    { destruct (PrimFloat.ltb _ _) eqn:E.
      - destruct Hok as [Hb|Hf]; [|discriminate].
        apply Z.eqb_neq in Hb. rewrite Hb. eexists. reflexivity.
      - eexists. reflexivity. }
    destruct Hw as [w Hw]. rewrite Hw. cbn [bind].
    eexists. split.
    { apply for_append_all with
        (g := fun i =>
                mkSegment (i + 1)
                  (Py.round2 (bucket_lo (Py.min_of (snd r) (map snd rest)) w i))
                  (Py.round2 (bucket_hi (Py.min_of (snd r) (map snd rest)) w i))
                  (List.length (bucket_members (r :: rest) buckets
                                  (Py.min_of (snd r) (map snd rest)) w i))
                  ("Segment " ++ Py.str_of_int (i + 1))).
      intros i Hi. apply range_In in Hi. unfold segment.
      assert (E : Py.int_fits_float i = true).
      { apply int_fits_float_iff. apply int_fits_float_iff in Hfits. lia. }
      now rewrite E. }
    split; [unfold Py.range; now rewrite !length_map, length_seq|].
    split; [now rewrite map_map|]. split; [now rewrite map_map|].
    intros seg Hseg. apply in_map_iff in Hseg. destruct Hseg as [i [Hi _]].
    subst seg. cbn [customer_count]. unfold bucket_members.
    rewrite length_map. apply filter_length_le.
Qed.

(** X17, at the store with two buyers and the default five buckets. *)
Lemma ltv_segments_shape_witness :
  (existsb (fun row => Sql.is_null (snd row))
           [("c1", 19.99%float); ("c2", 59.99%float)] = true ->
   compute_customer_ltv_segments Examples.two_buyers 5 = Raise TypeError)
  /\ (existsb (fun row => Sql.is_null (snd row))
              [("c1", 19.99%float); ("c2", 59.99%float)] = false ->
      (PrimFloat.ltb (Py.min_of 19.99%float (map snd [("c2", 59.99%float)]))
                     (Py.max_of 19.99%float (map snd [("c2", 59.99%float)])) = true ->
       Py.int_fits_float 5 = false ->
       compute_customer_ltv_segments Examples.two_buyers 5 = Raise OverflowError)
      /\ (PrimFloat.ltb (Py.min_of 19.99%float (map snd [("c2", 59.99%float)]))
                        (Py.max_of 19.99%float (map snd [("c2", 59.99%float)]))
          = false ->
          (Py.float_bound < 5)%Z ->
          compute_customer_ltv_segments Examples.two_buyers 5 = Raise OverflowError)
      /\ (5%Z = 0%Z
          /\ PrimFloat.ltb (Py.min_of 19.99%float (map snd [("c2", 59.99%float)]))
                           (Py.max_of 19.99%float (map snd [("c2", 59.99%float)]))
             = true ->
          compute_customer_ltv_segments Examples.two_buyers 5
            = Raise ZeroDivisionError)
      /\ (Py.int_fits_float 5 = true ->
          5%Z <> 0%Z
          \/ PrimFloat.ltb (Py.min_of 19.99%float (map snd [("c2", 59.99%float)]))
                           (Py.max_of 19.99%float (map snd [("c2", 59.99%float)]))
             = false ->
          exists segments,
            compute_customer_ltv_segments Examples.two_buyers 5 = Ok segments
            /\ List.length segments = Z.to_nat 5
            /\ map bucket segments = map (fun i => (i + 1)%Z) (Py.range 5)
            /\ map label segments
               = map (fun i => ("Segment " ++ Py.str_of_int (i + 1))%string)
                     (Py.range 5)
            /\ forall seg, In seg segments ->
                           customer_count seg
                             <= List.length (ltv_rows Examples.two_buyers))).
Proof.
  apply (@ltv_segments_shape_and_error Examples.two_buyers 5
           ("c1", 19.99%float) [("c2", 59.99%float)]).
  vm_compute. reflexivity.
Defined.

(** The error paths of the segmentation at work: a total that is [NULL]
    raises [TypeError]; with two customers whose totals differ, a number
    of buckets that no [float] can hold raises [OverflowError] and zero
    buckets raise [ZeroDivisionError]. *)
Lemma ltv_segments_error_examples :
  ltv_rows Examples.nan_buyer = [("c1", Sql.null)]
  /\ compute_customer_ltv_segments Examples.nan_buyer 5 = Raise TypeError
  /\ compute_customer_ltv_segments Examples.two_buyers (10 ^ 400)
     = Raise OverflowError
  /\ compute_customer_ltv_segments Examples.two_buyers 0 = Raise ZeroDivisionError.
Proof. repeat split; vm_compute; reflexivity. Qed.

(* ------------------------------------------------------------------ *)
(** ** Journey heatmap, further *)

(** X18.  Recording a touchpoint changes the heatmap of a window exactly
    when its timestamp is in the window and parses: then the count of its
    day and hour and the total grow by one and nothing else changes.  The
    session identifier plays no part, so a touchpoint of a session that
    was never started is counted like any other. *)
Theorem recorded_touchpoint_enters_heatmap :
  forall (fromisoformat : string -> option pydatetime) (db db' : DB)
         (new_id now session_id customer_id channel page event_type : string)
         (duration_ms : Z) (metadata : option string) (res : pydict)
         (cutoff : string),
    record_touchpoint db new_id now session_id customer_id channel page event_type
                      duration_ms metadata = Ok (db', res) ->
    total_touchpoints (get_journey_heatmap fromisoformat db' cutoff)
      = total_touchpoints (get_journey_heatmap fromisoformat db cutoff)
        + (if String.leb cutoff now && parses fromisoformat now then 1 else 0)
    /\ (forall d h,
          cell (matrix (get_journey_heatmap fromisoformat db' cutoff)) d h
            = cell (matrix (get_journey_heatmap fromisoformat db cutoff)) d h
              + (if String.leb cutoff now && falls_on fromisoformat d h now
                 then 1 else 0))
    /\ (String.leb cutoff now && parses fromisoformat now = false ->
        get_journey_heatmap fromisoformat db' cutoff
          = get_journey_heatmap fromisoformat db cutoff).
Proof.
  intros fromisoformat db db' new_id now session_id customer_id channel page
         event_type duration_ms metadata res cutoff Hrec.
  apply record_touchpoint_inv in Hrec.
  destruct Hrec as [_ [tp [_ [_ [_ [Hts [_ Hdb]]]]]]].
  assert (Hrows : timestamps_since db' cutoff
                  = timestamps_since db cutoff
                    ++ (if String.leb cutoff now then [now] else [])).
  { unfold timestamps_since. rewrite Hdb. cbn [touchpoints].
    rewrite filter_app, map_app. f_equal. simpl. rewrite Hts.
    destruct (String.leb cutoff now); simpl; now rewrite ?Hts. }
  destruct (count_rows_fold fromisoformat (timestamps_since db' cutoff)
              zero_matrix_shaped) as [_ [T' C']].
  destruct (count_rows_fold fromisoformat (timestamps_since db cutoff)
              zero_matrix_shaped) as [_ [T C]].
  unfold get_journey_heatmap. cbn [total_touchpoints matrix].
  split.
  { rewrite T', T, Hrows, filter_app, length_app.
    destruct (String.leb cutoff now); simpl; [|lia].
    destruct (parses fromisoformat now); simpl; lia. }
  split.
  { intros d h. rewrite C', C, Hrows, filter_app, length_app.
    destruct (String.leb cutoff now); simpl; [|lia].
    destruct (falls_on fromisoformat d h now); simpl; lia. }
  intros Hskip. rewrite Hrows, fold_left_app.
  destruct (String.leb cutoff now); simpl in *; [|reflexivity].
  unfold count_row. unfold parses in Hskip.
  destruct (fromisoformat now); [discriminate | reflexivity].
Qed.

(** X18, at the touchpoint of the example session, stamped ten o'clock on
    a Monday. *)
Lemma recorded_touchpoint_heatmap_witness :
  total_touchpoints (get_journey_heatmap Examples.one_hour_parser
                       Examples.open_session "2024-01-01T00:00:00")
    = total_touchpoints (get_journey_heatmap Examples.one_hour_parser
                           Examples.started "2024-01-01T00:00:00")
      + (if String.leb "2024-01-01T00:00:00" "2024-01-01T10:00:01"
            && parses Examples.one_hour_parser "2024-01-01T10:00:01"
         then 1 else 0)
  /\ (forall d h,
        cell (matrix (get_journey_heatmap Examples.one_hour_parser
                        Examples.open_session "2024-01-01T00:00:00")) d h
          = cell (matrix (get_journey_heatmap Examples.one_hour_parser
                            Examples.started "2024-01-01T00:00:00")) d h
            + (if String.leb "2024-01-01T00:00:00" "2024-01-01T10:00:01"
                  && falls_on Examples.one_hour_parser d h "2024-01-01T10:00:01"
               then 1 else 0))
  /\ (String.leb "2024-01-01T00:00:00" "2024-01-01T10:00:01"
      && parses Examples.one_hour_parser "2024-01-01T10:00:01" = false ->
      get_journey_heatmap Examples.one_hour_parser Examples.open_session
                          "2024-01-01T00:00:00"
        = get_journey_heatmap Examples.one_hour_parser Examples.started
                              "2024-01-01T00:00:00").
Proof.
  apply recorded_touchpoint_enters_heatmap
    with (new_id := "t1") (session_id := "s1") (customer_id := "c1")
         (channel := "web") (page := "/") (event_type := "b")
         (duration_ms := 0%Z) (metadata := None)
         (res := [("touchpoint_id", PStr "t1"); ("stage_entered", PStr "B");
                  ("position", PInt 1); ("stage_id", PStr "st-B")]).
  reflexivity.
Defined.

(* ------------------------------------------------------------------ *)
(** ** Defining a stage, then recording its event *)


